(** * convgp / mnist.py: the resumable training launcher

    A shallow embedding of [mnist.py]: the command-line namespace and the
    [run_settings] dictionary built from it, [MnistExperiment.setup_model],
    [MnistExperiment.setup_logger], the relaunch loop of the script with its
    learning-rate derivation, and the evaluation-only branch.

    Conventions.
    - Python floats are idealised as real numbers ([R]); the special values
      [inf], [-inf] and [nan] are kept apart in [pyfloat].  Rounding,
      overflow and underflow of float operations are not modelled, so
      statements about rates are kept to those that survive rounding.
    - numpy's integers are 64 bits wide and wrap around; the wrap-around is
      written out with [wrap64].  Where versions of numpy differ, the
      model follows NumPy 2 under Python 3.
    - Python exceptions are values of [exn]; a statement that raises leaves
      the state as it was when the exception was raised.
    - GPflow, numpy, pandas, opt_tools and the base class of exp_tools are
      collaborators, gathered in the class [External]. *)

From Stdlib Require Import ZArith List String Reals Lra Lia.
From stdpp Require Import gmap strings pretty.

Local Open Scope Z_scope.
Local Open Scope string_scope.

(** ** Python values *)

Inductive pyfloat :=
| Fin (r : R)
| PInf
| NInf
| NaN.

Inductive pyval :=
| VNone
| VBool (b : bool)
| VInt (z : Z)
| VFloat (x : pyfloat)
| VStr (s : string).

Inductive exn :=
| NotImplementedError
| KeyError (key : string)
| AttributeError (attr : string)
| IndexError
| ZeroDivisionError
| PickleError (msg : string)
| FileNotFoundError (path : string)
| TypeError
| ValueError
| OverflowError
| PermissionError
| OptimizerStepError (msg : string).

#[global] Instance Rlt_decision : RelDecision Rlt := Rlt_dec.
#[global] Instance Rle_decision : RelDecision Rle := Rle_dec.
#[global] Instance Req_decision : EqDecision R := Req_dec_T.

(** [x + y] on floats with the IEEE special values. *)
Definition pf_add (x y : pyfloat) : pyfloat :=
  match x, y with
  | NaN, _ | _, NaN => NaN
  | PInf, NInf | NInf, PInf => NaN
  | PInf, _ | _, PInf => PInf
  | NInf, _ | _, NInf => NInf
  | Fin a, Fin b => Fin (a + b)
  end.

(** [x / n] for a count [n] of elements; [0 / 0] and [inf / 0] are [nan]
    for numpy's [mean] of an empty array. *)
Definition pf_div_count (x : pyfloat) (n : nat) : pyfloat :=
  match n with
  | O => NaN
  | S _ =>
      match x with
      | Fin a => Fin (a / INR n)
      | other => other
      end
  end.

(** [np.mean] of a one-dimensional array. *)
Definition np_mean (l : list pyfloat) : pyfloat :=
  pf_div_count (foldr pf_add (Fin 0) l) (length l).

(** [np.log] of a real entry. *)
Definition np_log (x : R) : pyfloat :=
  if decide (0 < x)%R then Fin (ln x)
  else if decide (x = 0%R) then NInf else NaN.

(** ** Outcomes, and the monad of the script *)

Inductive outcome (A : Type) :=
| Ret (a : A)
| Raise (e : exn).
Arguments Ret {A} a.
Arguments Raise {A} e.

#[global] Instance outcome_ret : MRet outcome := fun A a => Ret a.
#[global] Instance outcome_bind : MBind outcome := fun A B f c =>
  match c with
  | Ret a => f a
  | Raise e => Raise e
  end.

(** ** 64-bit integers *)

Definition int64_min : Z := - 2 ^ 63.
Definition int64_max : Z := 2 ^ 63 - 1.

(** The [int64] an integer result wraps around to. *)
Definition wrap64 (z : Z) : Z := (z - int64_min) mod 2 ^ 64 + int64_min.

(** The iteration counts an [int64] column can hold. *)
Definition is_iteration (z : Z) : bool := (0 <=? z)%Z && (z <=? int64_max)%Z.

Definition is_iteration_mod (z : Z) : is_iteration (z mod 2 ^ 63) = true.
Proof.
  unfold is_iteration, int64_max.
  pose proof (Z.mod_pos_bound z (2 ^ 63) ltac:(lia)) as [Hlo Hhi].
  apply andb_true_intro. split; [apply Z.leb_le | apply Z.leb_le]; lia.
Qed.

(** Modelled from the spec: the iteration of a ProgressRecord (section 3),
    an integer that is not negative; the frame that opt_tools pickles,
    which is not in the source, holds it in a column of dtype [int64]. *)
Record iteration := {
  iteration_Z : Z;
  iteration_ok : is_iteration iteration_Z = true
}.

(** An optimiser's step counter as the frame stores it. *)
Definition to_iteration (z : Z) : iteration :=
  {| iteration_Z := z mod 2 ^ 63; iteration_ok := is_iteration_mod z |}.

(** ** Data of the experiment *)

(** A row of the feature matrices [X], [Xt]. *)
Definition row := list R.

(** A row of the history DataFrame: the iteration column [i], the elapsed
    time [t], and the tracked accuracy and log predictive probability. *)
Record HistRow := {
  h_i : iteration;
  h_t : R;
  h_acc : pyfloat;
  h_lpp : pyfloat
}.

(** What lies at a path: a pickled DataFrame; bytes that [read_pickle]
    rejects with the given exception; or a file that is there but that
    [os.stat] cannot reach (a directory of the path may not be searched, a
    symbolic link loops), so that every access fails with the given
    exception. *)
Inductive file_content :=
| Pickled (h : list HistRow)
| Unreadable (e : exn)
| NoStat (e : exn).

(** [h.i.max()]: the greatest entry of column [i]; [None] stands for the
    [nan] pandas returns on a frame without rows. *)
Definition i_max (h : list HistRow) : option Z :=
  match h with
  | [] => None
  | r :: rest =>
      Some (foldr (fun r' acc => Z.max (iteration_Z (h_i r')) acc)
              (iteration_Z (h_i r)) rest)
  end.

(** ** Kernels *)

#[local] Unset Elimination Schemes.
Inductive kern :=
| RBF (input_dim : Z)
| Polynomial (input_dim : Z) (degree : R)
| White (input_dim : Z) (variance : R)
| ConvRBF (img_size patch_size : list Z)
| WeightedConv (basekern : kern) (img_size patch_size : list Z)
| Add (kern_list : list kern).
#[local] Set Elimination Schemes.

(** [k1 + k2] of GPflow kernels: an [Add] whose list absorbs the lists of
    operands that are sums themselves. *)
Definition kern_list_of (k : kern) : list kern :=
  match k with
  | Add ks => ks
  | other => [other]
  end.

Definition kadd (k1 k2 : kern) : kern := Add (kern_list_of k1 ++ kern_list_of k2).

Definition is_Add (k : kern) : bool :=
  match k with
  | Add _ => true
  | _ => false
  end.

(** ** Tasks of the optimisation helper *)

(** The sequences handed to the tasks as trigger schedules. *)
Inductive sequence :=
| seq_exp_lin (growth max_step : R) (start_jump : option R)
| count (start step : Z).

Inductive trigger := TrigIter | TrigTime.

Inductive task :=
| DisplayOptimisation (s : sequence)
| GPflowLogOptimisation (s : sequence)
| GPflowMultiClassificationTrackerLml
    (Xt : list row) (Yt : list (list Z)) (s : sequence) (trig : trigger)
    (verbose : bool) (store_x store_x_columns : string)
| GPflowMultiClassificationTracker
    (Xt : list row) (Yt : list (list Z)) (s : sequence) (trig : trigger)
    (verbose : bool) (store_x store_x_columns : string)
    (old_hist : option (list HistRow))
| StoreOptimisationHistory (path : string) (s : sequence) (trig : trigger)
    (verbose : bool)
| Timeout (threshold : pyval).

(** The task classes, to speak of a task irrespective of its arguments. *)
Inductive task_kind :=
| KDisplay | KLog | KTrackerLml | KTracker | KStore | KTimeout.

#[global] Instance task_kind_eq_dec : EqDecision task_kind.
Proof. solve_decision. Defined.

Definition kind_of (t : task) : task_kind :=
  match t with
  | DisplayOptimisation _ => KDisplay
  | GPflowLogOptimisation _ => KLog
  | GPflowMultiClassificationTrackerLml _ _ _ _ _ _ _ => KTrackerLml
  | GPflowMultiClassificationTracker _ _ _ _ _ _ _ _ => KTracker
  | StoreOptimisationHistory _ _ _ _ => KStore
  | Timeout _ => KTimeout
  end.

(** ** The model object *)

(** [RandomState] objects live in a heap and are named by their address, so
    that two samplers holding one generator differ from two samplers
    holding two generators of equal state.  A state is the generator's word
    vector. *)
Definition rng_state := list Z.

Record index_manager := {
  minibatch_size : pyval;
  total_size : nat;
  rng : nat
}.

Record MinibatchData (A : Type) := {
  value : list A;
  index_manager_of : index_manager
}.
Arguments value {A} _.
Arguments index_manager_of {A} _.

Record SVGP := {
  svgp_X : MinibatchData row;
  svgp_Y : MinibatchData (list Z);
  svgp_kern : kern;
  kern_fixed : pyval;
  likelihood_classes : Z;
  svgp_Z : list row;
  num_latent : Z;
  W_fixed : bool;
  free_state : list R
}.

(** The helper keeps a reference to the model of the experiment (the
    object in [m], not a copy), its tasks, the history frame, the iteration
    counter and the wall time elapsed in the current run. *)
Record GPflowOptimisationHelper := {
  helper_tasks : list task;
  helper_hist : list HistRow;
  helper_i : Z;
  helper_t : R
}.

Record MnistExperiment := {
  experiment_name : string;
  hist_path : string;
  M : Z;
  X : list row;
  Y : list (list Z);
  Xt : list row;
  Yt : list (list Z);
  m : option SVGP;
  logger : option GPflowOptimisationHelper
}.

(** ** The state of the process *)

Inductive event :=
| EPrint (args : list pyval)
| EStep (learning_rate : pyval) (iteration : Z) (xbatch ybatch : list nat)
| EFire (k : task_kind) (iteration : Z)
| ETerminationSignal (iteration : Z).

Record world := {
  fs : gmap string file_content;
  run_settings : gmap string pyval;
  np_random : rng_state;
  heap : gmap nat rng_state;
  exp : MnistExperiment;
  trace : list event
}.

Definition Py (A : Type) : Type := world -> outcome A * world.

#[global] Instance Py_ret : MRet Py := fun A a w => (Ret a, w).
#[global] Instance Py_bind : MBind Py := fun A B f c w =>
  match c w with
  | (Ret a, w') => f a w'
  | (Raise e, w') => (Raise e, w')
  end.

Definition raise {A} (e : exn) : Py A := fun w => (Raise e, w).
Definition gets {A} (f : world -> A) : Py A := fun w => (Ret (f w), w).
Definition modify (f : world -> world) : Py unit := fun w => (Ret tt, f w).
Definition lift {A} (o : outcome A) : Py A := fun w => (o, w).

Definition set_fs (v : gmap string file_content) (w : world) : world :=
  {| fs := v; run_settings := run_settings w; np_random := np_random w;
     heap := heap w; exp := exp w; trace := trace w |}.
Definition set_run_settings (v : gmap string pyval) (w : world) : world :=
  {| fs := fs w; run_settings := v; np_random := np_random w;
     heap := heap w; exp := exp w; trace := trace w |}.
Definition set_np_random (v : rng_state) (w : world) : world :=
  {| fs := fs w; run_settings := run_settings w; np_random := v;
     heap := heap w; exp := exp w; trace := trace w |}.
Definition set_heap (v : gmap nat rng_state) (w : world) : world :=
  {| fs := fs w; run_settings := run_settings w; np_random := np_random w;
     heap := v; exp := exp w; trace := trace w |}.
Definition set_exp (v : MnistExperiment) (w : world) : world :=
  {| fs := fs w; run_settings := run_settings w; np_random := np_random w;
     heap := heap w; exp := v; trace := trace w |}.
Definition emit (e : event) (w : world) : world :=
  {| fs := fs w; run_settings := run_settings w; np_random := np_random w;
     heap := heap w; exp := exp w; trace := trace w ++ [e] |}.

Definition set_m (v : option SVGP) (e : MnistExperiment) : MnistExperiment :=
  {| experiment_name := experiment_name e; hist_path := hist_path e; M := M e;
     X := X e; Y := Y e; Xt := Xt e; Yt := Yt e; m := v; logger := logger e |}.
Definition set_logger (v : option GPflowOptimisationHelper) (e : MnistExperiment)
  : MnistExperiment :=
  {| experiment_name := experiment_name e; hist_path := hist_path e; M := M e;
     X := X e; Y := Y e; Xt := Xt e; Yt := Yt e; m := m e; logger := v |}.

(** [print(...)]. *)
Definition print (args : list pyval) : Py unit := modify (emit (EPrint args)).

(** [d[key]]: a missing key raises [KeyError]. *)
Definition getitem (d : gmap string pyval) (key : string) : outcome pyval :=
  match d !! key with
  | Some v => Ret v
  | None => Raise (KeyError key)
  end.

(** [d.get(key, default)]. *)
Definition dict_get (d : gmap string pyval) (key : string) (default : pyval) : pyval :=
  match d !! key with
  | Some v => v
  | None => default
  end.

(** Truth value of a Python object in an [if]. *)
Definition truthy (v : pyval) : bool :=
  match v with
  | VNone => false
  | VBool b => b
  | VInt z => negb (z =? 0)%Z
  | VFloat (Fin r) => bool_decide (r <> 0%R)
  | VFloat _ => true
  | VStr s => negb (String.eqb s "")
  end.

(** ** Collaborators *)

(** What the script calls and this repository does not define: numpy's
    generators, GPflow's kernels and model, the optimiser, the trigger
    schedules of opt_tools, and the dataset and paths of the exp_tools base
    class.  Every one is a deterministic function of what it is given. *)
Class External := {
  (** [np.random.RandomState(seed)] *)
  RandomState : Z -> rng_state;
  (** [rng.randint(low, high)] *)
  randint : Z -> Z -> rng_state -> Z * rng_state;
  (** [rng.permutation(n)] *)
  permutation : nat -> rng_state -> list nat * rng_state;
  (** the indices an index manager of [total_size] points and the given
      minibatch size draws next from its generator *)
  next_indices : nat -> pyval -> rng_state -> list nat * rng_state;
  (** the state of the generator a fresh data holder is created with *)
  holder_rng : rng_state;
  (** [k.init_inducing(X, M, method=...)], drawing from the global generator *)
  init_inducing : kern -> list row -> Z -> pyval -> rng_state -> list row * rng_state;
  (** whether a kernel object has a parameter [W] *)
  has_W : kern -> bool;
  (** the initial parameter vector of a model *)
  initial_free_state : kern -> list row -> list R;
  (** the first component of [m.predict_y(Xnew)]: a row of class
      probabilities per point *)
  predict_y : SVGP -> list row -> list (list R);
  (** one optimiser step at a learning rate on a minibatch: the new
      parameter vector and the wall time the step took, or an error *)
  opt_step : pyval -> list row -> list (list Z) -> list R -> outcome (list R * R);
  (** whether the trigger schedule of a task has a fire point at this
      iteration and elapsed time *)
  is_due : task -> Z -> R -> bool;
  (** the history path the base class derives from the experiment name *)
  hist_path_of : string -> string;
  (** the dataset the base class loads *)
  mnist_X : list row;
  mnist_Y : list (list Z);
  mnist_Xt : list row;
  mnist_Yt : list (list Z);
  (** [exp.profile()] *)
  exp_profile : world -> outcome unit * world;
  (** [exp_tools.calculate_large_batch_lml(m, minibatch_size, batches, progress)] *)
  calculate_large_batch_lml : SVGP -> Z -> Z -> bool -> pyval
}.

(** ** The command line *)

(** The namespace [parser.parse_args()] returns: one attribute per
    [add_argument], named by its destination, typed by its [type] or
    action.  [name] and [kernel] default to [None]. *)
Record Namespace := {
  fixed : bool;
  name : option string;
  learning_rate : R;
  learning_rate_pow : R;
  learning_rate_schedule_const : Z;
  profile : bool;
  no_opt : bool;
  arg_M : Z;
  arg_minibatch_size : Z;
  benchmarks : bool;
  optimiser : string;
  fix_w : bool;
  kernel : option string;
  Zinit : string;
  lml : bool
}.

Definition opt_str (o : option string) : pyval :=
  match o with
  | Some s => VStr s
  | None => VNone
  end.

(** [vars(args)]: the attribute dictionary of the namespace. *)
Definition vars (args : Namespace) : gmap string pyval :=
  list_to_map [
    ("fixed", VBool (fixed args));
    ("name", opt_str (name args));
    ("learning_rate", VFloat (Fin (learning_rate args)));
    ("learning_rate_pow", VFloat (Fin (learning_rate_pow args)));
    ("learning_rate_schedule_const", VInt (learning_rate_schedule_const args));
    ("profile", VBool (profile args));
    ("no_opt", VBool (no_opt args));
    ("M", VInt (arg_M args));
    ("minibatch_size", VInt (arg_minibatch_size args));
    ("benchmarks", VBool (benchmarks args));
    ("optimiser", VStr (optimiser args));
    ("fix_w", VBool (fix_w args));
    ("kernel", opt_str (kernel args));
    ("Zinit", VStr (Zinit args));
    ("lml", VBool (lml args))
  ].

(** [run_settings = vars(args).copy()] followed by the three [del]s. *)
Definition initial_run_settings (args : Namespace) : gmap string pyval :=
  delete "name" (delete "no_opt" (delete "profile" (vars args))).

(** ** MnistExperiment *)

(** [str(v)] as ["%s"] formats it.  The kernel setting is a string or
    [None]; the digits of a float are not modelled. *)
Definition pystr (v : pyval) : string :=
  match v with
  | VNone => "None"
  | VBool true => "True"
  | VBool false => "False"
  | VInt z => pretty z
  | VFloat _ => "<float>"
  | VStr s => s
  end.

(** [MnistExperiment.__init__(name, M, run_settings)].  The constructor of
    the exp_tools base class is not in the source; following section 6 of
    the specification it keeps the name and the history path derived from
    it, and the dataset is taken as loaded.  The dictionary itself stays in
    the [world]: the object keeps a reference to the caller's dictionary,
    not a copy. *)
Definition MnistExperiment_init `{External}
    (name : option string) (M : Z) (run_settings : gmap string pyval)
  : outcome MnistExperiment :=
  match
    match name with
    | Some n => Ret n
    | None =>
        match getitem run_settings "kernel" with
        | Ret k => Ret ("fullmnist-" +:+ pystr k +:+ pretty M)
        | Raise e => Raise e
        end
    end
  with
  | Raise e => Raise e
  | Ret n =>
      Ret {| experiment_name := n; hist_path := hist_path_of n; M := M;
             X := mnist_X; Y := mnist_Y; Xt := mnist_Xt; Yt := mnist_Yt;
             m := None; logger := None |}
  end.

(** [l[:n]]. *)
Definition slice_to {A} (n : Z) (l : list A) : list A :=
  if (0 <=? n)%Z then take (Z.to_nat n) l
  else take (length l - Z.to_nat (- n)) l.

(** [X[idx, :]] for in-range indices. *)
Definition rows_at {A} (X : list A) (idx : list nat) : list A :=
  omap (fun j => X !! j) idx.

Definition is_str (v : pyval) (s : string) : bool :=
  match v with
  | VStr s' => String.eqb s' s
  | _ => false
  end.

(** [self.X[np.random.permutation(len(self.X))[:self.M], :]] *)
Definition random_rows `{External} : Py (list row) :=
  e ← gets exp;
  g ← gets np_random;
  let '(perm, g') := permutation (length (X e)) g in
  modify (set_np_random g');;
  mret (rows_at (X e) (slice_to (M e) perm)).

(** [GPflow.svgp.SVGP(X, Y, kern, likelihood, Z, num_latent, minibatch_size)]:
    the two data holders get a generator object each. *)
Definition SVGP_new `{External} (X : list row) (Y : list (list Z)) (k : kern)
    (kfixed : pyval) (classes : Z) (Zs : list row) (latent : Z) (mb : pyval)
  : Py SVGP :=
  h ← gets heap;
  let a := fresh (dom h) in
  let h1 := <[a := holder_rng]> h in
  let b := fresh (dom h1) in
  modify (set_heap (<[b := holder_rng]> h1));;
  mret {| svgp_X := {| value := X;
                       index_manager_of :=
                         {| minibatch_size := mb; total_size := length X; rng := a |} |};
          svgp_Y := {| value := Y;
                       index_manager_of :=
                         {| minibatch_size := mb; total_size := length Y; rng := b |} |};
          svgp_kern := k; kern_fixed := kfixed; likelihood_classes := classes;
          svgp_Z := Zs; num_latent := latent; W_fixed := false;
          free_state := initial_free_state k Zs |}.

Definition with_W_fixed (m : SVGP) : SVGP :=
  {| svgp_X := svgp_X m; svgp_Y := svgp_Y m; svgp_kern := svgp_kern m;
     kern_fixed := kern_fixed m; likelihood_classes := likelihood_classes m;
     svgp_Z := svgp_Z m; num_latent := num_latent m; W_fixed := true;
     free_state := free_state m |}.

(** The kernel and, for the dense kernels, the inducing inputs chosen by
    the [if]/[elif] chain of [setup_model]. *)
Definition choose_kernel `{External} (kernel : pyval) : Py (kern * option (list row)) :=
  if is_str kernel "rbf" then
    Zs ← random_rows; mret (RBF (28 * 28), Some Zs)
  else if is_str kernel "poly" then
    Zs ← random_rows; mret (Polynomial (28 * 28) 9, Some Zs)
  else if is_str kernel "rbfpoly" then
    Zs ← random_rows;
    mret (kadd (kadd (Polynomial (28 * 28) 9) (RBF (28 * 28)))
               (White (28 * 28) (1 / 10)), Some Zs)
  else if is_str kernel "conv" then
    mret (kadd (ConvRBF [28; 28] [5; 5]) (White 1 (1 / 1000)), None)
  else if is_str kernel "wconv" then
    mret (kadd (WeightedConv (RBF 25) [28; 28] [5; 5]) (White 1 (1 / 1000)), None)
  else raise NotImplementedError.

(** [MnistExperiment.setup_model]. *)
Definition setup_model `{External} : Py unit :=
  rs ← gets run_settings;
  kernel ← lift (getitem rs "kernel");
  '(k, Zopt) ← choose_kernel kernel;
  Zs ← match Zopt with
       | Some Zs => mret Zs
       | None =>
           method ← lift (getitem rs "Zinit");
           e ← gets exp;
           g ← gets np_random;
           k0 ← (if is_Add k
                 then match kern_list_of k with
                      | k0 :: _ => mret k0
                      | [] => raise IndexError
                      end
                 else mret k);
           let '(Zs, g') := init_inducing k0 (X e) (M e) method g in
           modify (set_np_random g');;
           mret Zs
       end;
  e ← gets exp;
  model ← SVGP_new (X e) (Y e) k (dict_get rs "fixed" (VBool false)) 10 Zs 10
            (dict_get rs "minibatch_size" (VInt (M e)));
  modify (fun w => set_exp (set_m (Some model) (exp w)) w);;
  fw ← lift (getitem rs "fix_w");
  if truthy fw then
    if has_W (svgp_kern model)
    then modify (fun w => set_exp (set_m (Some (with_W_fixed model)) (exp w)) w)
    else raise (AttributeError "W")
  else mret tt.

(** ** The history file *)

(** [os.path.exists(path)]: whether [os.stat(path)] succeeds.  A failure
    of [os.stat] is answered [False], whatever its cause. *)
Definition os_path_exists (fsys : gmap string file_content) (path : string) : bool :=
  match fsys !! path with
  | Some (Pickled _) | Some (Unreadable _) => true
  | Some (NoStat _) | None => false
  end.

(** [pd.read_pickle(path)]: the frame, or the exception of a file that is
    missing, cannot be reached or cannot be deserialised. *)
Definition read_pickle (fsys : gmap string file_content) (path : string)
  : outcome (list HistRow) :=
  match fsys !! path with
  | Some (Pickled h) => Ret h
  | Some (Unreadable e) => Raise e
  | Some (NoStat e) => Raise e
  | None => Raise (FileNotFoundError path)
  end.

(** [pd.read_pickle(self.hist_path) if os.path.exists(self.hist_path) else None] *)
Definition load_history (fsys : gmap string file_content) (path : string)
  : outcome (option (list HistRow)) :=
  if os_path_exists fsys path
  then h ← read_pickle fsys path; mret (Some h)
  else mret None.

(** The list [tasks] of [setup_logger]. *)
Definition tasks (e : MnistExperiment) (run_settings : gmap string pyval)
    (h : option (list HistRow)) : list task :=
  [ DisplayOptimisation (seq_exp_lin (11 / 10) 20 None);
    GPflowLogOptimisation (seq_exp_lin (11 / 10) 20 None);
    GPflowMultiClassificationTrackerLml (Xt e) (Yt e) (count 1800 1800) TrigTime
      true "final_only" ".*(variance|lengthscales)";
    GPflowMultiClassificationTracker (Xt e) (Yt e)
      (seq_exp_lin (15 / 10) 150 (Some 30%R)) TrigTime
      true "final_only" ".*(variance|lengthscales)" h;
    StoreOptimisationHistory (hist_path e) (seq_exp_lin (15 / 10) 600 (Some 30%R))
      TrigTime false;
    Timeout (dict_get run_settings "timeout" (VFloat PInf)) ].

(** The history a tracker was handed as [old_hist]. *)
Definition old_hist_of (ts : list task) : option (list HistRow) :=
  match omap (fun t => match t with
                       | GPflowMultiClassificationTracker _ _ _ _ _ _ _ h => h
                       | _ => None
                       end) ts with
  | h :: _ => Some h
  | [] => None
  end.

(** Modelled from the spec: the constructor of opt_tools' helper, which is
    not in the source.  A resumed run continues the history it was handed:
    the frame starts as the old history and the iteration counter at its
    greatest iteration (section 3, ProgressRecord: no rollback across
    restarts); wall time starts at zero in every run (section 4.1). *)
Definition GPflowOptimisationHelper_new (ts : list task) : GPflowOptimisationHelper :=
  let h := default [] (old_hist_of ts) in
  {| helper_tasks := ts; helper_hist := h;
     helper_i := default 0 (i_max h); helper_t := 0%R |}.

(** [MnistExperiment.setup_logger]. *)
Definition setup_logger `{External} : Py unit :=
  e ← gets exp;
  fsys ← gets fs;
  h ← lift (load_history fsys (hist_path e));
  (if h is Some _
   then print [VStr "Resuming from %s..."; VStr (hist_path e)]
   else mret tt);;
  rs ← gets run_settings;
  modify (fun w =>
    set_exp (set_logger (Some (GPflowOptimisationHelper_new (tasks e rs h))) (exp w)) w).

(** ** Held-out metrics *)

Fixpoint argmax_from (best : R) (besti j : nat) (l : list R) : nat :=
  match l with
  | [] => besti
  | x :: l' =>
      if decide (best < x)%R then argmax_from x j (S j) l'
      else argmax_from best besti (S j) l'
  end.

(** [np.argmax] of one row: the first index of the greatest entry. *)
Definition argmax (l : list R) : outcome nat :=
  match l with
  | [] => Raise ValueError
  | x :: l' => Ret (argmax_from x 0%nat 1%nat l')
  end.

(** Two one-dimensional index arrays broadcast against each other. *)
Definition broadcast2 {A B} (xs : list A) (ys : list B) : outcome (list (A * B)) :=
  if decide (length xs = length ys) then Ret (zip xs ys)
  else match xs, ys with
       | _, [y] => Ret (zip xs (replicate (length xs) y))
       | [x], _ => Ret (zip (replicate (length ys) x) ys)
       | _, _ => Raise IndexError
       end.

(** [row[c]] for an integer that may be negative. *)
Definition index_wrap {A} (l : list A) (c : Z) : outcome A :=
  let c' := if (c <? 0)%Z then (c + Z.of_nat (length l))%Z else c in
  if (c' <? 0)%Z then Raise IndexError
  else match l !! Z.to_nat c' with
       | Some x => Ret x
       | None => Raise IndexError
       end.

(** [p[rows, cols]] with two index arrays. *)
Definition fancy_index (p : list (list R)) (rows : list nat) (cols : list Z)
  : outcome (list R) :=
  rc ← broadcast2 rows cols;
  mapM (fun '(r, c) =>
          match p !! r with
          | Some pr => index_wrap pr c
          | None => Raise IndexError
          end) rc.

(** [Yt[:, 0]] *)
Definition column0 (Yt : list (list Z)) : outcome (list Z) :=
  mapM (fun r => match r with
                 | y :: _ => Ret y
                 | [] => Raise IndexError
                 end) Yt.

Definition float_of_bool (b : bool) : pyfloat := if b then Fin 1 else Fin 0.

(** [np.mean(np.log(p[np.arange(len(Xt)), Yt.flatten()]))] *)
Definition log_predictive_probability (p : list (list R)) (Xt : list row)
    (Yt : list (list Z)) : outcome pyfloat :=
  probs ← fancy_index p (seq 0 (length Xt)) (concat Yt);
  mret (np_mean (np_log <$> probs)).

(** [np.mean(p.argmax(1) == Yt[:, 0])] *)
Definition accuracy (p : list (list R)) (Yt : list (list Z)) : outcome pyfloat :=
  pred ← mapM argmax p;
  truth ← column0 Yt;
  pairs ← (match broadcast2 pred truth with
           | Ret x => Ret x
           | Raise _ => Raise ValueError
           end);
  mret (np_mean ((fun '(a, y) => float_of_bool (bool_decide (Z.of_nat a = y))) <$> pairs)).

(** ** The learning-rate schedule of the script *)

(** [x * y] on floats with the IEEE special values. *)
Definition pf_mul (x y : pyfloat) : pyfloat :=
  match x, y with
  | NaN, _ | _, NaN => NaN
  | Fin a, Fin b => Fin (a * b)
  | Fin a, PInf | PInf, Fin a =>
      if decide (0 < a)%R then PInf else if decide (a < 0)%R then NInf else NaN
  | Fin a, NInf | NInf, Fin a =>
      if decide (0 < a)%R then NInf else if decide (a < 0)%R then PInf else NaN
  | PInf, PInf | NInf, NInf => PInf
  | PInf, NInf | NInf, PInf => NInf
  end.

(** [x * v] for a float [x] and a Python object [v]. *)
Definition float_times (x : pyfloat) (v : pyval) : outcome pyval :=
  match v with
  | VFloat y => Ret (VFloat (pf_mul x y))
  | VInt z => Ret (VFloat (pf_mul x (Fin (IZR z))))
  | VBool b => Ret (VFloat (pf_mul x (Fin (if b then 1 else 0))))
  | VNone | VStr _ => Raise TypeError
  end.

(** The number [1 + i // const] that the schedule raises to a power: a
    [numpy.int64] when [i] is the greatest iteration of the frame; a
    Python number, always a whole one, when [i] is the literal [1.0]; or
    the Python float [nan]. *)
Inductive schedule_num :=
| NpInt64 (z : Z)
| PyWhole (z : Z)
| PyNan.

(** [1 + i // const].  A [VInt] here is the [numpy.int64] that [.max()]
    answers, an integer of the [int64] range: numpy converts the Python
    integer [const] to [int64] (and refuses one that does not fit),
    answers 0 for a zero divisor, as [Z.div] does, and lets the quotient
    and the sum wrap around.  Python's own floor division, of the literal
    [1.0] or of [nan], raises on a zero divisor; the quotient of [nan] or
    of an infinity is [nan]. *)
Definition schedule_base (i : pyval) (const : Z) : outcome schedule_num :=
  match i with
  | VInt z =>
      if decide (int64_min <= const <= int64_max)
      then Ret (NpInt64 (wrap64 (1 + wrap64 (z / const))))
      else Raise OverflowError
  | VBool b =>
      if decide (const = 0) then Raise ZeroDivisionError
      else Ret (PyWhole (1 + (if b then 1 else 0) / const))
  | VFloat x =>
      if decide (const = 0) then Raise ZeroDivisionError
      else Ret (match x with
                | Fin r => PyWhole (1 + Zfloor (r / IZR const))
                | _ => PyNan
                end)
  | VNone | VStr _ => Raise TypeError
  end.

(** An exponent that is a whole number. *)
Definition whole (e : R) : Prop := IZR (Zfloor e) = e.

(** [z ** e] in floats for a base [z <= 0] and an exponent [e <> 0]: zero
    to a negative power is [inf], a negative base to a whole power keeps or
    flips its sign, and to any other power is [nan]. *)
Definition power_nonpos (z : Z) (e : R) : pyfloat :=
  if decide (z = 0) then (if decide (0 < e)%R then Fin 0 else PInf)
  else if decide (whole e)
       then Fin ((if Z.even (Zfloor e) then 1 else -1) * Rpower (IZR (- z)) e)
       else NaN.

(** [base ** e].  numpy computes the power of an [int64] in [float64] and
    raises nothing.  Python raises for zero to a negative power; a negative
    Python base with a fractional exponent, which gives a complex number
    that [pyval] does not hold, does not arise from [1 + 1.0 // const] and
    reads [nan].  With the floats idealised as reals, a power too large
    for a float ([inf] in numpy, [OverflowError] in Python) or too small
    (0.0) is not modelled. *)
Definition float_pow (base : schedule_num) (e : R) : outcome pyfloat :=
  match base with
  | NpInt64 z =>
      Ret (if decide (0 < z) then Fin (Rpower (IZR z) e)
           else if decide (e = 0%R) then Fin 1
           else power_nonpos z e)
  | PyWhole z =>
      if decide (0 < z) then Ret (Fin (Rpower (IZR z) e))
      else if decide (e = 0%R) then Ret (Fin 1)
      else if decide (z = 0 /\ (e < 0)%R) then Raise ZeroDivisionError
      else Ret (power_nonpos z e)
  | PyNan => Ret (if decide (e = 0%R) then Fin 1 else NaN)
  end.

(** [(1 + i // args.learning_rate_schedule_const) ** -args.learning_rate_pow * lr_base] *)
Definition derive_learning_rate (args : Namespace) (lr_base i : pyval) : outcome pyval :=
  base ← schedule_base i (learning_rate_schedule_const args);
  p ← float_pow base (- learning_rate_pow args);
  float_times p lr_base.

(** [pd.read_pickle(exp.hist_path).i.max() if os.path.exists(exp.hist_path) else 1.0] *)
Definition schedule_i : Py pyval :=
  e ← gets exp;
  fsys ← gets fs;
  if os_path_exists fsys (hist_path e)
  then h ← lift (read_pickle fsys (hist_path e));
       mret (match i_max h with
             | Some z => VInt z
             | None => VFloat NaN
             end)
  else mret (VFloat (Fin 1)).

(** The first three statements of the loop body: read [i], store the derived
    rate in the shared [run_settings], print both. *)
Definition schedule_learning_rate (args : Namespace) (lr_base : pyval) : Py unit :=
  i ← schedule_i;
  lr ← lift (derive_learning_rate args lr_base i);
  modify (fun w => set_run_settings (<["learning_rate" := lr]> (run_settings w)) w);;
  print [lr; i].

(** ** Running the experiment *)

(** Modelled from the spec: [setup] of the exp_tools base class, which is
    not in the source.  Initialisation builds the model and then attaches
    the tasks (section 4.4, INITIALIZING), through the two methods this
    file overrides. *)
Definition exp_setup `{External} : Py unit :=
  setup_model;; setup_logger.

(** Modelled from the spec: the comparison of the Timeout task, which is
    not in the source: elapsed wall time against the configured ceiling
    (section 4.3). *)
Definition exceeds (t : R) (ceiling : pyval) : bool :=
  match ceiling with
  | VFloat (Fin c) => bool_decide (c < t)%R
  | VFloat NInf => true
  | VFloat _ => false
  | VInt z => bool_decide (IZR z < t)%R
  | VBool b => bool_decide ((if b then 1 else 0) < t)%R
  | VNone | VStr _ => false
  end.

(** Modelled from the spec: whether a task is due at a step (section 4.3):
    the Timeout task by its ceiling, every other task by its trigger
    schedule. *)
Definition fires `{External} (tk : task) (i : Z) (t : R) : bool :=
  match tk with
  | Timeout ceiling => exceeds t ceiling
  | _ => is_due tk i t
  end.

(** Modelled from the spec: the due tasks of a step, in the order of the
    task list (section 4.4: a fixed, deterministic order). *)
Definition dispatch `{External} (ts : list task) (i : Z) (t : R) : list task :=
  filter (fun tk => fires tk i t = true) ts.

Definition set_helper (f : GPflowOptimisationHelper -> GPflowOptimisationHelper)
    (w : world) : world :=
  set_exp (set_logger (f <$> logger (exp w)) (exp w)) w.

Definition the_model : Py SVGP :=
  e ← gets exp;
  match m e with
  | Some model => mret model
  | None => raise (AttributeError "m")
  end.

Definition the_logger : Py GPflowOptimisationHelper :=
  e ← gets exp;
  match logger e with
  | Some lg => mret lg
  | None => raise (AttributeError "logger")
  end.

(** Modelled from the spec: what a task does when it fires (section 4.3);
    the answer tells whether it raised the termination signal. *)
Definition on_fire `{External} (tk : task) : Py bool :=
  lg ← the_logger;
  modify (emit (EFire (kind_of tk) (helper_i lg)));;
  match tk with
  | DisplayOptimisation _ | GPflowLogOptimisation _ => mret false
  | GPflowMultiClassificationTrackerLml Xt Yt _ _ _ _ _
  | GPflowMultiClassificationTracker Xt Yt _ _ _ _ _ _ =>
      model ← the_model;
      let p := predict_y model Xt in
      lpp ← lift (log_predictive_probability p Xt Yt);
      acc ← lift (accuracy p Yt);
      modify (set_helper (fun l =>
        {| helper_tasks := helper_tasks l;
           helper_hist := helper_hist l ++
             [{| h_i := to_iteration (helper_i l); h_t := helper_t l;
                 h_acc := acc; h_lpp := lpp |}];
           helper_i := helper_i l; helper_t := helper_t l |}));;
      mret false
  | StoreOptimisationHistory path _ _ _ =>
      modify (fun w => set_fs (<[path := Pickled (helper_hist lg)]> (fs w)) w);;
      mret false
  | Timeout _ =>
      modify (emit (ETerminationSignal (helper_i lg)));;
      mret true
  end.

(** Modelled from the spec: the due tasks of a step fire one after the
    other, and the step then knows whether any of them raised the
    termination signal (section 4.4). *)
Fixpoint fire_all `{External} (ts : list task) : Py bool :=
  match ts with
  | [] => mret false
  | tk :: rest =>
      s1 ← on_fire tk;
      s2 ← fire_all rest;
      mret (s1 || s2)
  end.

(** The next minibatch indices of a data holder, drawn from the generator
    object its index manager points to. *)
Definition sample `{External} {A} (d : MinibatchData A) : Py (list nat) :=
  h ← gets heap;
  let im := index_manager_of d in
  match h !! rng im with
  | None => raise (AttributeError "rng")
  | Some s =>
      let '(idx, s') := next_indices (total_size im) (minibatch_size im) s in
      modify (set_heap (<[rng im := s']> h));;
      mret idx
  end.

(** The first [k] index lists an index manager draws, its generator object
    read from and written back to the heap at each draw. *)
Fixpoint index_sequence `{External} (k : nat) (im : index_manager)
    (h : gmap nat rng_state) : list (list nat) :=
  match k with
  | O => []
  | S k' =>
      match h !! rng im with
      | None => []
      | Some s =>
          let '(idx, s') := next_indices (total_size im) (minibatch_size im) s in
          idx :: index_sequence k' im (<[rng im := s']> h)
      end
  end.

Definition with_free_state (v : list R) (m : SVGP) : SVGP :=
  {| svgp_X := svgp_X m; svgp_Y := svgp_Y m; svgp_kern := svgp_kern m;
     kern_fixed := kern_fixed m; likelihood_classes := likelihood_classes m;
     svgp_Z := svgp_Z m; num_latent := num_latent m; W_fixed := W_fixed m;
     free_state := v |}.

(** Modelled from the spec: one pass of the RUNNING state (section 4.4): an
    optimiser step at the given learning rate on the next minibatch, the
    iteration counter and the clock advanced, the due tasks dispatched. *)
Definition one_step `{External} (lr : pyval) : Py bool :=
  model ← the_model;
  xb ← sample (svgp_X model);
  yb ← sample (svgp_Y model);
  '(x', dt) ← lift (opt_step lr (rows_at (value (svgp_X model)) xb)
                             (rows_at (value (svgp_Y model)) yb) (free_state model));
  modify (fun w => set_exp (set_m (Some (with_free_state x' model)) (exp w)) w);;
  modify (set_helper (fun l =>
    {| helper_tasks := helper_tasks l; helper_hist := helper_hist l;
       helper_i := helper_i l + 1; helper_t := (helper_t l + dt)%R |}));;
  lg ← the_logger;
  modify (emit (EStep lr (helper_i lg) xb yb));;
  fire_all (dispatch (helper_tasks lg) (helper_i lg) (helper_t lg)).

(** Modelled from the spec: the RUNNING state (section 4.4) for at most [n]
    steps at one learning rate, left early on a termination signal. *)
Fixpoint run_steps `{External} (n : nat) (lr : pyval) : Py unit :=
  match n with
  | O => mret tt
  | S n' =>
      stop ← one_step lr;
      if stop : bool then mret tt else run_steps n' lr
  end.

(** Modelled from the spec: [run(maxiter)] of the exp_tools base class, which
    is not in the source: the optimiser is driven at the learning rate found
    in [run_settings] when the run starts, for at most [maxiter] steps or
    until a task raises the termination signal (section 4.4). *)
Definition exp_run `{External} (maxiter : Z) : Py unit :=
  rs ← gets run_settings;
  lr ← lift (getitem rs "learning_rate");
  run_steps (Z.to_nat maxiter) lr.

(** ** The script *)

Definition with_rng {A} (a : nat) (d : MinibatchData A) : MinibatchData A :=
  {| value := value d;
     index_manager_of :=
       {| minibatch_size := minibatch_size (index_manager_of d);
          total_size := total_size (index_manager_of d); rng := a |} |}.

Definition with_X (d : MinibatchData row) (m : SVGP) : SVGP :=
  {| svgp_X := d; svgp_Y := svgp_Y m; svgp_kern := svgp_kern m;
     kern_fixed := kern_fixed m; likelihood_classes := likelihood_classes m;
     svgp_Z := svgp_Z m; num_latent := num_latent m; W_fixed := W_fixed m;
     free_state := free_state m |}.

Definition with_Y (d : MinibatchData (list Z)) (m : SVGP) : SVGP :=
  {| svgp_X := svgp_X m; svgp_Y := d; svgp_kern := svgp_kern m;
     kern_fixed := kern_fixed m; likelihood_classes := likelihood_classes m;
     svgp_Z := svgp_Z m; num_latent := num_latent m; W_fixed := W_fixed m;
     free_state := free_state m |}.

(** A new [np.random.RandomState(seed)] object: its address. *)
Definition new_RandomState `{External} (seed : Z) : Py nat :=
  h ← gets heap;
  let a := fresh (dom h) in
  modify (set_heap (<[a := RandomState seed]> h));;
  mret a.

(** [rndstate = np.random.randint(0, 1e9)] and the two assignments to the
    generators of the index managers of [exp.m.X] and [exp.m.Y]. *)
Definition reseed `{External} : Py unit :=
  g ← gets np_random;
  let '(rndstate, g') := randint 0 (10 ^ 9) g in
  modify (set_np_random g');;
  a ← new_RandomState rndstate;
  model ← the_model;
  modify (fun w => set_exp (set_m (Some (with_X (with_rng a (svgp_X model)) model)) (exp w)) w);;
  b ← new_RandomState rndstate;
  model ← the_model;
  modify (fun w => set_exp (set_m (Some (with_Y (with_rng b (svgp_Y model)) model)) (exp w)) w).

(** The statements of the loop body ahead of the reseeding. *)
Definition launch_setup `{External} (args : Namespace) (lr_base : pyval) : Py unit :=
  schedule_learning_rate args lr_base;;
  exp_setup.

(** The body of [while True]. *)
Definition training_launch `{External} (args : Namespace) (lr_base : pyval) : Py unit :=
  schedule_learning_rate args lr_base;;
  exp_setup;;
  reseed;;
  exp_run (learning_rate_schedule_const args).

(** [while True]: the loop has no exit of its own; [launches] bounds the
    passes that are observed. *)
Fixpoint training_loop `{External} (launches : nat) (args : Namespace) (lr_base : pyval)
  : Py unit :=
  match launches with
  | O => mret tt
  | S n => training_launch args lr_base;; training_loop n args lr_base
  end.

(** The states in which the first [launches] passes of the loop start: each
    pass starts where the one before returned, and an exception ends the
    process. *)
Fixpoint launch_states `{External} (launches : nat) (args : Namespace)
    (lr_base : pyval) (w : world) : list world :=
  match launches with
  | O => []
  | S n =>
      w :: match training_launch args lr_base w with
           | (Ret _, w1) => launch_states n args lr_base w1
           | (Raise _, _) => []
           end
  end.

(** [if args.benchmarks: ...] *)
Definition run_benchmarks `{External} : Py unit :=
  exp_setup;;
  model ← the_model;
  e ← gets exp;
  let p := predict_y model (Xt e) in
  lpp ← lift (log_predictive_probability p (Xt e) (Yt e));
  acc ← lift (accuracy p (Yt e));
  print [VStr "Accuracy: %f"; VFloat acc];;
  print [VStr "Lpp     : %f"; VFloat lpp].

(** [if args.lml: ...] *)
Definition run_lml `{External} (args : Namespace) : Py unit :=
  exp_setup;;
  model ← the_model;
  (if decide (arg_minibatch_size args = 0) then raise ZeroDivisionError else mret tt);;
  print [calculate_large_batch_lml model (arg_minibatch_size args)
           (Z.of_nat (length (value (svgp_X model))) / arg_minibatch_size args) true].

(** The statements after the experiment object is built.  The training
    branch never falls through to the evaluation branches. *)
Definition main `{External} (launches : nat) (args : Namespace) : Py unit :=
  let evaluation :=
    (if benchmarks args then run_benchmarks else mret tt);;
    (if lml args then run_lml args else mret tt) in
  if profile args then
    print [VStr "Profiling an iteration..."];;
    exp_setup;;
    exp_profile;;
    evaluation
  else if negb (no_opt args) then
    e ← gets exp;
    print [VStr (experiment_name e)];;
    rs ← gets run_settings;
    lr_base ← lift (getitem rs "learning_rate");
    training_loop launches args lr_base
  else evaluation.

(** The process state when the statements of [main] start. *)
Definition initial_world `{External} (args : Namespace)
    (fsys : gmap string file_content) (g : rng_state) : outcome world :=
  let rs := initial_run_settings args in
  e ← MnistExperiment_init (name args) (arg_M args) rs;
  mret {| fs := fsys; run_settings := rs; np_random := g; heap := ∅;
          exp := e; trace := [] |}.

(** ** The specification's formulas *)

(** Section 4.5: [lr(i) = lr_base * (1 + floor(i / const)) ^ (-pow)], over
    the reals. *)
Definition spec_lr (lr_base pw : R) (const i : Z) : R :=
  (lr_base * Rpower (1 + IZR (Zfloor (IZR i / IZR const))) (- pw))%R.

(** The class a row of probabilities predicts, in the words of the
    specification: class [a] has the greatest probability of the row, and
    is the first class that has it. *)
Definition predicts (pr : list R) (a : nat) : Prop :=
  (a < length pr)%nat /\
  Forall (fun x => (x <= nth a pr 0)%R) pr /\
  Forall (fun x => (x < nth a pr 0)%R) (take a pr).

#[global] Instance predicts_dec (pr : list R) (a : nat) : Decision (predicts pr a).
Proof. unfold predicts. apply _. Defined.


(** The probability a point's row assigns to its true label. *)
Definition true_label_probability (pt : list R * Z) : R :=
  nth (Z.to_nat pt.2) pt.1 0%R.

Definition Rsum (l : list R) : R := foldr Rplus 0%R l.



(** What the evaluation needs of a row of probabilities and its label: the
    label indexes the row, and the row gives it a positive probability. *)
Definition scored (pr : list R) (y : Z) : Prop :=
  0 <= y < Z.of_nat (length pr) /\ (0 < nth (Z.to_nat y) pr 0)%R.

(** The number a Python object stands for, where it is a finite one. *)
Definition num_of (v : pyval) : option R :=
  match v with
  | VInt z => Some (IZR z)
  | VFloat (Fin r) => Some r
  | VBool b => Some (if b then 1 else 0)%R
  | _ => None
  end.

Definition is_step (e : event) : bool :=
  match e with
  | EStep _ _ _ _ => true
  | _ => false
  end.

(** The events a computation adds to the trace of a state. *)
Definition new_events {A} (c : Py A) (w : world) : list event :=
  drop (length (trace w)) (trace (c w).2).

(** [k1] before [k2]: wherever tasks of the two classes both occur in a
    list, the one of class [k1] comes first. *)
Definition before (k1 k2 : task_kind) (l : list task) : Prop :=
  forall (a b : nat) (ta tb : task),
    l !! a = Some ta -> l !! b = Some tb ->
    kind_of ta = k1 -> kind_of tb = k2 -> (a < b)%nat.

(** The classes of the tasks that fired, in the order of the trace. *)
Definition fired_kinds (evs : list event) : list task_kind :=
  omap (fun e => match e with
                 | EFire k _ => Some k
                 | _ => None
                 end) evs.

(** Every optimiser step among the events ran at the rate [lr]. *)
Definition steps_at (lr : pyval) (e : event) : Prop :=
  match e with
  | EStep lr' _ _ _ => lr' = lr
  | _ => True
  end.

Definition no_step (e : event) : Prop := is_step e = false.

(** The index lists the optimiser steps among the events were given, for
    the features and for the labels, in the order of the steps. *)
Definition step_batches (evs : list event) : list (list nat * list nat) :=
  omap (fun e => match e with
                 | EStep _ _ xb yb => Some (xb, yb)
                 | _ => None
                 end) evs.

(** The two samplers of the model hold two generator objects, both in the
    state [s], over data of [total] points and with minibatch size [mb]. *)
Definition synced_at (total : nat) (mb : pyval) (s : rng_state) (w : world) : Prop :=
  exists model : SVGP,
    m (exp w) = Some model /\
    rng (index_manager_of (svgp_X model)) <> rng (index_manager_of (svgp_Y model)) /\
    heap w !! rng (index_manager_of (svgp_X model)) = Some s /\
    heap w !! rng (index_manager_of (svgp_Y model)) = Some s /\
    total_size (index_manager_of (svgp_X model)) = total /\
    total_size (index_manager_of (svgp_Y model)) = total /\
    minibatch_size (index_manager_of (svgp_X model)) = mb /\
    minibatch_size (index_manager_of (svgp_Y model)) = mb.

(** The model of the experiment was built over its data: the samplers know
    the sizes of [X] and [Y] and share the minibatch size. *)
Definition model_built (w : world) : Prop :=
  exists model : SVGP,
    m (exp w) = Some model /\
    value (svgp_X model) = X (exp w) /\
    value (svgp_Y model) = Y (exp w) /\
    total_size (index_manager_of (svgp_X model)) = length (X (exp w)) /\
    total_size (index_manager_of (svgp_Y model)) = length (Y (exp w)) /\
    minibatch_size (index_manager_of (svgp_X model))
      = minibatch_size (index_manager_of (svgp_Y model)).

(** The rate a launch derives from the state it starts in, when the
    derivation succeeds. *)
Definition launch_rate (args : Namespace) (lr_base : pyval) (w : world) : option pyval :=
  match (schedule_i w).1 with
  | Ret i =>
      match derive_learning_rate args lr_base i with
      | Ret lr => Some lr
      | Raise _ => None
      end
  | Raise _ => None
  end.

(** The greatest iteration of the persisted log as a launch reads it (1 for
    a missing file), when it is a number. *)
Definition persisted_i (w : world) : option R :=
  match (schedule_i w).1 with
  | Ret i => num_of i
  | Raise _ => None
  end.

(** ** A program logic for the script's monad *)

(** [wp c E Q w]: run from [w], the computation [c] only appends events
    that satisfy [E] to the trace, and if it returns [a] in state [w'] then
    [Q a w'] holds.  An exception still leaves a trace of [E]-events. *)
Definition wp {A} (c : Py A) (E : event -> Prop) (Q : A -> world -> Prop)
    (w : world) : Prop :=
  exists evs : list event,
    trace (c w).2 = (trace w ++ evs)%list /\
    Forall E evs /\
    forall a : A, (c w).1 = Ret a -> Q a (c w).2.

(** ** A small instantiation *)

(** Collaborators small enough to run the definitions on: a linear
    congruential generator, two training points, one held-out point. *)
Module Demo.

Definition lcg (s : rng_state) : Z * rng_state :=
  let x := match s with
           | [] => 0
           | x :: _ => x
           end in
  let x' := (1103515245 * x + 12345) mod 2 ^ 31 in
  (x', [x']).

Definition batch (total : nat) (size : pyval) (s : rng_state) : list nat * rng_state :=
  let '(v, s') := lcg s in
  ([Z.to_nat (v mod Z.of_nat (Nat.max 1 total))], s').

#[local] Instance collaborators : External := {|
  RandomState seed := [seed];
  randint lo hi s := let '(v, s') := lcg s in (lo + v mod (hi - lo), s');
  permutation n s := (seq 0 n, (lcg s).2);
  next_indices := batch;
  holder_rng := [0];
  init_inducing k X M method g := (slice_to M X, g);
  has_W k := match k with
             | WeightedConv _ _ _ => true
             | _ => false
             end;
  initial_free_state k Zs := [];
  predict_y model Xnew := (fun _ => [1 / 4; 3 / 4]%R) <$> Xnew;
  opt_step lr xs ys x := Ret (x, 1%R);
  is_due tk i t := false;
  hist_path_of n := "results/" +:+ n +:+ "/hist.pkl";
  mnist_X := [[0%R]; [1%R]];
  mnist_Y := [[0]; [1]];
  mnist_Xt := [[1%R]];
  mnist_Yt := [[1]];
  exp_profile w := (Ret tt, w);
  calculate_large_batch_lml model mb batches progress := VFloat (Fin 0)
|}.

(** The defaults of the parser, with a kernel. *)
Definition args (k : option string) (const : Z) : Namespace :=
  {| fixed := false; name := None; learning_rate := (1 / 1000)%R;
     learning_rate_pow := (/ 2)%R; learning_rate_schedule_const := const;
     profile := false; no_opt := false; arg_M := 100; arg_minibatch_size := 100;
     benchmarks := false; optimiser := "adam"; fix_w := false; kernel := k;
     Zinit := "patches-unique"; lml := false |}.

Definition experiment : MnistExperiment :=
  {| experiment_name := "fullmnist-rbf100";
     hist_path := hist_path_of "fullmnist-rbf100"; M := 100;
     X := mnist_X; Y := mnist_Y; Xt := mnist_Xt; Yt := mnist_Yt;
     m := None; logger := None |}.

(** A process about to enter the loop, with the given file system. *)
Definition world_with (k : option string) (const : Z)
    (fsys : gmap string file_content) : world :=
  {| fs := fsys; run_settings := initial_run_settings (args k const);
     np_random := [42]; heap := ∅; exp := experiment; trace := [] |}.

Definition history (i : Z) : list HistRow :=
  [ {| h_i := to_iteration 1; h_t := 1%R; h_acc := Fin 0; h_lpp := Fin 0 |};
    {| h_i := to_iteration i; h_t := 2%R; h_acc := Fin 0; h_lpp := Fin 0 |} ].

Definition stored (i : Z) : gmap string file_content :=
  {[ hist_path experiment := Pickled (history i) ]}.

(** A process whose experiment has been set up, about to reseed. *)
Definition ready : world := (exp_setup (world_with (Some "rbf") 2 (stored 5))).2.

End Demo.


(** ** Further notions for the properties *)

#[global] Instance pyfloat_eq_dec : EqDecision pyfloat.
Proof. solve_decision. Defined.

#[global] Instance pyval_eq_dec : EqDecision pyval.
Proof. solve_decision. Defined.

(** The kernel names [setup_model] knows. *)
Definition supported_kernels : list string :=
  ["rbf"; "poly"; "rbfpoly"; "conv"; "wconv"]%string.

(** The kernels whose inducing inputs are rows of [X]. *)
Definition dense_kernels : list string := ["rbf"; "poly"; "rbfpoly"]%string.

(** The first [k] index lists drawn from a generator state, as a function
    of the state alone. *)
Fixpoint draws `{External} (k total : nat) (size : pyval) (s : rng_state)
  : list (list nat) :=
  match k with
  | O => []
  | S k' =>
      let '(idx, s') := next_indices total size s in
      idx :: draws k' total size s'
  end.

(** The default name of an experiment: ["fullmnist-%s%i" % (kernel, M)]. *)
Definition default_name (kernel : pyval) (M : Z) : string :=
  "fullmnist-" +:+ pystr kernel +:+ pretty M.

(** A character a decimal numeral can start with. *)
Definition numeral_head (s : string) : Prop :=
  match s with
  | String c _ =>
      String c "" ∈ ["-"; "0"; "1"; "2"; "3"; "4"; "5"; "6"; "7"; "8"; "9"]%string
  | EmptyString => False
  end.

(** * Properties *)

Local Close Scope string_scope.
Local Open Scope Z_scope.

(** ** Real arithmetic *)

Section Reals_facts.
Local Open Scope R_scope.

Lemma floor_div_IZR (z c : Z) : (0 < c)%Z -> Zfloor (IZR z / IZR c) = (z / c)%Z.
Proof.
  intros Hc. apply Zfloor_eq.
  assert (Hc' : 0 < IZR c) by (apply IZR_lt; lia).
  pose proof (Z.div_mod z c ltac:(lia)) as Hdm.
  pose proof (Z.mod_pos_bound z c Hc) as [Hlo Hhi].
  assert (Hz : IZR z = IZR c * IZR (z / c) + IZR (z mod c)).
  { rewrite <- mult_IZR, <- plus_IZR. f_equal. exact Hdm. }
  apply IZR_le in Hlo. apply IZR_lt in Hhi.
  split.
  - apply Rmult_le_reg_r with (IZR c); [exact Hc'|].
    unfold Rdiv. rewrite Rmult_assoc, Rinv_l by lra. nra.
  - apply Rmult_lt_reg_r with (IZR c); [exact Hc'|].
    unfold Rdiv. rewrite Rmult_assoc, Rinv_l by lra. nra.
Qed.

Lemma Rpower_one (x : R) : Rpower 1 x = 1.
Proof. unfold Rpower. rewrite ln_1, Rmult_0_r. apply exp_0. Qed.

Lemma Rpower_pos (x y : R) : 0 < Rpower x y.
Proof. unfold Rpower. apply exp_pos. Qed.

Lemma Rpower_neg_antitone (a b p : R) :
  0 < a -> a <= b -> 0 <= p -> Rpower b (- p) <= Rpower a (- p).
Proof.
  intros Ha Hab Hp. rewrite !Rpower_Ropp.
  apply Rinv_le_contravar; [apply Rpower_pos|].
  apply Rle_Rpower_l; [exact Hp | split; assumption].
Qed.

Lemma Rpower_neg_half (x : R) : 0 < x -> Rpower x (- / 2) = / sqrt x.
Proof. intros Hx. rewrite Rpower_Ropp, Rpower_sqrt by exact Hx. reflexivity. Qed.

Lemma sqrt_bounds (x lo hi : R) :
  0 <= lo -> 0 <= x -> lo * lo < x -> x < hi * hi -> 0 < hi -> lo < sqrt x < hi.
Proof.
  intros Hlo Hx H1 H2 Hhi. split.
  - rewrite <- (sqrt_square lo) by exact Hlo. apply sqrt_lt_1; nra.
  - rewrite <- (sqrt_square hi) by lra. apply sqrt_lt_1; nra.
Qed.

Lemma scenario_value :
  577350 / 1000000000 < 1 / 1000 * Rpower 3 (- / 2) < 577351 / 1000000000.
Proof.
  rewrite Rpower_neg_half by lra.
  destruct (sqrt_bounds 3 (1732050 / 1000000) (1732051 / 1000000)) as [H1 H2]; try lra.
  assert (Hs : 0 < sqrt 3) by lra.
  split.
  - apply Rmult_lt_reg_r with (sqrt 3); [exact Hs|].
    rewrite Rmult_assoc, Rinv_l by lra. lra.
  - apply Rmult_lt_reg_r with (sqrt 3); [exact Hs|].
    rewrite Rmult_assoc, Rinv_l by lra. lra.
Qed.
End Reals_facts.


(** ** The learning-rate derivation *)

Ltac py_unfold :=
  unfold mbind, Py_bind, outcome_bind, mret, Py_ret, outcome_ret,
    gets, modify, lift, raise, print in *.

Lemma os_path_exists_None fsys path :
  fsys !! path = None -> os_path_exists fsys path = false.
Proof. intros H. unfold os_path_exists. rewrite H. reflexivity. Qed.

Lemma schedule_i_stored (w : world) (h : list HistRow) :
  fs w !! hist_path (exp w) = Some (Pickled h) ->
  schedule_i w = (Ret (match i_max h with Some z => VInt z | None => VFloat NaN end), w).
Proof.
  intros H. unfold schedule_i, os_path_exists, read_pickle. py_unfold.
  rewrite H. reflexivity.
Qed.

Lemma schedule_i_absent (w : world) :
  fs w !! hist_path (exp w) = None -> schedule_i w = (Ret (VFloat (Fin 1)), w).
Proof.
  intros H. unfold schedule_i. py_unfold.
  rewrite (os_path_exists_None _ _ H). reflexivity.
Qed.



(** *** Arithmetic in [int64] *)

Lemma int64_max_value : int64_max = 9223372036854775807.
Proof. reflexivity. Qed.

Lemma int64_min_value : int64_min = -9223372036854775808.
Proof. reflexivity. Qed.

(** Linear arithmetic with the bounds of [int64] as numerals. *)
Ltac lia64 := rewrite ?int64_min_value, ?int64_max_value in *; lia.

Lemma wrap64_id (z : Z) : int64_min <= z <= int64_max -> wrap64 z = z.
Proof.
  intros Hz. unfold wrap64. change (2 ^ 64) with 18446744073709551616.
  rewrite Z.mod_small by lia64. lia.
Qed.

Lemma wrap64_past_max : wrap64 (1 + int64_max) = int64_min.
Proof. reflexivity. Qed.

Lemma iteration_range (x : iteration) : 0 <= iteration_Z x <= int64_max.
Proof.
  destruct x as [z Hz]. simpl. unfold is_iteration in Hz.
  apply andb_prop in Hz as [H1 H2]. apply Z.leb_le in H1, H2. lia.
Qed.

Lemma i_max_range (h : list HistRow) (i : Z) :
  i_max h = Some i -> 0 <= i <= int64_max.
Proof.
  destruct h as [|r rest]; [discriminate|]. simpl. intros [= <-].
  induction rest as [|r' rest IH]; simpl.
  - apply iteration_range.
  - pose proof (iteration_range (h_i r')). lia.
Qed.

Lemma div_base_pos (i c : Z) : 0 <= i -> 0 < c -> 0 < 1 + i / c.
Proof. intros Hi Hc. pose proof (Z.div_pos i c Hi Hc). lia. Qed.

(** Without overflow, the schedule's base is the integer [1 + i / const]. *)
Lemma schedule_base_int (i c : Z) :
  0 <= i -> 0 < c <= int64_max -> 1 + i / c <= int64_max ->
  schedule_base (VInt i) c = Ret (NpInt64 (1 + i / c)).
Proof.
  intros Hi Hc Hb. unfold schedule_base.
  pose proof (Z.div_pos i c Hi ltac:(lia)) as Hq.
  rewrite decide_True by lia64.
  rewrite (wrap64_id (i / c)) by lia64.
  rewrite wrap64_id by lia64.
  reflexivity.
Qed.

(** At the greatest [int64] and a constant of 1 the sum wraps around. *)
Lemma schedule_base_wraps :
  schedule_base (VInt int64_max) 1 = Ret (NpInt64 int64_min).
Proof.
  unfold schedule_base.
  rewrite decide_True by lia64.
  rewrite Z.div_1_r. rewrite (wrap64_id int64_max) by lia64.
  rewrite wrap64_past_max. reflexivity.
Qed.

Lemma float_pow_pos (z : Z) (e : R) :
  0 < z -> float_pow (NpInt64 z) e = Ret (Fin (Rpower (IZR z) e)).
Proof. intros Hz. unfold float_pow. rewrite decide_True by exact Hz. reflexivity. Qed.

Lemma not_whole_neg_half : ~ whole (- / 2).
Proof.
  unfold whole. replace (Zfloor (- / 2)) with (-1).
  - lra.
  - symmetry. apply Zfloor_eq. lra.
Qed.

(** A negative [int64] base to the power [-0.5] is [nan]. *)
Lemma float_pow_neg_half (z : Z) :
  z < 0 -> float_pow (NpInt64 z) (- / 2) = Ret NaN.
Proof.
  intros Hz. unfold float_pow, power_nonpos.
  rewrite decide_False by lia.
  rewrite (decide_False (P := (- / 2 = 0)%R)) by lra.
  rewrite decide_False by lia.
  rewrite decide_False by exact not_whole_neg_half.
  reflexivity.
Qed.

Lemma derive_learning_rate_int (args : Namespace) (b : R) (i : Z) :
  0 <= i ->
  0 < learning_rate_schedule_const args <= int64_max ->
  1 + i / learning_rate_schedule_const args <= int64_max ->
  derive_learning_rate args (VFloat (Fin b)) (VInt i) =
  Ret (VFloat (Fin (Rpower (IZR (1 + i / learning_rate_schedule_const args))
                      (- learning_rate_pow args) * b))).
Proof.
  intros Hi Hc Hb. unfold derive_learning_rate.
  rewrite (schedule_base_int i _ Hi Hc Hb). py_unfold.
  rewrite float_pow_pos by (apply div_base_pos; lia). reflexivity.
Qed.

(** The derivation at the greatest [int64] iteration, with the schedule
    constant 1 and the power 0.5. *)
Lemma derive_learning_rate_wraps (args : Namespace) (lr_base : pyval) :
  learning_rate_schedule_const args = 1 ->
  learning_rate_pow args = (/ 2)%R ->
  (exists v, float_times NaN lr_base = Ret v) ->
  derive_learning_rate args lr_base (VInt int64_max) = float_times NaN lr_base.
Proof.
  intros Hc Hp _. unfold derive_learning_rate. rewrite Hc, Hp, schedule_base_wraps.
  py_unfold. rewrite float_pow_neg_half by lia64.
  reflexivity.
Qed.

Lemma spec_lr_code (b pw : R) (c i : Z) :
  0 < c -> spec_lr b pw c i = (Rpower (IZR (1 + i / c)) (- pw) * b)%R.
Proof.
  intros Hc. unfold spec_lr. rewrite floor_div_IZR by exact Hc.
  rewrite plus_IZR. apply Rmult_comm.
Qed.

Lemma schedule_learning_rate_run (args : Namespace) (lr_base i lr : pyval) (w : world) :
  schedule_i w = (Ret i, w) ->
  derive_learning_rate args lr_base i = Ret lr ->
  schedule_learning_rate args lr_base w =
  (Ret tt, emit (EPrint [lr; i])
             (set_run_settings (<["learning_rate" := lr]> (run_settings w)) w)).
Proof.
  intros Hi Hd. unfold schedule_learning_rate. py_unfold.
  rewrite Hi, Hd. reflexivity.
Qed.

(** C1, as amended: for a reloaded history whose greatest iteration is [i]
    (an iteration of the frame is never negative), and a positive schedule
    constant, such that the constant and [1 + floor(i / const)] fit
    numpy's [int64], the launch stores in [run_settings] (and prints) the
    learning rate [lr_base * (1 + floor(i / const)) ^ (-pow)] of the
    specification; for [lr_base = 0.001], [const = 3600], [pow = 0.5] and
    [i = 7200] that is [0.001 * (1 + 2) ^ (-0.5)], which lies between
    0.000577350 and 0.000577351. *)
Theorem C1_learning_rate_formula
    (args : Namespace) (lr_base : R) (w : world) (h : list HistRow) (i : Z) :
  fs w !! hist_path (exp w) = Some (Pickled h) ->
  i_max h = Some i ->
  0 < learning_rate_schedule_const args <= int64_max ->
  1 + i / learning_rate_schedule_const args <= int64_max ->
  let lr := VFloat (Fin (spec_lr lr_base (learning_rate_pow args)
                           (learning_rate_schedule_const args) i)) in
  0 <= i /\
  schedule_learning_rate args (VFloat (Fin lr_base)) w =
    (Ret tt, emit (EPrint [lr; VInt i])
               (set_run_settings (<["learning_rate" := lr]> (run_settings w)) w))
  /\ spec_lr (1 / 1000) (/ 2) 3600 7200 = (1 / 1000 * Rpower (1 + 2) (- / 2))%R
  /\ (577350 / 1000000000 < spec_lr (1 / 1000) (/ 2) 3600 7200 < 577351 / 1000000000)%R.
Proof.
  intros Hfs Hmax Hc Hb lr.
  pose proof (i_max_range h i Hmax) as [Hi _].
  assert (Hscen : spec_lr (1 / 1000) (/ 2) 3600 7200 = (1 / 1000 * Rpower (1 + 2) (- / 2))%R).
  { unfold spec_lr. rewrite floor_div_IZR by lia.
    replace (7200 / 3600) with 2 by reflexivity. reflexivity. }
  split; [exact Hi|]. split; [|split; [exact Hscen|]].
  - apply schedule_learning_rate_run.
    + rewrite (schedule_i_stored w h Hfs), Hmax. reflexivity.
    + rewrite derive_learning_rate_int by assumption.
      subst lr. rewrite spec_lr_code by lia. reflexivity.
  - rewrite Hscen. replace (1 + 2)%R with 3%R by lra. exact scenario_value.
Qed.

Lemma C1_learning_rate_formula_witness :
  let w := Demo.world_with (Some "rbf") 3600 (Demo.stored 7200) in
  let args := Demo.args (Some "rbf") 3600 in
  fs w !! hist_path (exp w) = Some (Pickled (Demo.history 7200)) /\
  i_max (Demo.history 7200) = Some 7200 /\
  0 < learning_rate_schedule_const args <= int64_max /\
  1 + 7200 / learning_rate_schedule_const args <= int64_max /\
  run_settings (schedule_learning_rate args (VFloat (Fin (1 / 1000))) w).2
    !! "learning_rate"
  = Some (VFloat (Fin (spec_lr (1 / 1000) (/ 2) 3600 7200))).
Proof.
  intros w args.
  assert (H1 : fs w !! hist_path (exp w) = Some (Pickled (Demo.history 7200)))
    by reflexivity.
  assert (H2 : i_max (Demo.history 7200) = Some 7200) by reflexivity.
  assert (H3 : 0 < learning_rate_schedule_const args <= int64_max)
    by (simpl; lia64).
  assert (H4 : 1 + 7200 / learning_rate_schedule_const args <= int64_max)
    by (vm_compute; discriminate).
  split; [exact H1|]. split; [exact H2|]. split; [exact H3|]. split; [exact H4|].
  destruct (C1_learning_rate_formula args (1 / 1000) w (Demo.history 7200) 7200
              H1 H2 H3 H4) as (_ & H & _).
  rewrite H. reflexivity.
Defined.

(** C1, the claim as written fails: at the greatest iteration an [int64]
    column can hold, with a schedule constant of 1, the sum
    [1 + i // const] wraps around to [-2 ^ 63], whose power [-0.5] is
    [nan]: the launch stores [nan], not the rate of the formula. *)
Lemma C1_counterexample :
  let w := Demo.world_with (Some "rbf") 1 (Demo.stored int64_max) in
  let args := Demo.args (Some "rbf") 1 in
  fs w !! hist_path (exp w) = Some (Pickled (Demo.history int64_max)) /\
  i_max (Demo.history int64_max) = Some int64_max /\
  0 <= int64_max /\
  0 < learning_rate_schedule_const args /\
  run_settings (schedule_learning_rate args (VFloat (Fin (1 / 1000))) w).2
    !! "learning_rate" = Some (VFloat NaN) /\
  VFloat NaN <> VFloat (Fin (spec_lr (1 / 1000) (learning_rate_pow args) 1 int64_max)).
Proof.
  intros w args.
  assert (Hfs : fs w !! hist_path (exp w) = Some (Pickled (Demo.history int64_max)))
    by reflexivity.
  assert (Hmax : i_max (Demo.history int64_max) = Some int64_max) by reflexivity.
  split; [exact Hfs|]. split; [exact Hmax|].
  split; [lia64|]. split; [simpl; lia|].
  split; [|discriminate].
  erewrite schedule_learning_rate_run; [reflexivity | |].
  - rewrite (schedule_i_stored w _ Hfs), Hmax. reflexivity.
  - rewrite derive_learning_rate_wraps; [reflexivity | reflexivity | reflexivity |].
    eexists. reflexivity.
Qed.






(** C4, as amended: for iterations [0 <= i1 < i2] of an [int64] column and
    fixed [lr_base > 0], [const > 0] and [pow >= 0], where the constant and
    [1 + floor(i2 / const)] fit [int64], the rate derived at [i2] is at
    most the rate derived at [i1]. *)
Theorem C4_learning_rate_monotone (args : Namespace) (lr_base : R) (i1 i2 : Z) :
  0 <= i1 ->
  i1 < i2 ->
  i2 <= int64_max ->
  (0 < lr_base)%R ->
  0 < learning_rate_schedule_const args <= int64_max ->
  1 + i2 / learning_rate_schedule_const args <= int64_max ->
  (0 <= learning_rate_pow args)%R ->
  exists r1 r2 : R,
    derive_learning_rate args (VFloat (Fin lr_base)) (VInt i1) = Ret (VFloat (Fin r1)) /\
    derive_learning_rate args (VFloat (Fin lr_base)) (VInt i2) = Ret (VFloat (Fin r2)) /\
    (r2 <= r1)%R.
Proof.
  intros H1 H12 _ Hb Hc Hfit Hp.
  set (c := learning_rate_schedule_const args) in *.
  pose proof (Z.div_le_mono i1 i2 c ltac:(lia) ltac:(lia)) as Hmono.
  assert (Hb1 : 0 < 1 + i1 / c) by (apply div_base_pos; lia).
  eexists _, _. split; [|split].
  - apply derive_learning_rate_int; fold c; lia.
  - apply derive_learning_rate_int; fold c; lia.
  - fold c. apply Rmult_le_compat_r; [lra|].
    apply Rpower_neg_antitone; [apply IZR_lt; exact Hb1 | | exact Hp].
    apply IZR_le. lia.
Qed.

Lemma C4_learning_rate_monotone_witness :
  let args := Demo.args (Some "rbf") 3600 in
  0 <= 3599 /\ 3599 < 3600 /\ 3600 <= int64_max /\ (0 < 1 / 1000)%R /\
  0 < learning_rate_schedule_const args <= int64_max /\
  1 + 3600 / learning_rate_schedule_const args <= int64_max /\
  (0 <= learning_rate_pow args)%R /\
  exists r1 r2 : R,
    derive_learning_rate args (VFloat (Fin (1 / 1000))) (VInt 3599)
      = Ret (VFloat (Fin r1)) /\
    derive_learning_rate args (VFloat (Fin (1 / 1000))) (VInt 3600)
      = Ret (VFloat (Fin r2)) /\
    (r2 <= r1)%R.
Proof.
  intros args.
  assert (H1 : 0 <= 3599) by lia.
  assert (H2 : 3599 < 3600) by lia.
  assert (H3 : 3600 <= int64_max) by lia64.
  assert (H4 : (0 < 1 / 1000)%R) by lra.
  assert (H5 : 0 < learning_rate_schedule_const args <= int64_max) by (simpl; lia64).
  assert (H6 : 1 + 3600 / learning_rate_schedule_const args <= int64_max)
    by (vm_compute; discriminate).
  assert (H7 : (0 <= learning_rate_pow args)%R) by (simpl; lra).
  repeat (split; [assumption|]).
  exact (C4_learning_rate_monotone args (1 / 1000) 3599 3600 H1 H2 H3 H4 H5 H6 H7).
Defined.

(** C4, the claim as written fails: for the two greatest iterations an
    [int64] column can hold and a schedule constant of 1, the rate derived
    at the greater one is [nan], which is not at most the rate derived at
    the smaller one. *)
Lemma C4_counterexample :
  let args := Demo.args (Some "rbf") 1 in
  let i1 := int64_max - 1 in
  let i2 := int64_max in
  0 <= i1 /\ i1 < i2 /\ (0 < 1 / 1000)%R /\
  0 < learning_rate_schedule_const args /\
  (0 <= learning_rate_pow args)%R /\
  derive_learning_rate args (VFloat (Fin (1 / 1000))) (VInt i2) = Ret (VFloat NaN) /\
  ~ exists r1 r2 : R,
      derive_learning_rate args (VFloat (Fin (1 / 1000))) (VInt i1)
        = Ret (VFloat (Fin r1)) /\
      derive_learning_rate args (VFloat (Fin (1 / 1000))) (VInt i2)
        = Ret (VFloat (Fin r2)) /\
      (r2 <= r1)%R.
Proof.
  intros args i1 i2.
  assert (Hnan : derive_learning_rate args (VFloat (Fin (1 / 1000))) (VInt i2)
                 = Ret (VFloat NaN)).
  { unfold i2. rewrite derive_learning_rate_wraps; [reflexivity | reflexivity | reflexivity |].
    eexists. reflexivity. }
  split; [unfold i1; lia64|]. split; [unfold i1, i2; lia|]. split; [lra|].
  split; [simpl; lia|]. split; [simpl; lra|]. split; [exact Hnan|].
  intros (r1 & r2 & _ & H2 & _). rewrite Hnan in H2. discriminate.
Qed.

(** ** Loading the history *)

Section Loading.
Context `{External}.





End Loading.


(** ** Model setup *)

Lemma is_str_spec (v : pyval) (s : string) : is_str v s = true <-> v = VStr s.
Proof.
  destruct v; simpl; try (split; [discriminate | intros; discriminate]).
  rewrite String.eqb_eq. split; [intros ->; reflexivity | intros [= ->]; reflexivity].
Qed.

Lemma is_str_other (v : pyval) (s : string) : v <> VStr s -> is_str v s = false.
Proof.
  intros Hne. destruct (is_str v s) eqn:E; [|reflexivity].
  apply is_str_spec in E. contradiction.
Qed.

Section Setup.
Context `{External}.

(** C6: for a kernel setting that is none of ["rbf"], ["poly"],
    ["rbfpoly"], ["conv"], ["wconv"], [setup_model] raises
    [NotImplementedError] and leaves the state as it found it: no model is
    assigned and no generator is drawn from. *)
Theorem C6_unsupported_kernel_raises (w : world) (v : pyval) :
  run_settings w !! "kernel" = Some v ->
  v ∉ [VStr "rbf"; VStr "poly"; VStr "rbfpoly"; VStr "conv"; VStr "wconv"] ->
  setup_model w = (Raise NotImplementedError, w).
Proof using Type.
  intros Hk Hv.
  assert (forall s, s ∈ ["rbf"; "poly"; "rbfpoly"; "conv"; "wconv"] ->
                    is_str v s = false) as Hs.
  { intros s Hin. apply is_str_other. intros ->. apply Hv.
    apply (list_elem_of_fmap_2 VStr) in Hin. exact Hin. }
  unfold setup_model, choose_kernel, getitem. py_unfold. rewrite Hk.
  rewrite !Hs by (repeat constructor). reflexivity.
Qed.

End Setup.

Lemma C6_unsupported_kernel_raises_witness :
  let w := Demo.world_with (Some "linear") 3600 ∅ in
  run_settings w !! "kernel" = Some (VStr "linear") /\
  (VStr "linear" ∉ [VStr "rbf"; VStr "poly"; VStr "rbfpoly"; VStr "conv"; VStr "wconv"]) /\
  @setup_model Demo.collaborators w = (Raise NotImplementedError, w) /\
  m (exp (@setup_model Demo.collaborators w).2) = None.
Proof.
  intros w.
  assert (H1 : run_settings w !! "kernel" = Some (VStr "linear")) by reflexivity.
  assert (H2 : VStr "linear" ∉
               [VStr "rbf"; VStr "poly"; VStr "rbfpoly"; VStr "conv"; VStr "wconv"]).
  { rewrite !not_elem_of_cons. repeat split; try discriminate. apply not_elem_of_nil. }
  pose proof (@C6_unsupported_kernel_raises Demo.collaborators w (VStr "linear") H1 H2)
    as H3.
  split; [exact H1|]. split; [exact H2|]. split; [exact H3|].
  rewrite H3. reflexivity.
Defined.

(** ** Rates across launches *)

(** What [schedule_i] can answer: an iteration of the frame, the literal
    [1.0], or [nan]. *)
Lemma schedule_i_values (w : world) (v : pyval) :
  (schedule_i w).1 = Ret v ->
  (exists z : Z, v = VInt z /\ 0 <= z <= int64_max) \/
  v = VFloat (Fin 1) \/ v = VFloat NaN.
Proof.
  unfold schedule_i. py_unfold.
  destruct (os_path_exists _ _); [|intros [= <-]; right; left; reflexivity].
  destruct (read_pickle _ _) as [h|e]; [|discriminate]. simpl.
  destruct (i_max h) as [z|] eqn:Hz; intros [= <-].
  - left. exists z. split; [reflexivity|]. exact (i_max_range h z Hz).
  - right. right. reflexivity.
Qed.

(** With a power of 0 every rate is the base rate. *)
Lemma float_pow_zero (base : schedule_num) : float_pow base (- 0) = Ret (Fin 1).
Proof.
  rewrite Ropp_0. destruct base as [z|z|]; simpl.
  - destruct (decide (0 < z)) as [Hz|_].
    + rewrite Rpower_O by (apply IZR_lt; exact Hz). reflexivity.
    + rewrite decide_True by reflexivity. reflexivity.
  - destruct (decide (0 < z)) as [Hz|_].
    + rewrite Rpower_O by (apply IZR_lt; exact Hz). reflexivity.
    + rewrite decide_True by reflexivity. reflexivity.
  - rewrite decide_True by reflexivity. reflexivity.
Qed.

Lemma derive_learning_rate_pow_zero (args : Namespace) (b r : R) (i : pyval) :
  learning_rate_pow args = 0%R ->
  derive_learning_rate args (VFloat (Fin b)) i = Ret (VFloat (Fin r)) ->
  r = b.
Proof.
  intros Hp. unfold derive_learning_rate. rewrite Hp. py_unfold.
  destruct (schedule_base _ _) as [base|]; [|discriminate].
  rewrite float_pow_zero. simpl. intros [= <-]. lra.
Qed.

(** The rate derived from what a launch read, for a positive power.  Either
    nothing wrapped around, and the rate is the power of the positive base
    [1 + floor(i / const)] times the base rate; or [i] is the greatest
    [int64], the constant is 1, the base wrapped around to [-2 ^ 63] and
    the power is a whole number. *)
Lemma derive_learning_rate_inv (args : Namespace) (b r x : R) (w : world) (i : pyval) :
  0 < learning_rate_schedule_const args ->
  (0 < learning_rate_pow args)%R ->
  (schedule_i w).1 = Ret i ->
  derive_learning_rate args (VFloat (Fin b)) i = Ret (VFloat (Fin r)) ->
  num_of i = Some x ->
  (x <= IZR int64_max)%R /\
  ((exists base : Z,
      0 < base <= int64_max /\
      base = 1 + Zfloor (x / IZR (learning_rate_schedule_const args)) /\
      r = (Rpower (IZR base) (- learning_rate_pow args) * b)%R) \/
   (x = IZR int64_max /\ learning_rate_schedule_const args = 1 /\
    r = ((if Z.even (Zfloor (- learning_rate_pow args)) then 1 else -1)
         * Rpower (IZR (- int64_min)) (- learning_rate_pow args) * b)%R)).
Proof.
  intros Hc Hp Hi Hd Hx. unfold derive_learning_rate in Hd. py_unfold.
  set (c := learning_rate_schedule_const args) in *.
  set (p := learning_rate_pow args) in *.
  destruct (schedule_i_values w i Hi) as [(z & -> & Hz)|[->| ->]];
    simpl in Hx; simplify_eq.
  - (* an iteration of the frame *)
    split; [apply IZR_le; lia|].
    unfold schedule_base in Hd.
    destruct (decide (int64_min <= c <= int64_max)) as [Hcr|_]; [|discriminate].
    assert (Hq : 0 <= z / c <= z).
    { split; [apply Z.div_pos; lia|].
      pose proof (Z.mul_div_le z c Hc). nia. }
    rewrite (wrap64_id (z / c)) in Hd by lia64.
    destruct (decide (1 + z / c <= int64_max)) as [Hfit|Hover].
    + left. rewrite wrap64_id in Hd by lia64.
      rewrite float_pow_pos in Hd by lia. simpl in Hd. injection Hd as <-.
      exists (1 + z / c). rewrite floor_div_IZR by exact Hc.
      split; [lia|]. split; reflexivity.
    + right.
      assert (Hzc : z / c = int64_max) by lia.
      pose proof (Z.mul_div_le z c Hc) as Hm. rewrite Hzc in Hm.
      assert (Hc1 : c = 1) by (rewrite int64_max_value in *; nia).
      assert (Hz1 : z = int64_max) by (rewrite Hc1 in Hm; lia).
      subst z. split; [reflexivity|]. split; [exact Hc1|].
      rewrite Hzc, wrap64_past_max in Hd.
      unfold float_pow, power_nonpos in Hd.
      rewrite decide_False in Hd by lia64.
      rewrite (decide_False (P := (- p = 0)%R)) in Hd by lra.
      rewrite decide_False in Hd by lia64.
      destruct (decide (whole (- p))); simpl in Hd; [|discriminate].
      injection Hd as <-. reflexivity.
  - (* the literal 1.0 *)
    split; [apply (IZR_le 1); lia64|].
    left. unfold schedule_base in Hd.
    destruct (decide (c = 0)) as [|_]; [lia|].
    assert (Hfl : Zfloor (1 / IZR c) = 1 / c) by (apply (floor_div_IZR 1 c Hc)).
    rewrite Hfl in *.
    assert (Hq : 0 <= 1 / c <= 1).
    { split; [apply Z.div_pos; lia|].
      pose proof (Z.mul_div_le 1 c Hc). nia. }
    unfold float_pow in Hd. rewrite decide_True in Hd by lia.
    simpl in Hd. injection Hd as <-.
    exists (1 + 1 / c). split; [lia64|]. split; reflexivity.
Qed.

Lemma rate_drop_means_progress
    (args : Namespace) (b r r' x x' : R) (w w' : world) (i i' : pyval) :
  0 < learning_rate_schedule_const args ->
  (0 <= learning_rate_pow args)%R ->
  (0 <= b)%R ->
  (schedule_i w).1 = Ret i ->
  (schedule_i w').1 = Ret i' ->
  derive_learning_rate args (VFloat (Fin b)) i = Ret (VFloat (Fin r)) ->
  derive_learning_rate args (VFloat (Fin b)) i' = Ret (VFloat (Fin r')) ->
  num_of i = Some x -> num_of i' = Some x' ->
  (r' < r)%R -> (x < x')%R.
Proof.
  intros Hc Hp Hb Hi Hi' Hd Hd' Hx Hx' Hlt.
  destruct (Rle_lt_or_eq_dec _ _ Hp) as [Hpos|Hzero].
  2:{ symmetry in Hzero.
      rewrite (derive_learning_rate_pow_zero args b r i Hzero Hd) in Hlt.
      rewrite (derive_learning_rate_pow_zero args b r' i' Hzero Hd') in Hlt. lra. }
  destruct (derive_learning_rate_inv args b r x w i Hc Hpos Hi Hd Hx) as [Hmax Hs].
  destruct (derive_learning_rate_inv args b r' x' w' i' Hc Hpos Hi' Hd' Hx') as [Hmax' Hs'].
  destruct (Rlt_le_dec x x') as [Hlt'|Hge]; [exact Hlt'|exfalso].
  set (c := learning_rate_schedule_const args) in *.
  set (p := learning_rate_pow args) in *.
  assert (Hc' : (0 < IZR c)%R) by (apply IZR_lt; exact Hc).
  assert (Hq : (x' / IZR c <= x / IZR c)%R).
  { unfold Rdiv. apply Rmult_le_compat_r; [|exact Hge].
    apply Rlt_le, Rinv_0_lt_compat. exact Hc'. }
  apply Zfloor_le in Hq.
  assert (Htop : (0 < Rpower (IZR (- int64_min)) (- p))%R) by apply Rpower_pos.
  assert (Hsign : forall s : R, s = 1%R \/ s = (-1)%R ->
            (s * Rpower (IZR (- int64_min)) (- p) * b
             <= Rpower (IZR (- int64_min)) (- p) * b)%R).
  { intros s [->| ->]; nra. }
  destruct Hs as [(B & HB & HBe & ->)|(Hxm & Hc1 & ->)];
    destruct Hs' as [(B' & HB' & HBe' & ->)|(Hxm' & Hc1' & ->)].
  - assert (HBB : (IZR B' <= IZR B)%R) by (apply IZR_le; lia).
    assert (Hpow : (Rpower (IZR B) (- p) <= Rpower (IZR B') (- p))%R).
    { apply Rpower_neg_antitone; [apply IZR_lt; lia | exact HBB | lra]. }
    pose proof (Rmult_le_compat_r b _ _ Hb Hpow). lra.
  - (* the later launch wrapped around: the earlier one read the same [i] *)
    assert (Hxeq : x = IZR int64_max) by lra.
    rewrite Hxeq, Hc1' in HBe.
    rewrite (floor_div_IZR int64_max 1) in HBe by lia.
    rewrite Z.div_1_r in HBe. lia.
  - (* this launch wrapped around: no base is greater than [2 ^ 63] *)
    assert (HBB : (IZR B' <= IZR (- int64_min))%R) by (apply IZR_le; lia64).
    assert (Hpow : (Rpower (IZR (- int64_min)) (- p) <= Rpower (IZR B') (- p))%R).
    { apply Rpower_neg_antitone; [apply IZR_lt; lia | exact HBB | lra]. }
    pose proof (Rmult_le_compat_r b _ _ Hb Hpow).
    assert (Hle := Hsign (if Z.even (Zfloor (- p)) then 1%R else (-1)%R)
                     ltac:(destruct (Z.even _); auto)).
    lra.
  - lra.
Qed.

(** ** Rules of the program logic *)

Section Rules.
Context {A B : Type}.
Implicit Types (E : event -> Prop) (w : world).

Lemma wp_ret (a : A) E (Q : A -> world -> Prop) w :
  Q a w -> wp (mret a) E Q w.
Proof.
  intros HQ. exists []. simpl. rewrite app_nil_r.
  repeat split; [constructor|]. intros a' [= <-]. exact HQ.
Qed.

Lemma wp_raise (e : exn) E (Q : A -> world -> Prop) w :
  wp (raise e) E Q w.
Proof.
  exists []. simpl. rewrite app_nil_r.
  repeat split; [constructor|]. intros a' [=].
Qed.

Lemma wp_lift (o : outcome A) E (Q : A -> world -> Prop) w :
  (forall a, o = Ret a -> Q a w) -> wp (lift o) E Q w.
Proof.
  intros HQ. exists []. simpl. rewrite app_nil_r.
  repeat split; [constructor|]. exact HQ.
Qed.

Lemma wp_gets (f : world -> A) E (Q : A -> world -> Prop) w :
  Q (f w) w -> wp (gets f) E Q w.
Proof.
  intros HQ. exists []. simpl. rewrite app_nil_r.
  repeat split; [constructor|]. intros a' [= <-]. exact HQ.
Qed.

Lemma wp_bind (c : Py A) (f : A -> Py B) E (Q : B -> world -> Prop) w :
  wp c E (fun a w1 => wp (f a) E Q w1) w -> wp (c ≫= f) E Q w.
Proof.
  intros (evs & Htr & HE & Hk).
  unfold wp, mbind, Py_bind. destruct (c w) as [[a|e] w1] eqn:Hc; simpl in *.
  - destruct (Hk a eq_refl) as (evs' & Htr' & HE' & HQ).
    exists (evs ++ evs')%list. rewrite Htr', Htr, app_assoc.
    repeat split; [apply Forall_app; split; assumption|]. exact HQ.
  - exists evs. repeat split; [exact Htr | exact HE |]. intros b [=].
Qed.

Lemma wp_mono (c : Py A) E E' (Q Q' : A -> world -> Prop) w :
  wp c E Q w ->
  (forall e, E e -> E' e) ->
  (forall a w', Q a w' -> Q' a w') ->
  wp c E' Q' w.
Proof.
  intros (evs & Htr & HE & HQ) HEE HQQ. exists evs.
  repeat split; [exact Htr | exact (Forall_impl _ _ _ HE HEE) |].
  intros a Ha. apply HQQ, HQ, Ha.
Qed.

End Rules.

Lemma wp_modify (f : world -> world) E (Q : unit -> world -> Prop) w :
  trace (f w) = trace w -> Q tt (f w) -> wp (modify f) E Q w.
Proof.
  intros Htr HQ. exists []. simpl. rewrite app_nil_r.
  repeat split; [exact Htr | constructor |]. intros [] _. exact HQ.
Qed.

Lemma wp_emit (e : event) (E : event -> Prop) (Q : unit -> world -> Prop) w :
  E e -> Q tt (emit e w) -> wp (modify (emit e)) E Q w.
Proof.
  intros He HQ. exists [e]. simpl.
  repeat split; [repeat constructor; exact He|]. intros [] _. exact HQ.
Qed.

Lemma wp_print (args : list pyval) (E : event -> Prop) (Q : unit -> world -> Prop) w :
  E (EPrint args) -> Q tt (emit (EPrint args) w) -> wp (print args) E Q w.
Proof. apply wp_emit. Qed.

Lemma wp_new_events {A} (c : Py A) E Q w :
  wp c E Q w -> Forall E (new_events c w).
Proof.
  intros (evs & Htr & HE & _). unfold new_events.
  rewrite Htr, drop_app_length. exact HE.
Qed.

(** ** Task order *)

Lemma before_tail (k1 k2 : task_kind) (x : task) (l : list task) :
  before k1 k2 (x :: l) -> before k1 k2 l.
Proof.
  intros Hb a b ta tb Ha Hb' Hk1 Hk2.
  specialize (Hb (S a) (S b) ta tb Ha Hb' Hk1 Hk2). lia.
Qed.

Lemma before_sublist (k1 k2 : task_kind) (l1 l2 : list task) :
  sublist l1 l2 -> before k1 k2 l2 -> before k1 k2 l1.
Proof.
  induction 1 as [|x l1 l2 Hsub IH|x l1 l2 Hsub IH]; intros Hb.
  - intros a b ta tb Ha. rewrite lookup_nil in Ha. discriminate.
  - intros [|a] [|b] ta tb Ha Hb' Hk1 Hk2; simpl in *.
    + exact (Hb 0%nat 0%nat ta tb Ha Hb' Hk1 Hk2).
    + lia.
    + assert (Hin : ta ∈ l2).
      { eapply elem_of_sublist; [|exact Hsub].
        eapply list_elem_of_lookup_2. exact Ha. }
      apply list_elem_of_lookup in Hin as [a' Ha'].
      specialize (Hb (S a') 0%nat ta tb Ha' Hb' Hk1 Hk2). lia.
    + apply before_tail in Hb.
      specialize (IH Hb a b ta tb Ha Hb' Hk1 Hk2). lia.
  - apply IH. eapply before_tail. exact Hb.
Qed.

Lemma tasks_before (e : MnistExperiment) (rs : gmap string pyval)
    (h : option (list HistRow)) :
  before KLog KStore (tasks e rs h) /\ before KStore KTimeout (tasks e rs h).
Proof.
  split; intros a b ta tb Ha Hb Hk1 Hk2;
    destruct a as [|[|[|[|[|[|a]]]]]]; simpl in Ha; simplify_eq;
    destruct b as [|[|[|[|[|[|b]]]]]]; simpl in Hb; simplify_eq; lia.
Qed.

Section Dispatch.
Context `{External}.

Lemma on_fire_trace (tk : task) (w : world) :
  exists evs : list event,
    trace (on_fire tk w).2 = (trace w ++ evs)%list /\
    fired_kinds evs `prefix_of` [kind_of tk] /\
    (forall b, (on_fire tk w).1 = Ret b -> fired_kinds evs = [kind_of tk]).
Proof.
  unfold on_fire, the_logger, the_model. py_unfold.
  destruct (logger (exp w)) as [lg|] eqn:Hlg; simpl.
  2:{ exists []. rewrite app_nil_r. repeat split; [apply prefix_nil | discriminate]. }
  destruct tk; simpl.
  1,2: eexists [_]; repeat split; reflexivity.
  1,2: destruct (m (exp w)) as [model|]; simpl;
       [ destruct (log_predictive_probability _ _ _); simpl;
         [ destruct (accuracy _ _); simpl |] |];
       eexists [_]; repeat split; reflexivity.
  - eexists [_]; repeat split; reflexivity.
  - eexists [_; _]. split; [rewrite <- app_assoc; reflexivity|].
    split; reflexivity.
Qed.

Lemma fire_all_trace (ts : list task) (w : world) :
  exists evs : list event,
    trace (fire_all ts w).2 = (trace w ++ evs)%list /\
    fired_kinds evs `prefix_of` (kind_of <$> ts) /\
    (forall b, (fire_all ts w).1 = Ret b -> fired_kinds evs = kind_of <$> ts).
Proof.
  revert w. induction ts as [|tk ts IH]; intros w; simpl.
  - exists []. rewrite app_nil_r. repeat split; reflexivity.
  - destruct (on_fire_trace tk w) as (evs1 & Htr1 & Hp1 & Hr1).
    unfold mbind, Py_bind.
    destruct (on_fire tk w) as [[s1|e1] w1] eqn:Hf; simpl in *.
    + destruct (IH w1) as (evs2 & Htr2 & Hp2 & Hr2).
      specialize (Hr1 s1 eq_refl).
      destruct (fire_all ts w1) as [[s2|e2] w2] eqn:Hf2; simpl in *.
      * exists (evs1 ++ evs2)%list. rewrite Htr2, Htr1, app_assoc.
        unfold fired_kinds in *. rewrite omap_app, Hr1.
        repeat split.
        -- apply (prefix_app [kind_of tk]). exact Hp2.
        -- intros b _. simpl. f_equal. exact (Hr2 s2 eq_refl).
      * exists (evs1 ++ evs2)%list. rewrite Htr2, Htr1, app_assoc.
        unfold fired_kinds in *. rewrite omap_app, Hr1.
        repeat split.
        -- apply (prefix_app [kind_of tk]). exact Hp2.
        -- discriminate.
    + exists evs1. repeat split; [exact Htr1 | | discriminate].
      etransitivity; [exact Hp1|]. apply (prefix_app_r [kind_of tk] [kind_of tk]).
      reflexivity.
Qed.

Lemma one_step_fired (lr : pyval) (w : world) (lg : GPflowOptimisationHelper) :
  logger (exp w) = Some lg ->
  exists t1 : R,
    fired_kinds (new_events (one_step lr) w)
      `prefix_of` (kind_of <$> dispatch (helper_tasks lg) (helper_i lg + 1) t1).
Proof.
  intros Hlg.
  assert (Hnil : forall (w' : world) (ts : list task_kind),
             trace w' = trace w ->
             fired_kinds (drop (length (trace w)) (trace w')) `prefix_of` ts).
  { intros w' ts Htr. rewrite Htr, drop_all. apply prefix_nil. }
  unfold new_events, one_step, the_model, the_logger, sample. py_unfold. cbv beta.
  destruct (m (exp w)) as [model|]; [|exists 0%R; apply Hnil; reflexivity].
  cbn.
  destruct (heap w !! rng (index_manager_of (svgp_X model))) as [s|];
    [|exists 0%R; apply Hnil; reflexivity].
  destruct (next_indices _ _ s) as [xb s']. cbn.
  match goal with
  | |- context [<[?a := ?v]> ?hh !! ?b] => destruct (<[a := v]> hh !! b) as [s2|]
  end; [|exists 0%R; apply Hnil; reflexivity].
  destruct (next_indices _ _ s2) as [yb s2']. cbn.
  destruct (opt_step _ _ _ _) as [[x' dt]|e]; [|exists 0%R; apply Hnil; reflexivity].
  cbn. rewrite Hlg. cbn.
  exists (helper_t lg + dt)%R.
  match goal with
  | |- context [fire_all ?ts ?w5] =>
      destruct (fire_all_trace ts w5) as (evs & Htr & Hp & _); rewrite Htr
  end.
  cbn. rewrite <- app_assoc, drop_app_length. cbn. exact Hp.
Qed.

(** C7: the task list [setup_logger] hands to the helper is display,
    metric log, tracker with marginal likelihood, tracker, history store,
    timeout, in this order.  The tasks dispatched at a step are exactly the
    tasks of the list that are due, in the order of the list, whatever the
    step: where the metric-logging task and the history store are both
    due, the former comes first, and so does the history store before the
    timeout.  The due tasks fire in that order, all of them when none
    raises, and so they do in every step of a run. *)
Theorem C7_dispatch_order (e : MnistExperiment) (rs : gmap string pyval)
    (h : option (list HistRow)) (i : Z) (t : R) (w : world) :
  let ts := tasks e rs h in
  let due := dispatch ts i t in
  kind_of <$> ts = [KDisplay; KLog; KTrackerLml; KTracker; KStore; KTimeout] /\
  sublist due ts /\
  (forall tk : task, tk ∈ due <-> tk ∈ ts /\ fires tk i t = true) /\
  before KLog KStore due /\
  before KStore KTimeout due /\
  (forall ta tb : task,
      ta ∈ due -> tb ∈ due ->
      (kind_of ta = KLog /\ kind_of tb = KStore) \/
      (kind_of ta = KStore /\ kind_of tb = KTimeout) ->
      exists a b : nat, due !! a = Some ta /\ due !! b = Some tb /\ (a < b)%nat) /\
  fired_kinds (new_events (fire_all due) w) `prefix_of` (kind_of <$> due) /\
  (forall s : bool, (fire_all due w).1 = Ret s ->
      fired_kinds (new_events (fire_all due) w) = kind_of <$> due) /\
  (forall (w0 : world) (hh : option (list HistRow)),
      load_history (fs w0) (hist_path (exp w0)) = Ret hh ->
      exists lg : GPflowOptimisationHelper,
        logger (exp (setup_logger w0).2) = Some lg /\
        helper_tasks lg = tasks (exp w0) (run_settings w0) hh) /\
  (forall (lr : pyval) (w1 : world) (lg : GPflowOptimisationHelper),
      logger (exp w1) = Some lg -> helper_tasks lg = ts ->
      exists t1 : R,
        fired_kinds (new_events (one_step lr) w1)
          `prefix_of` (kind_of <$> dispatch ts (helper_i lg + 1) t1)).
Proof.
  intros ts due.
  assert (Hsub : sublist due ts) by apply sublist_filter.
  destruct (tasks_before e rs h) as [H1 H2].
  pose proof (before_sublist _ _ _ _ Hsub H1) as Hb1.
  pose proof (before_sublist _ _ _ _ Hsub H2) as Hb2.
  destruct (fire_all_trace due w) as (evs & Htr & Hp & Hall).
  split; [reflexivity|]. split; [exact Hsub|].
  split.
  { intros tk. unfold due, dispatch. rewrite list_elem_of_filter. tauto. }
  split; [exact Hb1|]. split; [exact Hb2|].
  split.
  { intros ta tb Hta Htb Hk.
    apply list_elem_of_lookup in Hta as [a Ha].
    apply list_elem_of_lookup in Htb as [b Hb].
    exists a, b. split; [exact Ha|]. split; [exact Hb|].
    destruct Hk as [[Hka Hkb]|[Hka Hkb]].
    - exact (Hb1 a b ta tb Ha Hb Hka Hkb).
    - exact (Hb2 a b ta tb Ha Hb Hka Hkb). }
  split.
  { unfold new_events. rewrite Htr, drop_app_length. exact Hp. }
  split.
  { intros s Hs. unfold new_events. rewrite Htr, drop_app_length.
    exact (Hall s Hs). }
  split.
  { intros w0 hh Hl. unfold setup_logger. py_unfold. cbv beta. rewrite Hl.
    destruct hh; cbn; eexists; split; reflexivity. }
  intros lr w1 lg Hlg Hts. rewrite <- Hts. apply one_step_fired. exact Hlg.
Qed.

End Dispatch.

(** ** The ceiling of the Timeout task *)

Lemma initial_run_settings_timeout (args : Namespace) :
  initial_run_settings args !! "timeout" = None.
Proof. reflexivity. Qed.

Section Ceiling.
Context `{External}.

(** C8, as amended: the ceiling of the Timeout task is the ["timeout"] entry
    of [run_settings], infinity when there is none.  The settings built
    from the command line never have the entry, also after the launch has
    stored a learning rate: the ceiling is infinity and the Timeout task is
    never due. *)
Theorem C8_timeout_ceiling (args : Namespace) (lr : pyval) (e : MnistExperiment)
    (h : option (list HistRow)) (i : Z) (t : R) :
  let rs := <["learning_rate" := lr]> (initial_run_settings args) in
  (forall (rs' : gmap string pyval) (v : pyval),
      rs' !! "timeout" = Some v -> tasks e rs' h !! 5%nat = Some (Timeout v)) /\
  initial_run_settings args !! "timeout" = None /\
  rs !! "timeout" = None /\
  tasks e rs h !! 5%nat = Some (Timeout (VFloat PInf)) /\
  (forall tk : task,
      tk ∈ tasks e rs h -> kind_of tk = KTimeout ->
      tk = Timeout (VFloat PInf) /\ fires tk i t = false).
Proof.
  intros rs.
  assert (Hrs : rs !! "timeout" = None) by reflexivity.
  split; [|split; [reflexivity|split; [exact Hrs|split]]].
  - intros rs' v Hv. simpl. unfold dict_get. rewrite Hv. reflexivity.
  - simpl. unfold dict_get. rewrite Hrs. reflexivity.
  - intros tk Hin Hk. unfold tasks in Hin.
    rewrite !elem_of_cons in Hin. unfold dict_get in Hin. rewrite Hrs in Hin.
    destruct Hin as [->|[->|[->|[->|[->|[->|Hin]]]]]]; try discriminate.
    + split; reflexivity.
    + apply elem_of_nil in Hin. contradiction.
Qed.

End Ceiling.

(** C8, the claim as written fails: no namespace the parser can return
    gives the Timeout task a ceiling other than infinity; the command line
    has no timeout option. *)
Lemma C8_counterexample :
  ~ exists args : Namespace,
      dict_get (initial_run_settings args) "timeout" (VFloat PInf) <> VFloat PInf.
Proof. intros [args Hne]. apply Hne. reflexivity. Qed.

(** ** The launch *)

Ltac wp_step :=
  lazymatch goal with
  | |- wp (mbind _ _) _ _ _ => apply wp_bind
  | |- wp (mret _) _ _ _ => apply wp_ret
  | |- wp (raise _) _ _ _ => apply wp_raise
  | |- wp (gets _) _ _ _ => apply wp_gets
  | |- wp (lift _) _ _ _ => apply wp_lift; intros ? ?
  | |- wp (print _) _ _ _ => apply wp_print; [try reflexivity; try exact I|]
  | |- wp (modify (emit _)) _ _ _ => apply wp_emit; [try reflexivity; try exact I|]
  | |- wp (modify _) _ _ _ => apply wp_modify; [reflexivity|]
  | |- wp (if ?b then _ else _) _ _ _ => destruct b eqn:?
  | |- wp (match ?x with _ => _ end) _ _ _ => destruct x eqn:?
  end; cbv beta.

Ltac wp_go := repeat wp_step.

Lemma schedule_i_state (w : world) : (schedule_i w).2 = w.
Proof.
  unfold schedule_i. py_unfold.
  destruct (os_path_exists _ _); [|reflexivity].
  destruct (read_pickle _ _); reflexivity.
Qed.

Section Launch.
Context `{External}.

Lemma random_rows_wp (Q : list row -> world -> Prop) (w : world) :
  (forall Zs g, Q Zs (set_np_random g w)) ->
  wp random_rows no_step Q w.
Proof.
  intros HQ. unfold random_rows. wp_go. apply HQ.
Qed.

Lemma choose_kernel_wp (kernel : pyval) (w : world) :
  wp (choose_kernel kernel) no_step (fun _ w1 => exists g, w1 = set_np_random g w) w.
Proof.
  unfold choose_kernel.
  repeat (wp_step; try (apply random_rows_wp; intros; wp_go; eexists; reflexivity)).
  exists (np_random w); destruct w; reflexivity.
  exists (np_random w); destruct w; reflexivity.
Qed.

Lemma setup_model_wp (w : world) :
  wp setup_model no_step
    (fun _ w' => run_settings w' = run_settings w /\
                 X (exp w') = X (exp w) /\ Y (exp w') = Y (exp w) /\
                 fs w' = fs w /\ hist_path (exp w') = hist_path (exp w) /\
                 model_built w') w.
Proof.
  unfold setup_model.
  wp_step. wp_step. wp_step. wp_step. apply wp_bind.
  eapply wp_mono; [apply choose_kernel_wp | auto |].
  intros [k Zopt] w1 [g ->].
  unfold SVGP_new.
  wp_go; simpl; repeat split; try reflexivity; eexists; repeat split; reflexivity.
Qed.

End Launch.

Lemma no_step_steps_at (lr : pyval) (e : event) : no_step e -> steps_at lr e.
Proof. destruct e; simpl; try exact (fun _ => I). discriminate. Qed.

Section Launch2.
Context `{External}.

Lemma setup_logger_wp (w : world) :
  wp setup_logger no_step
    (fun _ w' => run_settings w' = run_settings w /\
                 X (exp w') = X (exp w) /\ Y (exp w') = Y (exp w) /\
                 heap w' = heap w /\ m (exp w') = m (exp w)) w.
Proof.
  unfold setup_logger. wp_go; simpl; repeat split; reflexivity.
Qed.

Lemma model_built_frame (w w' : world) :
  X (exp w') = X (exp w) -> Y (exp w') = Y (exp w) -> m (exp w') = m (exp w) ->
  model_built w -> model_built w'.
Proof.
  intros HX HY Hm (model & H1 & H2 & H3 & H4 & H5 & H6).
  exists model. rewrite HX, HY, Hm. repeat split; assumption.
Qed.

Lemma exp_setup_wp (w : world) :
  wp exp_setup no_step
    (fun _ w' => run_settings w' = run_settings w /\
                 X (exp w') = X (exp w) /\ Y (exp w') = Y (exp w) /\
                 model_built w') w.
Proof.
  unfold exp_setup. apply wp_bind.
  eapply wp_mono; [apply setup_model_wp | auto |].
  intros _ w1 (Hrs & HX & HY & _ & _ & Hb). cbv beta.
  eapply wp_mono; [apply setup_logger_wp | auto |].
  intros _ w2 (Hrs2 & HX2 & HY2 & Hh2 & Hm2). cbv beta.
  repeat split; try congruence.
  eapply model_built_frame; eassumption.
Qed.

Lemma on_fire_wp (tk : task) (w : world) :
  wp (on_fire tk) no_step
    (fun _ w' => heap w' = heap w /\ m (exp w') = m (exp w)) w.
Proof.
  unfold on_fire, the_logger, the_model.
  wp_go; simpl; split; reflexivity.
Qed.

Lemma fire_all_wp (ts : list task) (w : world) :
  wp (fire_all ts) no_step
    (fun _ w' => heap w' = heap w /\ m (exp w') = m (exp w)) w.
Proof.
  revert w. induction ts as [|tk ts IH]; intros w; simpl.
  - wp_go. split; reflexivity.
  - apply wp_bind. eapply wp_mono; [apply on_fire_wp | auto |].
    intros s1 w1 [Hh1 Hm1]. cbv beta. apply wp_bind.
    eapply wp_mono; [apply IH | auto |].
    intros s2 w2 [Hh2 Hm2]. cbv beta. wp_go. split; congruence.
Qed.

Lemma one_step_wp_rate (lr : pyval) (w : world) :
  wp (one_step lr) (steps_at lr) (fun _ _ => True) w.
Proof.
  unfold one_step, the_model, the_logger, sample.
  repeat (wp_step;
          try (eapply wp_mono;
               [apply fire_all_wp | apply no_step_steps_at | intros; exact I])).
Qed.

Lemma run_steps_wp_rate (n : nat) (lr : pyval) (w : world) :
  wp (run_steps n lr) (steps_at lr) (fun _ _ => True) w.
Proof.
  revert w. induction n as [|n IH]; intros w; simpl.
  - wp_go. exact I.
  - apply wp_bind. eapply wp_mono; [apply one_step_wp_rate | auto |].
    intros [|] w1 _; cbv beta; [wp_go; exact I | apply IH].
Qed.

Lemma exp_run_wp_rate (maxiter : Z) (lr : pyval) (w : world) :
  run_settings w !! "learning_rate" = Some lr ->
  wp (exp_run maxiter) (steps_at lr) (fun _ _ => True) w.
Proof.
  intros Hlr. unfold exp_run, getitem. wp_step. wp_step. rewrite Hlr.
  wp_step. wp_step. simplify_eq. apply run_steps_wp_rate.
Qed.

Lemma schedule_i_wp (E : event -> Prop) (w : world) :
  wp schedule_i E (fun i w' => w' = w /\ (schedule_i w).1 = Ret i) w.
Proof.
  exists []. rewrite schedule_i_state, app_nil_r.
  split; [reflexivity|]. split; [constructor|].
  intros i Hi. split; [reflexivity | exact Hi].
Qed.

Lemma schedule_learning_rate_wp (args : Namespace) (lr_base : pyval) (w : world) :
  wp (schedule_learning_rate args lr_base) no_step
    (fun _ w' => exp w' = exp w /\
                 exists lr, launch_rate args lr_base w = Some lr /\
                            run_settings w' !! "learning_rate" = Some lr) w.
Proof.
  unfold schedule_learning_rate, launch_rate. apply wp_bind.
  eapply wp_mono; [apply (schedule_i_wp no_step w) | auto |].
  intros i w1 [-> Hi]. cbv beta. rewrite Hi. wp_go. simpl.
  split; [reflexivity|]. eexists. split; [|apply lookup_insert_eq].
  match goal with Hd : derive_learning_rate _ _ _ = _ |- _ => rewrite Hd end.
  reflexivity.
Qed.

Lemma launch_rate_None_events (args : Namespace) (lr_base : pyval) (w : world) :
  launch_rate args lr_base w = None ->
  new_events (training_launch args lr_base) w = [].
Proof.
  unfold launch_rate, training_launch, schedule_learning_rate, new_events.
  pose proof (schedule_i_state w) as Hst. py_unfold.
  destruct (schedule_i w) as [[i|e] w1] eqn:Hi; simpl in *; subst w1.
  - destruct (derive_learning_rate args lr_base i); [discriminate|].
    intros _. simpl. apply drop_all.
  - intros _. apply drop_all.
Qed.

Lemma launch_rate_None_state (args : Namespace) (lr_base : pyval) (w : world) :
  launch_rate args lr_base w = None ->
  (training_launch args lr_base w).2 = w.
Proof.
  unfold launch_rate, training_launch, schedule_learning_rate.
  pose proof (schedule_i_state w) as Hst. py_unfold.
  destruct (schedule_i w) as [[i|e] w1] eqn:Hi; simpl in *; subst w1.
  - destruct (derive_learning_rate args lr_base i); [discriminate|]. reflexivity.
  - reflexivity.
Qed.

Lemma reseed_wp_settings (w : world) :
  wp reseed no_step (fun _ w' => run_settings w' = run_settings w) w.
Proof.
  unfold reseed, new_RandomState, the_model. wp_go; reflexivity.
Qed.

Lemma training_launch_wp_rate (args : Namespace) (lr_base lr : pyval) (w : world) :
  launch_rate args lr_base w = Some lr ->
  wp (training_launch args lr_base) (steps_at lr) (fun _ _ => True) w.
Proof.
  intros Hlr. unfold training_launch. apply wp_bind.
  eapply wp_mono;
    [apply schedule_learning_rate_wp | apply no_step_steps_at |].
  intros _ w1 (_ & lr' & Hlr' & Hrs). rewrite Hlr in Hlr'. simplify_eq. cbv beta.
  apply wp_bind. eapply wp_mono; [apply exp_setup_wp | apply no_step_steps_at |].
  intros _ w2 (Hrs2 & HX2 & HY2 & Hb2). cbv beta.
  apply wp_bind. eapply wp_mono; [apply reseed_wp_settings | apply no_step_steps_at |].
  intros [] w3 Hrs3. cbv beta in *. apply exp_run_wp_rate. congruence.
Qed.



End Launch2.

Lemma rows_at_zip {A B} (Xs : list A) (Ys : list B) (idx : list nat) :
  length Xs = length Ys ->
  zip (rows_at Xs idx) (rows_at Ys idx) = rows_at (zip Xs Ys) idx.
Proof.
  intros Hlen. unfold rows_at. induction idx as [|j idx IH]; [reflexivity|].
  cbn [omap list_omap]. rewrite lookup_zip_with.
  destruct (Xs !! j) as [x|] eqn:Hx; destruct (Ys !! j) as [y|] eqn:Hy; cbn.
  - f_equal. exact IH.
  - apply lookup_lt_Some in Hx. apply lookup_ge_None in Hy. lia.
  - apply lookup_ge_None in Hx. apply lookup_lt_Some in Hy. lia.
  - exact IH.
Qed.

Section Launch3.
Context `{External}.

Lemma training_launch_trace (args : Namespace) (lr_base : pyval) (w : world) :
  trace (training_launch args lr_base w).2
  = (trace w ++ new_events (training_launch args lr_base) w)%list.
Proof.
  destruct (launch_rate args lr_base w) as [lr|] eqn:Hlr.
  - destruct (training_launch_wp_rate args lr_base lr w Hlr) as (evs & Htr & _).
    unfold new_events. rewrite Htr, drop_app_length. reflexivity.
  - unfold new_events. rewrite (launch_rate_None_state args lr_base w Hlr).
    rewrite drop_all, app_nil_r. reflexivity.
Qed.

Lemma training_loop_trace (n : nat) (args : Namespace) (lr_base : pyval) (w : world) :
  trace (training_loop n args lr_base w).2
  = (trace w ++ concat (new_events (training_launch args lr_base)
                          <$> launch_states n args lr_base w))%list.
Proof.
  revert w. induction n as [|n IH]; intros w.
  - simpl. rewrite app_nil_r. reflexivity.
  - cbn [training_loop launch_states fmap list_fmap concat].
    pose proof (training_launch_trace args lr_base w) as Htr.
    unfold mbind, Py_bind.
    destruct (training_launch args lr_base w) as [[[]|e] w1] eqn:Hl; simpl in Htr.
    + rewrite IH, Htr, app_assoc. reflexivity.
    + simpl. rewrite app_nil_r. exact Htr.
Qed.

(** C2: every optimiser step of a launch runs at the rate the launch
    derived from the history it found when it started (and a launch whose
    derivation fails takes no step at all); and where a later launch
    derives a smaller rate than this one, the greatest persisted iteration
    it read is greater than the one read here.  The events of the loop are
    those of its launches, one launch after the other, so this holds of
    every pass. *)
Theorem C2_rate_fixed_for_the_run (args : Namespace) (b : R) (w : world) :
  0 < learning_rate_schedule_const args ->
  (0 <= learning_rate_pow args)%R ->
  (0 <= b)%R ->
  match launch_rate args (VFloat (Fin b)) w with
  | Some lr =>
      Forall (steps_at lr) (new_events (training_launch args (VFloat (Fin b))) w)
  | None => new_events (training_launch args (VFloat (Fin b))) w = []
  end /\
  (forall (w' : world) (r r' i i' : R),
    launch_rate args (VFloat (Fin b)) w = Some (VFloat (Fin r)) ->
    launch_rate args (VFloat (Fin b)) w' = Some (VFloat (Fin r')) ->
    persisted_i w = Some i ->
    persisted_i w' = Some i' ->
    (r' < r)%R -> (i < i')%R) /\
  (forall n : nat,
    new_events (training_loop n args (VFloat (Fin b))) w
    = concat (new_events (training_launch args (VFloat (Fin b)))
                <$> launch_states n args (VFloat (Fin b)) w)).
Proof.
  intros Hc Hp Hb. split; [|split].
  - destruct (launch_rate args (VFloat (Fin b)) w) as [lr|] eqn:Hlr.
    + eapply wp_new_events. apply training_launch_wp_rate. exact Hlr.
    + apply launch_rate_None_events. exact Hlr.
  - intros w' r r' i i'. unfold launch_rate, persisted_i.
    destruct (schedule_i w).1 as [v|] eqn:Hv; [|discriminate].
    destruct (schedule_i w').1 as [v'|] eqn:Hv'; [|discriminate].
    destruct (derive_learning_rate args (VFloat (Fin b)) v) as [lr|] eqn:Hd;
      [|discriminate].
    destruct (derive_learning_rate args (VFloat (Fin b)) v') as [lr'|] eqn:Hd';
      [|discriminate].
    intros [= ->] [= ->] Hx Hx' Hlt.
    exact (rate_drop_means_progress args b r r' i i' w w' v v'
             Hc Hp Hb Hv Hv' Hd Hd' Hx Hx' Hlt).
  - intros n. unfold new_events at 1.
    rewrite training_loop_trace, drop_app_length. reflexivity.
Qed.

Lemma index_sequence_alike (k : nat) (imx imy : index_manager)
    (h1 h2 : gmap nat rng_state) :
  h1 !! rng imx = h2 !! rng imy ->
  total_size imx = total_size imy ->
  minibatch_size imx = minibatch_size imy ->
  index_sequence k imx h1 = index_sequence k imy h2.
Proof.
  intros Hs Ht Hmb. revert h1 h2 Hs.
  induction k as [|k IH]; intros h1 h2 Hs; [reflexivity|].
  simpl. rewrite Hs, Ht, Hmb.
  destruct (h2 !! rng imy) as [s|]; [|reflexivity].
  destruct (next_indices (total_size imy) (minibatch_size imy) s) as [idx s'].
  f_equal. apply IH. rewrite !lookup_insert_eq. reflexivity.
Qed.

Lemma index_sequence_draws (k : nat) (im : index_manager)
    (h : gmap nat rng_state) (s : rng_state) :
  h !! rng im = Some s ->
  index_sequence k im h = draws k (total_size im) (minibatch_size im) s.
Proof.
  revert h s. induction k as [|k IH]; intros h s Hs; [reflexivity|].
  simpl. rewrite Hs.
  destruct (next_indices (total_size im) (minibatch_size im) s) as [idx s'].
  f_equal. apply IH. apply lookup_insert_eq.
Qed.

Lemma reseed_explicit (w : world) (model : SVGP) :
  m (exp w) = Some model ->
  let seed := (randint 0 (10 ^ 9) (np_random w)).1 in
  let a := fresh (dom (heap w)) in
  let b := fresh (dom (<[a := RandomState seed]> (heap w))) in
  let w' := (reseed w).2 in
  (reseed w).1 = Ret tt /\
  heap w' = <[b := RandomState seed]> (<[a := RandomState seed]> (heap w)) /\
  m (exp w') = Some (with_Y (with_rng b (svgp_Y model))
                       (with_X (with_rng a (svgp_X model)) model)) /\
  np_random w' = (randint 0 (10 ^ 9) (np_random w)).2 /\
  fs w' = fs w /\ run_settings w' = run_settings w /\ trace w' = trace w /\
  X (exp w') = X (exp w) /\ Y (exp w') = Y (exp w) /\ logger (exp w') = logger (exp w).
Proof.
  intros Hm. unfold reseed, new_RandomState, the_model. py_unfold. cbv beta.
  destruct (randint 0 (10 ^ 9) (np_random w)) as [rndstate g'].
  cbn. rewrite Hm. cbn. repeat split; reflexivity.
Qed.

(** After [reseed] the two samplers hold two generator objects in the
    state of [RandomState(seed)]. *)
Lemma reseed_synced_at (w : world) :
  model_built w ->
  length (X (exp w)) = length (Y (exp w)) ->
  exists mb : pyval,
    synced_at (length (X (exp w))) mb
      (RandomState (randint 0 (10 ^ 9) (np_random w)).1) (reseed w).2.
Proof.
  intros (model & Hm & _ & _ & HtX & HtY & Hmb) Hlen.
  destruct (reseed_explicit w model Hm) as (_ & Hh & Hm' & _).
  set (seed := (randint 0 (10 ^ 9) (np_random w)).1) in *.
  set (a := fresh (dom (heap w))) in *.
  set (h1 := <[a := RandomState seed]> (heap w)) in *.
  set (b := fresh (dom h1)) in *.
  assert (Hab : a <> b).
  { intros Heq. pose proof (is_fresh (dom h1)) as Hf. fold b in Hf.
    apply Hf. rewrite <- Heq. unfold h1. rewrite dom_insert_L. set_solver. }
  exists (minibatch_size (index_manager_of (svgp_X model))).
  eexists. split; [exact Hm'|]. cbn.
  split; [exact Hab|].
  split; [rewrite Hh, lookup_insert_ne by congruence; apply lookup_insert_eq|].
  split; [rewrite Hh; apply lookup_insert_eq|].
  split; [exact HtX|]. split; [congruence|]. split; [reflexivity|].
  symmetry. exact Hmb.
Qed.

Lemma step_batches_no_step (evs : list event) :
  Forall no_step evs -> step_batches evs = [].
Proof.
  induction 1 as [|e evs He _ IH]; [reflexivity|].
  destruct e; try discriminate He; exact IH.
Qed.

Lemma step_batches_app (evs1 evs2 : list event) :
  step_batches (evs1 ++ evs2) = (step_batches evs1 ++ step_batches evs2)%list.
Proof. apply omap_app. Qed.

(** One step of the run from samplers in one state: its only optimiser
    step is given, for the features and for the labels, the indices drawn
    next from that state, and the samplers are left in one state again. *)
Lemma one_step_batches (lr : pyval) (total : nat) (mb : pyval) (s : rng_state)
    (w : world) :
  synced_at total mb s w ->
  exists evs : list event,
    trace (one_step lr w).2 = (trace w ++ evs)%list /\
    step_batches evs `prefix_of`
      [((next_indices total mb s).1, (next_indices total mb s).1)] /\
    forall stop : bool,
      (one_step lr w).1 = Ret stop ->
      step_batches evs = [((next_indices total mb s).1, (next_indices total mb s).1)] /\
      synced_at total mb (next_indices total mb s).2 (one_step lr w).2.
Proof.
  intros (model & Hm & Hne & Ha & Hb & HtX & HtY & HmX & HmY).
  assert (Hnil : forall w' : world,
             trace w' = trace w ->
             exists evs : list event,
               trace w' = (trace w ++ evs)%list /\
               step_batches evs `prefix_of`
                 [((next_indices total mb s).1, (next_indices total mb s).1)]).
  { intros w' Htr. exists []. rewrite app_nil_r. split; [exact Htr|]. apply prefix_nil. }
  unfold one_step, the_model, the_logger, sample. py_unfold. cbv beta.
  rewrite Hm. cbn. rewrite Ha, HtX, HmX.
  destruct (next_indices total mb s) as [idx s'] eqn:Hn. cbn.
  rewrite lookup_insert_ne by exact Hne. rewrite Hb, HtY, HmY, Hn. cbn.
  destruct (opt_step _ _ _ _) as [[x' dt]|e]; cbn.
  2:{ destruct (Hnil w eq_refl) as (evs & Htr & Hp).
      exists evs. split; [exact Htr|]. split; [exact Hp|]. discriminate. }
  destruct (logger (exp w)) as [lg|] eqn:Hlg; cbn.
  2:{ exists []. rewrite app_nil_r. split; [reflexivity|].
      split; [apply prefix_nil|]. discriminate. }
  match goal with
  | |- context [fire_all ?ts ?w5] =>
      destruct (fire_all_wp ts w5) as (evs & Htr & Hev & Hpost);
      destruct (fire_all ts w5) as [o w6] eqn:Hf
  end.
  cbn in *. exists (EStep lr (helper_i lg + 1) idx idx :: evs).
  split; [rewrite Htr, <- app_assoc; reflexivity|].
  assert (Hsb : step_batches (EStep lr (helper_i lg + 1) idx idx :: evs) = [(idx, idx)]).
  { change (step_batches (EStep lr (helper_i lg + 1) idx idx :: evs))
      with ((idx, idx) :: step_batches evs).
    rewrite (step_batches_no_step evs Hev). reflexivity. }
  split; [rewrite Hsb; reflexivity|].
  intros stop Hstop. split; [exact Hsb|].
  destruct o as [stop'|]; [|discriminate].
  destruct (Hpost stop' eq_refl) as [Hh Hm6].
  exists (with_free_state x' model). rewrite Hh, Hm6. cbn.
  split; [reflexivity|]. split; [exact Hne|].
  split; [rewrite lookup_insert_ne by congruence; apply lookup_insert_eq|].
  split; [apply lookup_insert_eq|].
  repeat split; assumption.
Qed.

Lemma run_steps_batches (n : nat) (lr : pyval) (total : nat) (mb : pyval)
    (s : rng_state) (w : world) :
  synced_at total mb s w ->
  exists evs : list event,
    trace (run_steps n lr w).2 = (trace w ++ evs)%list /\
    step_batches evs `prefix_of` ((fun idx => (idx, idx)) <$> draws n total mb s).
Proof.
  revert s w. induction n as [|n IH]; intros s w Hs.
  - exists []. simpl. rewrite app_nil_r. split; [reflexivity|]. apply prefix_nil.
  - destruct (one_step_batches lr total mb s w Hs) as (evs1 & Htr1 & Hp1 & Hret).
    cbn [run_steps draws]. unfold mbind, Py_bind.
    destruct (next_indices total mb s) as [idx s'] eqn:Hn. cbn [fst snd] in *.
    cbn [fmap list_fmap].
    destruct (one_step lr w) as [[stop|e] w1] eqn:Hone; cbn [fst snd] in *.
    + destruct (Hret stop eq_refl) as [Hsb Hs1].
      destruct stop.
      * exists evs1. split; [exact Htr1|]. rewrite Hsb.
        apply (prefix_app [(idx, idx)]). apply prefix_nil.
      * destruct (IH s' w1 Hs1) as (evs2 & Htr2 & Hp2).
        exists (evs1 ++ evs2)%list. rewrite Htr2, Htr1, app_assoc.
        split; [reflexivity|]. rewrite step_batches_app, Hsb.
        apply (prefix_app [(idx, idx)]). exact Hp2.
    + exists evs1. split; [exact Htr1|].
      etransitivity; [exact Hp1|].
      apply (prefix_app [(idx, idx)] []). apply prefix_nil.
Qed.

Lemma exp_run_batches (maxiter : Z) (total : nat) (mb : pyval) (s : rng_state)
    (w : world) :
  synced_at total mb s w ->
  exists evs : list event,
    trace (exp_run maxiter w).2 = (trace w ++ evs)%list /\
    step_batches evs
      `prefix_of` ((fun idx => (idx, idx)) <$> draws (Z.to_nat maxiter) total mb s).
Proof.
  intros Hs. unfold exp_run. py_unfold. cbv beta.
  destruct (getitem (run_settings w) "learning_rate") as [lr|e]; cbn.
  - exact (run_steps_batches _ lr total mb s w Hs).
  - exists []. rewrite app_nil_r. split; [reflexivity|]. apply prefix_nil.
Qed.

(** The statements ahead of the reseeding build the model over the data,
    which they leave as it is, and take no optimiser step. *)
Lemma launch_setup_wp (args : Namespace) (lr_base : pyval) (w : world) :
  wp (launch_setup args lr_base) no_step
    (fun _ w' => X (exp w') = X (exp w) /\ Y (exp w') = Y (exp w) /\ model_built w') w.
Proof.
  unfold launch_setup. apply wp_bind.
  eapply wp_mono; [apply schedule_learning_rate_wp | auto |].
  intros _ w1 (Hexp & _). cbv beta.
  eapply wp_mono; [apply exp_setup_wp | auto |].
  intros _ w2 (_ & HX & HY & Hb). cbv beta. rewrite <- Hexp. auto.
Qed.

Lemma training_launch_split (args : Namespace) (lr_base : pyval) (w : world) :
  training_launch args lr_base w
  = match launch_setup args lr_base w with
    | (Ret _, w1) =>
        match reseed w1 with
        | (Ret _, w2) => exp_run (learning_rate_schedule_const args) w2
        | (Raise e, w2) => (Raise e, w2)
        end
    | (Raise e, w1) => (Raise e, w1)
    end.
Proof.
  unfold training_launch, launch_setup, mbind, Py_bind.
  destruct (schedule_learning_rate args lr_base w) as [[[]|e] w0]; [|reflexivity].
  destruct (exp_setup w0) as [[[]|e] w1]; [|reflexivity].
  destruct (reseed w1) as [[[]|e] w2]; reflexivity.
Qed.

(** On the features and the labels, a pass of the loop changes nothing. *)
Lemma on_fire_wp_data (tk : task) (w : world) :
  wp (on_fire tk) (fun _ => True)
    (fun _ w' => X (exp w') = X (exp w) /\ Y (exp w') = Y (exp w)) w.
Proof.
  unfold on_fire, the_logger, the_model.
  wp_go; simpl; split; reflexivity.
Qed.

Lemma fire_all_wp_data (ts : list task) (w : world) :
  wp (fire_all ts) (fun _ => True)
    (fun _ w' => X (exp w') = X (exp w) /\ Y (exp w') = Y (exp w)) w.
Proof.
  revert w. induction ts as [|tk ts IH]; intros w; simpl.
  - wp_go. split; reflexivity.
  - apply wp_bind. eapply wp_mono; [apply on_fire_wp_data | auto |].
    intros s1 w1 [HX1 HY1]. cbv beta. apply wp_bind.
    eapply wp_mono; [apply IH | auto |].
    intros s2 w2 [HX2 HY2]. cbv beta. wp_go. split; congruence.
Qed.

Lemma one_step_wp_data (lr : pyval) (w : world) :
  wp (one_step lr) (fun _ => True)
    (fun _ w' => X (exp w') = X (exp w) /\ Y (exp w') = Y (exp w)) w.
Proof.
  unfold one_step, the_model, the_logger, sample.
  repeat (wp_step;
          try (eapply wp_mono;
               [apply fire_all_wp_data | auto
               | intros ? ? [? ?]; split; simpl in *; congruence])).
Qed.

Lemma run_steps_wp_data (n : nat) (lr : pyval) (w : world) :
  wp (run_steps n lr) (fun _ => True)
    (fun _ w' => X (exp w') = X (exp w) /\ Y (exp w') = Y (exp w)) w.
Proof.
  revert w. induction n as [|n IH]; intros w; simpl.
  - wp_go. split; reflexivity.
  - apply wp_bind. eapply wp_mono; [apply one_step_wp_data | auto |].
    intros [|] w1 [HX HY]; cbv beta; [wp_go; split; assumption|].
    eapply wp_mono; [apply IH | auto |].
    intros _ w2 [HX2 HY2]. split; congruence.
Qed.

Lemma training_launch_data (args : Namespace) (lr_base : pyval) (w w' : world) :
  training_launch args lr_base w = (Ret tt, w') ->
  X (exp w') = X (exp w) /\ Y (exp w') = Y (exp w).
Proof.
  rewrite training_launch_split.
  destruct (launch_setup_wp args lr_base w) as (_ & _ & _ & Hpost).
  destruct (launch_setup args lr_base w) as [[[]|e] w1]; [|discriminate].
  destruct (Hpost tt eq_refl) as (HX1 & HY1 & model & Hm & _).
  destruct (reseed_explicit w1 model Hm) as (Hret & _ & _ & _ & _ & _ & _ & HX2 & HY2 & _).
  destruct (reseed w1) as [[[]|e] w2]; [|discriminate]. cbn in *.
  unfold exp_run. py_unfold. cbv beta.
  destruct (getitem (run_settings w2) "learning_rate") as [lr|e]; [|discriminate].
  cbn. destruct (run_steps_wp_data (Z.to_nat (learning_rate_schedule_const args)) lr w2)
    as (_ & _ & _ & Hrun).
  intros Heq. rewrite Heq in Hrun. destruct (Hrun tt eq_refl) as [HX3 HY3].
  cbn in *. split; congruence.
Qed.

Lemma launch_states_data (n : nat) (args : Namespace) (lr_base : pyval) (w0 w : world) :
  w ∈ launch_states n args lr_base w0 ->
  X (exp w) = X (exp w0) /\ Y (exp w) = Y (exp w0).
Proof.
  revert w0. induction n as [|n IH]; intros w0; simpl.
  - intros Hin. apply elem_of_nil in Hin. contradiction.
  - rewrite elem_of_cons. intros [->|Hin]; [split; reflexivity|].
    destruct (training_launch args lr_base w0) as [[[]|e] w1] eqn:Hl.
    + destruct (training_launch_data args lr_base w0 w1 Hl) as [HX HY].
      destruct (IH w1 Hin) as [HX' HY']. split; congruence.
    + apply elem_of_nil in Hin. contradiction.
Qed.

(** C10: in every pass of the loop that gets as far as the reseeding, over
    features and labels of one length, [reseed] draws one seed from the
    global generator, which it advances, and gives the index managers of
    [X] and [Y] two distinct generator objects, both [RandomState(seed)];
    the run of that pass starts in this state.  So the two samplers draw
    the same sequence of index lists, the steps of the pass are given, for
    features and labels alike, the index lists drawn from
    [RandomState(seed)] in turn, and rows gathered from [X] and [Y] at the
    same indices pair each feature row with its own label. *)
Theorem C10_samplers_share_the_seed (args : Namespace) (lr_base : pyval)
    (n : nat) (w0 w w1 : world) :
  length (X (exp w0)) = length (Y (exp w0)) ->
  w ∈ launch_states n args lr_base w0 ->
  launch_setup args lr_base w = (Ret tt, w1) ->
  let seed := (randint 0 (10 ^ 9) (np_random w1)).1 in
  let w2 := (reseed w1).2 in
  exists model : SVGP,
    reseed w1 = (Ret tt, w2) /\
    training_launch args lr_base w = exp_run (learning_rate_schedule_const args) w2 /\
    np_random w2 = (randint 0 (10 ^ 9) (np_random w1)).2 /\
    m (exp w2) = Some model /\
    rng (index_manager_of (svgp_X model)) <> rng (index_manager_of (svgp_Y model)) /\
    heap w2 !! rng (index_manager_of (svgp_X model)) = Some (RandomState seed) /\
    heap w2 !! rng (index_manager_of (svgp_Y model)) = Some (RandomState seed) /\
    (forall k : nat,
        index_sequence k (index_manager_of (svgp_X model)) (heap w2)
        = index_sequence k (index_manager_of (svgp_Y model)) (heap w2)) /\
    step_batches (new_events (training_launch args lr_base) w)
      `prefix_of` ((fun idx => (idx, idx))
                     <$> draws (Z.to_nat (learning_rate_schedule_const args))
                           (length (X (exp w)))
                           (minibatch_size (index_manager_of (svgp_X model)))
                           (RandomState seed)) /\
    (forall idx : list nat,
        zip (rows_at (X (exp w)) idx) (rows_at (Y (exp w)) idx)
        = rows_at (zip (X (exp w)) (Y (exp w))) idx).
Proof.
  intros Hlen0 Hin Hsetup seed w2.
  destruct (launch_states_data n args lr_base w0 w Hin) as [HX0 HY0].
  assert (Hlen : length (X (exp w)) = length (Y (exp w))) by congruence.
  destruct (launch_setup_wp args lr_base w) as (evs0 & Htr0 & Hev0 & Hpost).
  rewrite Hsetup in Htr0, Hpost. cbn in Htr0, Hpost.
  destruct (Hpost tt eq_refl) as (HX1 & HY1 & Hbuilt).
  assert (Hlen1 : length (X (exp w1)) = length (Y (exp w1))) by congruence.
  destruct (reseed_synced_at w1 Hbuilt Hlen1) as (mb & Hsync).
  fold seed w2 in Hsync.
  pose proof Hbuilt as (model1 & Hm1 & _).
  destruct (reseed_explicit w1 model1 Hm1)
    as (Hret & _ & _ & Hg & _ & _ & Htr2 & _).
  fold w2 in Hg, Htr2.
  assert (Hreseed : reseed w1 = (Ret tt, w2)).
  { unfold w2. destruct (reseed w1) as [o w']. cbn in *. congruence. }
  assert (Hsplit : training_launch args lr_base w
                   = exp_run (learning_rate_schedule_const args) w2).
  { rewrite training_launch_split, Hsetup, Hreseed. reflexivity. }
  pose proof Hsync as (model & Hm & Hne & Ha & Hb & HtX & HtY & HmX & HmY).
  exists model.
  split; [exact Hreseed|]. split; [exact Hsplit|]. split; [exact Hg|].
  split; [exact Hm|]. split; [exact Hne|]. split; [exact Ha|]. split; [exact Hb|].
  split.
  { intros k. apply index_sequence_alike; [congruence | congruence | congruence]. }
  split.
  { destruct (exp_run_batches (learning_rate_schedule_const args) _ mb _ w2 Hsync)
      as (evs & Htr & Hp).
    unfold new_events. rewrite Hsplit, Htr, Htr2, Htr0, <- app_assoc, drop_app_length.
    rewrite step_batches_app, (step_batches_no_step evs0 Hev0). cbn [app].
    rewrite HmX, <- HX1. exact Hp. }
  intros idx. apply rows_at_zip. exact Hlen.
Qed.

End Launch3.

Example demo_launch :
  let w := Demo.world_with (Some "rbf") 2 (Demo.stored 5) in
  let lr := VFloat (Fin (Rpower (IZR 3) (- / 2) * (1 / 1000))) in
  new_events (@training_launch Demo.collaborators (Demo.args (Some "rbf") 2)
                (VFloat (Fin (1 / 1000)))) w
  = [ EPrint [lr; VInt 5];
      EPrint [VStr "Resuming from %s..."; VStr "results/fullmnist-rbf100/hist.pkl"];
      EStep lr 6 [1%nat] [1%nat];
      EStep lr 7 [0%nat] [0%nat] ].
Proof. vm_compute. reflexivity. Qed.

(** ** Held-out metrics *)


Lemma sum_fin (l : list R) : foldr pf_add (Fin 0) (Fin <$> l) = Fin (Rsum l).
Proof.
  induction l as [|x l IH]; [reflexivity|].
  cbn [fmap list_fmap foldr]. fold (@fmap list _ _ _ Fin l). rewrite IH. reflexivity.
Qed.

Lemma np_mean_fin (l : list R) :
  l <> [] -> np_mean (Fin <$> l) = Fin (Rsum l / INR (length l)).
Proof.
  intros Hne. unfold np_mean. rewrite sum_fin, length_fmap.
  destruct l; [contradiction|reflexivity].
Qed.

Lemma bind_Ret {A B} (a : A) (f : A -> outcome B) : Ret a ≫= f = f a.
Proof. reflexivity. Qed.

Lemma mapM_Ret_cons {A B} (f : A -> outcome B) (x : A) (l : list A) (y : B) (k : list B) :
  f x = Ret y -> mapM f l = Ret k -> mapM f (x :: l) = Ret (y :: k).
Proof.
  intros Hx Hl.
  change (mapM f (x :: l)) with (f x ≫= fun y => mapM f l ≫= fun k => mret (y :: k)).
  rewrite Hx, Hl. reflexivity.
Qed.

Lemma index_wrap_scored (pr : list R) (y : Z) :
  scored pr y -> index_wrap pr y = Ret (true_label_probability (pr, y)).
Proof.
  intros [[Hlo Hhi] _]. unfold index_wrap, true_label_probability. simpl.
  destruct (y <? 0) eqn:Hneg; [lia|]. rewrite Hneg.
  destruct (pr !! Z.to_nat y) as [x|] eqn:Hl.
  - rewrite (nth_lookup_Some _ _ _ _ Hl). reflexivity.
  - apply lookup_ge_None in Hl. lia.
Qed.

Lemma gather_true_label (pre p : list (list R)) (labels : list Z) :
  Forall2 scored p labels ->
  mapM (fun '(r, c) =>
          match (pre ++ p) !! r with
          | Some pr => index_wrap pr c
          | None => Raise IndexError
          end) (zip (seq (length pre) (length p)) labels)
  = Ret (true_label_probability <$> zip p labels).
Proof.
  intros Hs. revert pre. induction Hs as [|pr y p labels Hsc Hs IH]; intros pre.
  - reflexivity.
  - cbn [length seq zip_with fmap list_fmap]. apply mapM_Ret_cons.
    + rewrite list_lookup_middle by reflexivity.
      exact (index_wrap_scored pr y Hsc).
    + specialize (IH (pre ++ [pr])).
      rewrite length_app, Nat.add_1_r, <- app_assoc in IH. exact IH.
Qed.

Lemma np_log_pos (x : R) : (0 < x)%R -> np_log x = Fin (ln x).
Proof. intros Hx. unfold np_log. destruct (decide (0 < x)%R); [reflexivity|contradiction]. Qed.

Lemma log_scored (p : list (list R)) (labels : list Z) :
  Forall2 scored p labels ->
  np_log <$> (true_label_probability <$> zip p labels)
  = Fin <$> ((fun pt => ln (true_label_probability pt)) <$> zip p labels).
Proof.
  induction 1 as [|pr y p labels [_ Hpos] Hs IH]; [reflexivity|].
  cbn [zip_with fmap list_fmap]. f_equal; [|exact IH].
  apply np_log_pos. exact Hpos.
Qed.


Lemma concat_singletons (labels : list Z) :
  concat ((fun y => [y]) <$> labels) = labels.
Proof. induction labels as [|y labels IH]; [reflexivity|]. simpl. f_equal. exact IH. Qed.

(** [argmax_from] answers the first position of the greatest value among a
    running best and the entries that follow. *)
Lemma argmax_from_spec (l : list R) (best : R) (besti j : nat) :
  (besti < j)%nat ->
  let a := argmax_from best besti j l in
  let v := if decide (a = besti) then best else nth (a - j) l 0%R in
  (a = besti \/ (j <= a < j + length l)%nat) /\
  (best <= v)%R /\
  (a <> besti -> (best < v)%R) /\
  forall (q : nat) (x : R),
    l !! q = Some x -> (x <= v)%R /\ ((j + q < a)%nat -> (x < v)%R) /\
                       (a = besti -> (x <= best)%R).
Proof.
  revert best besti j. induction l as [|y l IH]; intros best besti j Hlt a v.
  - subst a v. simpl. rewrite decide_True by reflexivity.
    split; [left; reflexivity|]. split; [lra|]. split; [tauto|].
    intros q x Hq. rewrite lookup_nil in Hq. discriminate.
  - subst a v. simpl argmax_from.
    destruct (decide (best < y)%R) as [Hby|Hby].
    + specialize (IH y j (S j) ltac:(lia)). cbv zeta in IH.
      destruct IH as (Hpos & Hge & Hgt & Hall).
      set (a := argmax_from y j (S j) l) in *.
      assert (Hne : a <> besti) by lia.
      rewrite decide_False by exact Hne.
      assert (Hv : (if decide (a = j) then y else nth (a - S j) l 0%R)
                   = nth (a - j) (y :: l) 0%R).
      { destruct (decide (a = j)) as [->|Hnj].
        - rewrite Nat.sub_diag. reflexivity.
        - replace (a - j)%nat with (S (a - S j)) by lia. reflexivity. }
      rewrite Hv in *.
      split; [right; simpl; lia|]. split; [lra|]. split; [intros _; lra|].
      intros [|q] x Hq; simpl in Hq.
      * injection Hq as <-. split; [exact Hge|]. split; [|intros; lia].
        intros Hja. apply Hgt. lia.
      * destruct (Hall q x Hq) as (H1 & H2 & H3).
        split; [exact H1|]. split; [|intros; lia]. intros Hq'. apply H2. lia.
    + specialize (IH best besti (S j) ltac:(lia)). cbv zeta in IH.
      destruct IH as (Hpos & Hge & Hgt & Hall).
      set (a := argmax_from best besti (S j) l) in *.
      assert (Hv : (if decide (a = besti) then best else nth (a - S j) l 0%R)
                   = (if decide (a = besti) then best else nth (a - j) (y :: l) 0%R)).
      { destruct (decide (a = besti)) as [|Hnb]; [reflexivity|].
        replace (a - j)%nat with (S (a - S j)) by lia. reflexivity. }
      rewrite Hv in *.
      split; [simpl; lia|]. split; [exact Hge|]. split; [exact Hgt|].
      intros [|q] x Hq; simpl in Hq.
      * injection Hq as <-. split; [lra|]. split; [|intros; lra].
        intros Hja. destruct (decide (a = besti)) as [|Hnb]; [lia|].
        specialize (Hgt Hnb). lra.
      * destruct (Hall q x Hq) as (H1 & H2 & H3).
        split; [exact H1|]. split; [|exact H3]. intros Hq'. apply H2. lia.
Qed.







Lemma indicator_sum {A} (P : A -> bool) (l : list A) :
  Rsum ((fun x => if P x then 1%R else 0%R) <$> l)
  = INR (length (filter (fun x => P x = true) l)).
Proof.
  induction l as [|x l IH]; [reflexivity|].
  cbn [fmap list_fmap Rsum foldr]. fold (Rsum ((fun x => if P x then 1%R else 0%R) <$> l)).
  rewrite IH. rewrite filter_cons. destruct (P x) eqn:HP.
  - rewrite decide_True by reflexivity. rewrite length_cons, S_INR. lra.
  - rewrite decide_False by discriminate. lra.
Qed.





(** ** The statements on the small instantiation *)

Lemma C2_rate_fixed_for_the_run_witness :
  let args := Demo.args (Some "rbf") 2 in
  let w := Demo.world_with (Some "rbf") 2 (Demo.stored 5) in
  0 < learning_rate_schedule_const args /\
  (0 <= learning_rate_pow args)%R /\
  (0 <= 1 / 1000)%R /\
  Forall (steps_at (VFloat (Fin (Rpower (IZR 3) (- / 2) * (1 / 1000)))))
    (new_events (@training_launch Demo.collaborators args (VFloat (Fin (1 / 1000)))) w).
Proof.
  intros args w.
  assert (H1 : 0 < learning_rate_schedule_const args) by (simpl; lia).
  assert (H2 : (0 <= learning_rate_pow args)%R) by (simpl; lra).
  assert (H3 : (0 <= 1 / 1000)%R) by lra.
  split; [exact H1|]. split; [exact H2|]. split; [exact H3|].
  destruct (@C2_rate_fixed_for_the_run Demo.collaborators args (1 / 1000) w H1 H2 H3)
    as (Hrun & _ & _).
  exact Hrun.
Defined.

Lemma C10_samplers_share_the_seed_witness :
  let args := Demo.args (Some "rbf") 2 in
  let lr_base := VFloat (Fin (1 / 1000)) in
  let w := Demo.world_with (Some "rbf") 2 (Demo.stored 5) in
  let w1 := (@launch_setup Demo.collaborators args lr_base w).2 in
  length (X (exp w)) = length (Y (exp w)) /\
  w ∈ @launch_states Demo.collaborators 1 args lr_base w /\
  @launch_setup Demo.collaborators args lr_base w = (Ret tt, w1) /\
  step_batches (new_events (@training_launch Demo.collaborators args lr_base) w)
    `prefix_of` ((fun idx => (idx, idx))
                   <$> @draws Demo.collaborators 2 2 (VInt 100)
                         (@RandomState Demo.collaborators
                            (@randint Demo.collaborators 0 (10 ^ 9) (np_random w1)).1)).
Proof.
  intros args lr_base w w1.
  assert (H1 : length (X (exp w)) = length (Y (exp w))) by reflexivity.
  assert (H2 : w ∈ @launch_states Demo.collaborators 1 args lr_base w).
  { simpl. apply list_elem_of_here. }
  assert (H3 : @launch_setup Demo.collaborators args lr_base w = (Ret tt, w1)).
  { assert (Hr : (@launch_setup Demo.collaborators args lr_base w).1 = Ret tt)
      by (vm_compute; reflexivity).
    unfold w1. destruct (@launch_setup Demo.collaborators args lr_base w) as [o w'].
    cbn in *. congruence. }
  split; [exact H1|]. split; [exact H2|]. split; [exact H3|].
  destruct (@C10_samplers_share_the_seed Demo.collaborators args lr_base 1 w w w1
              H1 H2 H3) as (model & _ & _ & _ & Hm & _ & _ & _ & _ & Hp & _).
  assert (Hmb : minibatch_size (index_manager_of (svgp_X model)) = VInt 100).
  { assert (Hm' : minibatch_size <$> (index_manager_of <$> (svgp_X <$>
                    m (exp (@reseed Demo.collaborators w1).2))) = Some (VInt 100))
      by (vm_compute; reflexivity).
    rewrite Hm in Hm'. cbn in Hm'. congruence. }
  rewrite Hmb in Hp. exact Hp.
Defined.


(** A history file that cannot be read ends the loop at its first pass. *)
Example demo_unreadable :
  let w := Demo.world_with (Some "rbf") 2
             {[ hist_path Demo.experiment := Unreadable (PickleError "truncated") ]} in
  @training_loop Demo.collaborators 3 (Demo.args (Some "rbf") 2)
    (VFloat (Fin (1 / 1000))) w
  = (Raise (PickleError "truncated"), w).
Proof. reflexivity. Qed.

(** On that point the benchmark reports an accuracy of 1. *)
Example demo_accuracy : accuracy [[1 / 4; 3 / 4]%R] [[1]] = Ret (Fin 1).
Proof.
  unfold accuracy. simpl. unfold mbind, outcome_bind, mret, outcome_ret. simpl.
  destruct (decide (1 / 4 < 3 / 4)%R) as [_|Hn]; [|exfalso; lra].
  unfold broadcast2. simpl. unfold np_mean. simpl.
  f_equal. f_equal. lra.
Qed.

(** * Further properties of the script *)

(** ** More on the learning-rate schedule *)

(** X1: for an iteration [0 <= i] of an [int64] column, a positive
    schedule constant, where the constant and [1 + floor(i / const)] fit
    [int64], a decay power that is not negative and a positive base rate,
    the derived learning rate is a number that is not negative and never
    above the base rate. *)
Theorem learning_rate_bounds (args : Namespace) (lr_base : R) (i : Z) :
  0 <= i <= int64_max ->
  0 < learning_rate_schedule_const args <= int64_max ->
  1 + i / learning_rate_schedule_const args <= int64_max ->
  (0 <= learning_rate_pow args)%R ->
  (0 < lr_base)%R ->
  exists r : R,
    derive_learning_rate args (VFloat (Fin lr_base)) (VInt i) = Ret (VFloat (Fin r)) /\
    (0 <= r <= lr_base)%R.
Proof.
  intros [Hi _] Hc Hfit Hp Hb.
  pose proof (div_base_pos i _ Hi (proj1 Hc)) as Hbase.
  eexists. split; [apply derive_learning_rate_int; assumption|].
  set (B := 1 + i / learning_rate_schedule_const args) in *.
  assert (H1 : (1 <= IZR B)%R) by (apply IZR_le; lia).
  pose proof (Rpower_pos (IZR B) (- learning_rate_pow args)) as Hpos.
  pose proof (Rpower_neg_antitone 1 (IZR B) _ ltac:(lra) H1 Hp) as Hle.
  rewrite Rpower_one in Hle. split; [nra|nra].
Qed.

Lemma learning_rate_bounds_witness :
  let args := Demo.args (Some "rbf") 3600 in
  0 <= 7200 <= int64_max /\
  0 < learning_rate_schedule_const args <= int64_max /\
  1 + 7200 / learning_rate_schedule_const args <= int64_max /\
  (0 <= learning_rate_pow args)%R /\ (0 < 1 / 1000)%R /\
  exists r : R,
    derive_learning_rate args (VFloat (Fin (1 / 1000))) (VInt 7200)
      = Ret (VFloat (Fin r)) /\
    (0 <= r <= 1 / 1000)%R.
Proof.
  intros args.
  assert (H1 : 0 <= 7200 <= int64_max) by lia64.
  assert (H2 : 0 < learning_rate_schedule_const args <= int64_max) by (simpl; lia64).
  assert (H3 : 1 + 7200 / learning_rate_schedule_const args <= int64_max)
    by (vm_compute; discriminate).
  assert (H4 : (0 <= learning_rate_pow args)%R) by (simpl; lra).
  assert (H5 : (0 < 1 / 1000)%R) by lra.
  split; [exact H1|]. split; [exact H2|]. split; [exact H3|]. split; [exact H4|].
  split; [exact H5|].
  exact (learning_rate_bounds args (1 / 1000) 7200 H1 H2 H3 H4 H5).
Defined.

(** X2: throughout the [k]-th block of [const] iterations, that is for
    [k * const <= i < (k + 1) * const], where [i], the constant and [1 + k]
    fit [int64], the derived rate is [(1 + k) ^ (-pow) * lr_base]: the
    schedule is a step function of the persisted iteration. *)
Theorem learning_rate_on_block (args : Namespace) (lr_base : R) (k i : Z) :
  0 <= k ->
  0 < learning_rate_schedule_const args <= int64_max ->
  k * learning_rate_schedule_const args <= i ->
  i < (k + 1) * learning_rate_schedule_const args ->
  i <= int64_max ->
  1 + k <= int64_max ->
  derive_learning_rate args (VFloat (Fin lr_base)) (VInt i)
  = Ret (VFloat (Fin (Rpower (IZR (1 + k)) (- learning_rate_pow args) * lr_base))).
Proof.
  intros Hk Hc Hlo Hhi _ Hfit.
  assert (Hq : i / learning_rate_schedule_const args = k).
  { symmetry. apply (Z.div_unique i _ k (i - k * learning_rate_schedule_const args)); lia. }
  rewrite derive_learning_rate_int; [rewrite Hq; reflexivity | nia | exact Hc |].
  rewrite Hq. exact Hfit.
Qed.

Lemma learning_rate_on_block_witness :
  let args := Demo.args (Some "rbf") 3600 in
  0 <= 2 /\ 0 < learning_rate_schedule_const args <= int64_max /\
  2 * learning_rate_schedule_const args <= 9000 /\
  9000 < (2 + 1) * learning_rate_schedule_const args /\
  9000 <= int64_max /\ 1 + 2 <= int64_max /\
  derive_learning_rate args (VFloat (Fin (1 / 1000))) (VInt 9000)
  = Ret (VFloat (Fin (Rpower (IZR (1 + 2)) (- learning_rate_pow args) * (1 / 1000)))).
Proof.
  intros args.
  assert (H1 : 0 <= 2) by lia.
  assert (H2 : 0 < learning_rate_schedule_const args <= int64_max) by (simpl; lia64).
  assert (H3 : 2 * learning_rate_schedule_const args <= 9000) by (simpl; lia).
  assert (H4 : 9000 < (2 + 1) * learning_rate_schedule_const args) by (simpl; lia).
  assert (H5 : 9000 <= int64_max) by lia64.
  assert (H6 : 1 + 2 <= int64_max) by lia64.
  split; [exact H1|]. split; [exact H2|]. split; [exact H3|]. split; [exact H4|].
  split; [exact H5|]. split; [exact H6|].
  exact (learning_rate_on_block args (1 / 1000) 2 9000 H1 H2 H3 H4 H5 H6).
Defined.

(** X3: a history that has advanced by a full run of [const] iterations,
    still short of the greatest [int64], derives its rate from a base that
    is greater by exactly one: the rate is
    [(2 + floor(i / const)) ^ (-pow) * lr_base], and with a power and a
    base rate that are not negative it is not above the rate derived
    before the run. *)
Theorem learning_rate_steps_after_a_run (args : Namespace) (lr_base : R) (i : Z) :
  0 <= i ->
  0 < learning_rate_schedule_const args ->
  i + learning_rate_schedule_const args < int64_max ->
  (0 <= learning_rate_pow args)%R ->
  (0 <= lr_base)%R ->
  let c := learning_rate_schedule_const args in
  schedule_base (VInt i) c = Ret (NpInt64 (1 + i / c)) /\
  schedule_base (VInt (i + c)) c = Ret (NpInt64 (1 + i / c + 1)) /\
  exists r1 r2 : R,
    derive_learning_rate args (VFloat (Fin lr_base)) (VInt i) = Ret (VFloat (Fin r1)) /\
    derive_learning_rate args (VFloat (Fin lr_base)) (VInt (i + c))
      = Ret (VFloat (Fin r2)) /\
    r2 = (Rpower (IZR (2 + i / c)) (- learning_rate_pow args) * lr_base)%R /\
    (r2 <= r1)%R.
Proof.
  intros Hi Hc Hfit Hp Hb c. fold c in Hc, Hfit.
  assert (Hq : (i + c) / c = i / c + 1).
  { replace (i + c) with (i + 1 * c) by lia. apply Z.div_add. lia. }
  assert (Hle : 0 <= i / c <= i).
  { split; [apply Z.div_pos; lia|]. pose proof (Z.mul_div_le i c Hc). nia. }
  pose proof (div_base_pos i c Hi Hc) as Hb1.
  assert (H1 : schedule_base (VInt i) c = Ret (NpInt64 (1 + i / c)))
    by (apply schedule_base_int; lia).
  assert (H2 : schedule_base (VInt (i + c)) c = Ret (NpInt64 (1 + i / c + 1))).
  { rewrite schedule_base_int by (rewrite ?Hq; lia). rewrite Hq.
    f_equal. f_equal. lia. }
  split; [exact H1|]. split; [exact H2|].
  eexists _, _. split; [|split; [|split]].
  - apply derive_learning_rate_int; fold c; lia.
  - apply derive_learning_rate_int; fold c; rewrite ?Hq; lia.
  - fold c. rewrite Hq. do 3 f_equal. lia.
  - fold c. rewrite Hq. apply Rmult_le_compat_r; [exact Hb|].
    apply Rpower_neg_antitone; [apply IZR_lt; exact Hb1 | apply IZR_le; lia | exact Hp].
Qed.

Lemma learning_rate_steps_after_a_run_witness :
  let args := Demo.args (Some "rbf") 3600 in
  0 <= 10 /\ 0 < learning_rate_schedule_const args /\
  10 + learning_rate_schedule_const args < int64_max /\
  (0 <= learning_rate_pow args)%R /\ (0 <= 1 / 1000)%R /\
  schedule_base (VInt 10) 3600 = Ret (NpInt64 1) /\
  schedule_base (VInt (10 + 3600)) 3600 = Ret (NpInt64 2).
Proof.
  intros args.
  assert (H1 : 0 <= 10) by lia.
  assert (H2 : 0 < learning_rate_schedule_const args) by (simpl; lia).
  assert (H3 : 10 + learning_rate_schedule_const args < int64_max) by (simpl; lia64).
  assert (H4 : (0 <= learning_rate_pow args)%R) by (simpl; lra).
  assert (H5 : (0 <= 1 / 1000)%R) by lra.
  split; [exact H1|]. split; [exact H2|]. split; [exact H3|]. split; [exact H4|].
  split; [exact H5|].
  destruct (learning_rate_steps_after_a_run args (1 / 1000) 10 H1 H2 H3 H4 H5)
    as (Ha & Hb & _).
  split; [exact Ha | exact Hb].
Defined.



(** With a schedule constant of 0 the floor division of [nan] raises
    [ZeroDivisionError], as that of the literal [1.0] does. *)
Example demo_empty_history_zero_constant :
  derive_learning_rate (Demo.args (Some "rbf") 0) (VFloat (Fin (1 / 1000))) (VFloat NaN)
  = Raise ZeroDivisionError.
Proof. reflexivity. Qed.

(** An iteration of -1 in the place of the frame's, with a schedule
    constant of 1, gives numpy the base 0, whose negative power is [inf]:
    the rate is [inf] and nothing is raised. *)
Example demo_numpy_zero_base :
  derive_learning_rate (Demo.args (Some "rbf") 1) (VFloat (Fin (1 / 1000))) (VInt (-1))
  = Ret (VFloat PInf).
Proof.
  unfold derive_learning_rate, schedule_base. cbn [learning_rate_schedule_const Demo.args].
  rewrite decide_True by lia64.
  change (-1 / 1) with (-1). rewrite (wrap64_id (-1)) by lia64.
  change (1 + -1) with 0. rewrite (wrap64_id 0) by lia64.
  unfold float_pow, power_nonpos. py_unfold. cbn [learning_rate_pow Demo.args].
  rewrite decide_False by lia.
  rewrite (decide_False (P := (- / 2 = 0)%R)) by lra.
  rewrite decide_True by reflexivity.
  rewrite (decide_False (P := (0 < - / 2)%R)) by lra.
  simpl. rewrite decide_True by lra. reflexivity.
Qed.

(** With no history file and a negative schedule constant the literal
    [1.0] gives Python the base [0.0], whose negative power raises. *)
Example demo_python_zero_base :
  derive_learning_rate (Demo.args (Some "rbf") (-5)) (VFloat (Fin (1 / 1000)))
    (VFloat (Fin 1))
  = Raise ZeroDivisionError.
Proof.
  unfold derive_learning_rate, schedule_base. cbn [learning_rate_schedule_const Demo.args].
  rewrite decide_False by lia.
  replace (Zfloor (1 / IZR (-5))) with (-1).
  2:{ symmetry. apply Zfloor_eq. lra. }
  unfold float_pow. py_unfold. cbn [learning_rate_pow Demo.args].
  change (1 + -1) with 0.
  rewrite decide_False by lia.
  rewrite (decide_False (P := (- / 2 = 0)%R)) by lra.
  rewrite decide_True by (split; [reflexivity | lra]).
  reflexivity.
Qed.

Lemma schedule_i_frame (w w' : world) :
  fs w' = fs w -> exp w' = exp w -> (schedule_i w').1 = (schedule_i w).1.
Proof.
  intros Hfs Hexp. unfold schedule_i. py_unfold. rewrite Hfs, Hexp.
  destruct (os_path_exists _ _); [|reflexivity].
  destruct (read_pickle _ _); reflexivity.
Qed.

(** X6: deriving the rate twice in a row has the outcome of deriving it
    once and leaves the same settings: the base rate is the one read before
    the loop, so the decay does not compound over the rate stored by the
    pass before. *)
Theorem schedule_learning_rate_idempotent
    (args : Namespace) (lr_base : pyval) (w : world) :
  let once := schedule_learning_rate args lr_base in
  ((once;; once) w).1 = (once w).1 /\
  run_settings ((once;; once) w).2 = run_settings (once w).2.
Proof.
  intros once. unfold once, schedule_learning_rate.
  pose proof (schedule_i_state w) as Hst.
  destruct (schedule_i w) as [[i|e] w0] eqn:Hi; simpl in Hst; subst w0.
  2:{ py_unfold. cbv beta. rewrite Hi. split; reflexivity. }
  destruct (derive_learning_rate args lr_base i) as [lr|e] eqn:Hd.
  2:{ py_unfold. cbv beta. rewrite Hi. cbv beta iota. rewrite Hd. split; reflexivity. }
  set (w1 := emit (EPrint [lr; i])
               (set_run_settings (<["learning_rate" := lr]> (run_settings w)) w)).
  assert (Hi1 : schedule_i w1 = (Ret i, w1)).
  { pose proof (schedule_i_frame w w1 eq_refl eq_refl) as Hf.
    pose proof (schedule_i_state w1) as Hs1. rewrite Hi in Hf. simpl in Hf.
    destruct (schedule_i w1) as [o w2]. simpl in *. congruence. }
  assert (Hrun : schedule_learning_rate args lr_base w = (Ret tt, w1))
    by (apply schedule_learning_rate_run; assumption).
  assert (Hrun1 : schedule_learning_rate args lr_base w1
                  = (Ret tt, emit (EPrint [lr; i])
                               (set_run_settings
                                  (<["learning_rate" := lr]> (run_settings w1)) w1)))
    by (apply schedule_learning_rate_run; assumption).
  fold (schedule_learning_rate args lr_base).
  unfold mbind, Py_bind. rewrite Hrun, Hrun1.
  split; [reflexivity|]. apply insert_insert_eq.
Qed.

(** ** More on model setup *)

Lemma rows_at_length {A} (Xs : list A) (idx : list nat) :
  Forall (fun j => (j < length Xs)%nat) idx -> length (rows_at Xs idx) = length idx.
Proof.
  unfold rows_at. induction 1 as [|j idx Hj _ IH]; [reflexivity|].
  cbn [omap list_omap]. destruct (Xs !! j) eqn:Hl.
  - simpl. f_equal. exact IH.
  - apply lookup_ge_None in Hl. lia.
Qed.

Lemma dense_is_str (k : string) :
  k ∈ dense_kernels ->
  is_str (VStr k) "rbf" = true \/
  (is_str (VStr k) "rbf" = false /\ is_str (VStr k) "poly" = true) \/
  (is_str (VStr k) "rbf" = false /\ is_str (VStr k) "poly" = false /\
   is_str (VStr k) "rbfpoly" = true).
Proof.
  unfold dense_kernels. rewrite !elem_of_cons, elem_of_nil.
  intros [->|[->|[->|[]]]]; cbn; tauto.
Qed.

Section Setup2.
Context `{External}.

(** X9: for the kernels ["rbf"], ["poly"] and ["rbfpoly"], with [M >= 0]
    and numpy's [permutation] answering a permutation of the row indices,
    [setup_model] succeeds and the inducing inputs of the model are the rows
    of [X] at pairwise distinct, in-range positions, [min(M, len(X))] of
    them. *)
Theorem dense_inducing_inputs (w : world) (k : string) (fw : pyval) :
  run_settings w !! "kernel" = Some (VStr k) ->
  k ∈ dense_kernels ->
  run_settings w !! "fix_w" = Some fw ->
  truthy fw = false ->
  0 <= M (exp w) ->
  (permutation (length (X (exp w))) (np_random w)).1 ≡ₚ seq 0 (length (X (exp w))) ->
  (setup_model w).1 = Ret tt /\
  exists (model : SVGP) (idx : list nat),
    m (exp (setup_model w).2) = Some model /\
    svgp_Z model = rows_at (X (exp w)) idx /\
    NoDup idx /\
    Forall (fun j => (j < length (X (exp w)))%nat) idx /\
    length (svgp_Z model) = Nat.min (Z.to_nat (M (exp w))) (length (X (exp w))).
Proof.
  intros Hk Hdense Hfw Htr HM Hperm.
  destruct (permutation (length (X (exp w))) (np_random w)) as [perm g'] eqn:Hp.
  simpl in Hperm.
  set (idx := take (Z.to_nat (M (exp w))) perm).
  assert (Hnd : NoDup idx).
  { apply (sublist_NoDup _ perm); [|apply sublist_take].
    rewrite Hperm. apply NoDup_seq. }
  assert (Hin : Forall (fun j => (j < length (X (exp w)))%nat) idx).
  { apply Forall_forall. intros j Hj.
    assert (Hj' : j ∈ perm) by (eapply elem_of_sublist; [exact Hj|apply sublist_take]).
    rewrite Hperm in Hj'. apply elem_of_seq in Hj'. lia. }
  assert (Hlen : length idx = Nat.min (Z.to_nat (M (exp w))) (length (X (exp w)))).
  { unfold idx. rewrite length_take. f_equal.
    rewrite (Permutation_length Hperm). apply length_seq. }
  assert (Hsl : slice_to (M (exp w)) perm = idx).
  { unfold slice_to. destruct (0 <=? M (exp w)) eqn:E; [reflexivity|lia]. }
  unfold setup_model, choose_kernel, random_rows, SVGP_new, getitem. py_unfold.
  cbv beta. rewrite Hk, Hfw.
  destruct (dense_is_str k Hdense) as [E1|[[E1 E2]|[E1 [E2 E3]]]];
    rewrite ?E1, ?E2, ?E3; cbn; rewrite Hp; cbn; rewrite Htr, Hsl; cbn;
    (split; [reflexivity|]);
    eexists _, idx; (split; [reflexivity|]); cbn;
    (split; [reflexivity|]); (split; [exact Hnd|]); (split; [exact Hin|]);
    rewrite rows_at_length by exact Hin; exact Hlen.
Qed.

End Setup2.

Lemma dense_inducing_inputs_witness :
  let w := Demo.world_with (Some "rbf") 3600 ∅ in
  run_settings w !! "kernel" = Some (VStr "rbf") /\
  ("rbf" ∈ dense_kernels) /\
  run_settings w !! "fix_w" = Some (VBool false) /\
  truthy (VBool false) = false /\
  0 <= M (exp w) /\
  ((@permutation Demo.collaborators (length (X (exp w))) (np_random w)).1
     ≡ₚ seq 0 (length (X (exp w)))) /\
  (@setup_model Demo.collaborators w).1 = Ret tt.
Proof.
  intros w.
  assert (H1 : run_settings w !! "kernel" = Some (VStr "rbf")) by reflexivity.
  assert (H2 : "rbf" ∈ dense_kernels) by (unfold dense_kernels; rewrite elem_of_cons; left; reflexivity).
  assert (H3 : run_settings w !! "fix_w" = Some (VBool false)) by reflexivity.
  assert (H4 : truthy (VBool false) = false) by reflexivity.
  assert (H5 : 0 <= M (exp w)) by (simpl; lia).
  assert (H6 : (@permutation Demo.collaborators (length (X (exp w))) (np_random w)).1
               ≡ₚ seq 0 (length (X (exp w)))) by reflexivity.
  split; [exact H1|]. split; [exact H2|]. split; [exact H3|]. split; [exact H4|].
  split; [exact H5|]. split; [exact H6|].
  exact (proj1 (@dense_inducing_inputs Demo.collaborators w "rbf" (VBool false)
                  H1 H2 H3 H4 H5 H6)).
Defined.

Section Setup3.
Context `{External}.

Lemma setup_model_unsupported (w : world) (kv : pyval) :
  run_settings w !! "kernel" = Some kv ->
  kv ∉ VStr <$> supported_kernels ->
  setup_model w = (Raise NotImplementedError, w).
Proof.
  intros Hk Hv.
  assert (forall s, s ∈ supported_kernels -> is_str kv s = false) as Hs.
  { intros s Hin. apply is_str_other. intros ->. apply Hv.
    apply list_elem_of_fmap_2. exact Hin. }
  unfold setup_model, choose_kernel, getitem. py_unfold. rewrite Hk.
  rewrite !Hs by (unfold supported_kernels; repeat constructor). reflexivity.
Qed.

(** X10: when the settings hold the keys ["kernel"], ["Zinit"] and
    ["fix_w"], as those built from the command line do, [setup_model] has
    three outcomes only.  It returns, for a supported kernel, with the model
    built over [X] and [Y]; it raises [NotImplementedError] for any other
    kernel, the state untouched; or it raises [AttributeError] because
    [fix_w] is set and the kernel has no [W], and then the model has
    already been assigned, unfixed. *)
Theorem setup_model_outcomes (w : world) (kv zinit fw : pyval) :
  run_settings w !! "kernel" = Some kv ->
  run_settings w !! "Zinit" = Some zinit ->
  run_settings w !! "fix_w" = Some fw ->
  match (setup_model w).1 with
  | Ret _ =>
      kv ∈ VStr <$> supported_kernels /\ model_built (setup_model w).2
  | Raise e =>
      (e = NotImplementedError /\ (kv ∉ VStr <$> supported_kernels) /\
       (setup_model w).2 = w) \/
      (e = AttributeError "W" /\ (kv ∈ VStr <$> supported_kernels) /\
       truthy fw = true /\
       exists model : SVGP,
         m (exp (setup_model w).2) = Some model /\
         has_W (svgp_kern model) = false /\ W_fixed model = false)
  end.
Proof.
  intros Hk Hz Hfw.
  destruct (decide (kv ∈ VStr <$> supported_kernels)) as [Hin|Hnin].
  2:{ rewrite (setup_model_unsupported w kv Hk Hnin). simpl. left. auto. }
  pose proof Hin as Hin'. unfold supported_kernels in Hin'. simpl in Hin'.
  rewrite !elem_of_cons, elem_of_nil in Hin'.
  unfold setup_model, choose_kernel, random_rows, SVGP_new, getitem. py_unfold.
  cbv beta. rewrite Hk, Hz, Hfw.
  destruct Hin' as [->|[->|[->|[->|[->|[]]]]]]; cbn;
    repeat match goal with
           | |- context [permutation ?n ?g] => destruct (permutation n g) as [? ?]; cbn
           | |- context [init_inducing ?a ?b ?c ?d ?e] =>
               destruct (init_inducing a b c d e) as [? ?]; cbn
           end;
    destruct (truthy fw) eqn:Htr; cbn;
    try match goal with
        | |- context [has_W ?k] => destruct (has_W k) eqn:HW; cbn
        end;
    first
      [ split; [exact Hin|]; eexists; repeat split; reflexivity
      | right; split; [reflexivity|]; split; [exact Hin|]; split; [reflexivity|];
        eexists; split; [reflexivity|]; split; [exact HW|reflexivity] ].
Qed.

(** X11: settings that lack a key raise [KeyError] naming it: without
    ["kernel"] at once; for ["conv"] and ["wconv"] without ["Zinit"] before
    anything is built or drawn; and for the dense kernels without ["fix_w"]
    only after the model has been assigned. *)
Theorem setup_model_missing_settings (w : world) :
  match run_settings w !! "kernel" with
  | None => setup_model w = (Raise (KeyError "kernel"), w)
  | Some kv =>
      (kv ∈ [VStr "conv"; VStr "wconv"] ->
       run_settings w !! "Zinit" = None ->
       setup_model w = (Raise (KeyError "Zinit"), w)) /\
      (kv ∈ VStr <$> dense_kernels ->
       run_settings w !! "fix_w" = None ->
       (setup_model w).1 = Raise (KeyError "fix_w") /\
       is_Some (m (exp (setup_model w).2)))
  end.
Proof.
  destruct (run_settings w !! "kernel") as [kv|] eqn:Hk.
  2:{ unfold setup_model, getitem. py_unfold. rewrite Hk. reflexivity. }
  split.
  - rewrite !elem_of_cons, elem_of_nil. intros Hin Hz.
    unfold setup_model, choose_kernel, getitem. py_unfold. cbv beta. rewrite Hk, Hz.
    destruct Hin as [->|[->|[]]]; reflexivity.
  - unfold dense_kernels. simpl. rewrite !elem_of_cons, elem_of_nil. intros Hin Hfw.
    unfold setup_model, choose_kernel, random_rows, SVGP_new, getitem. py_unfold.
    cbv beta. rewrite Hk, Hfw.
    destruct Hin as [->|[->|[->|[]]]]; cbn;
      destruct (permutation _ _) as [? ?]; cbn; split; eauto.
Qed.

(** X5: with a schedule constant of 0 and no history file, the floor
    division of the literal [1.0] raises [ZeroDivisionError] in the first
    pass, before anything is set up, and the loop ends there. *)
Theorem zero_schedule_constant_first_launch
    (args : Namespace) (lr_base : pyval) (n : nat) (w : world) :
  learning_rate_schedule_const args = 0 ->
  fs w !! hist_path (exp w) = None ->
  training_launch args lr_base w = (Raise ZeroDivisionError, w) /\
  training_loop (S n) args lr_base w = (Raise ZeroDivisionError, w).
Proof.
  intros Hc Hfs.
  assert (Hs : schedule_learning_rate args lr_base w = (Raise ZeroDivisionError, w)).
  { unfold schedule_learning_rate. py_unfold. cbv beta.
    rewrite (schedule_i_absent w Hfs). cbv beta iota.
    unfold derive_learning_rate, schedule_base. rewrite Hc.
    destruct (decide (0 = 0)) as [_|Hn]; [reflexivity|contradiction]. }
  assert (Hl : training_launch args lr_base w = (Raise ZeroDivisionError, w)).
  { unfold training_launch. py_unfold. cbv beta. rewrite Hs. reflexivity. }
  split; [exact Hl|]. simpl. py_unfold. cbv beta. rewrite Hl. reflexivity.
Qed.

(** X15: the loop handles no exception: once a pass has raised, the
    process has ended with that exception and state, and no later pass
    starts, however many more passes are observed. *)
Theorem training_loop_stops_at_exception
    (n k : nat) (args : Namespace) (lr_base : pyval) (w : world) (e : exn) :
  (training_loop n args lr_base w).1 = Raise e ->
  training_loop (n + k) args lr_base w = training_loop n args lr_base w /\
  launch_states (n + k) args lr_base w = launch_states n args lr_base w.
Proof.
  revert w. induction n as [|n IH]; intros w Hr; [discriminate|].
  cbn [Nat.add training_loop launch_states] in *.
  unfold mbind, Py_bind in *.
  destruct (training_launch args lr_base w) as [[[]|e1] w1] eqn:Hl.
  - destruct (IH w1 Hr) as [IH1 IH2]. rewrite IH1, IH2. split; reflexivity.
  - split; reflexivity.
Qed.

End Setup3.

(** ** More on the logger and on reseeding *)

Section Logger.
Context `{External}.

(** X12: [setup_logger] either fails with the exception of the history
    reader, the state untouched, or returns having changed nothing but the
    logger and the output: the history file, the settings, the generators
    and the model are as before; the resume message is printed exactly when
    a history was loaded; the helper gets six tasks, its tracker the loaded
    history, and its store task the path the history was read from. *)
Theorem setup_logger_effect (w : world) :
  match load_history (fs w) (hist_path (exp w)) with
  | Raise e => setup_logger w = (Raise e, w)
  | Ret h =>
      let w' := (setup_logger w).2 in
      (setup_logger w).1 = Ret tt /\
      fs w' = fs w /\ run_settings w' = run_settings w /\
      heap w' = heap w /\ np_random w' = np_random w /\
      m (exp w') = m (exp w) /\
      new_events setup_logger w
        = (if h is Some _
           then [EPrint [VStr "Resuming from %s..."; VStr (hist_path (exp w))]]
           else []) /\
      exists lg : GPflowOptimisationHelper,
        logger (exp w') = Some lg /\
        length (helper_tasks lg) = 6%nat /\
        old_hist_of (helper_tasks lg) = h /\
        forall path s trig v,
          StoreOptimisationHistory path s trig v ∈ helper_tasks lg ->
          path = hist_path (exp w)
  end.
Proof.
  destruct (load_history (fs w) (hist_path (exp w))) as [h|e] eqn:Hl.
  2:{ unfold setup_logger. py_unfold. cbv beta. rewrite Hl. reflexivity. }
  assert (Hstore : forall rs path s trig v,
             StoreOptimisationHistory path s trig v ∈ tasks (exp w) rs h ->
             path = hist_path (exp w)).
  { intros rs path s trig v. unfold tasks.
    rewrite !elem_of_cons, elem_of_nil.
    intros [Heq|[Heq|[Heq|[Heq|[Heq|[Heq|[]]]]]]]; try discriminate.
    injection Heq as -> _ _ _. reflexivity. }
  unfold setup_logger, new_events. py_unfold. cbv beta. rewrite Hl.
  destruct h as [h0|]; cbn.
  - repeat split; try reflexivity.
    + rewrite drop_app_length. reflexivity.
    + eexists. split; [reflexivity|]. cbn. repeat split. apply Hstore.
  - repeat split; try reflexivity.
    + rewrite drop_all. reflexivity.
    + eexists. split; [reflexivity|]. cbn. repeat split. apply Hstore.
Qed.

(** X13: after [reseed] the index lists either sampler will draw are
    those drawn from [RandomState(seed)] for its data size and minibatch
    size: they depend on the drawn seed alone, not on what the samplers
    drew before. *)
Theorem reseeded_sequence_depends_on_seed_only (w : world) (model : SVGP) :
  m (exp w) = Some model ->
  let seed := (randint 0 (10 ^ 9) (np_random w)).1 in
  exists model' : SVGP,
    m (exp (reseed w).2) = Some model' /\
    forall k : nat,
      index_sequence k (index_manager_of (svgp_X model')) (heap (reseed w).2)
      = draws k (total_size (index_manager_of (svgp_X model)))
          (minibatch_size (index_manager_of (svgp_X model))) (RandomState seed) /\
      index_sequence k (index_manager_of (svgp_Y model')) (heap (reseed w).2)
      = draws k (total_size (index_manager_of (svgp_Y model)))
          (minibatch_size (index_manager_of (svgp_Y model))) (RandomState seed).
Proof.
  intros Hm seed.
  destruct (reseed_explicit w model Hm) as (_ & Hh & Hm' & _).
  fold seed in Hh.
  set (a := fresh (dom (heap w))) in *.
  set (h1 := <[a := RandomState seed]> (heap w)) in *.
  set (b := fresh (dom h1)) in *.
  assert (Hab : a <> b).
  { intros Heq. pose proof (is_fresh (dom h1)) as Hf. fold b in Hf.
    apply Hf. rewrite <- Heq. unfold h1. rewrite dom_insert_L. set_solver. }
  assert (Ha : heap (reseed w).2 !! a = Some (RandomState seed)).
  { rewrite Hh, lookup_insert_ne by congruence. apply lookup_insert_eq. }
  assert (Hb : heap (reseed w).2 !! b = Some (RandomState seed)).
  { rewrite Hh. apply lookup_insert_eq. }
  eexists. split; [exact Hm'|]. intros k. split.
  - rewrite (index_sequence_draws k _ _ (RandomState seed)); [reflexivity|exact Ha].
  - rewrite (index_sequence_draws k _ _ (RandomState seed)); [reflexivity|exact Hb].
Qed.

(** X14: [reseed] changes nothing but the generators: every generator
    object that existed keeps its state, exactly two objects are added, the
    global generator advances by the one draw of the seed, the history
    file, the settings and the output are untouched, and the model keeps
    its data, kernel, inducing inputs, parameters and minibatch sizes. *)
Theorem reseed_frame (w : world) (model : SVGP) :
  m (exp w) = Some model ->
  let w' := (reseed w).2 in
  (forall (a : nat) (s : rng_state), heap w !! a = Some s -> heap w' !! a = Some s) /\
  size (heap w') = (size (heap w) + 2)%nat /\
  np_random w' = (randint 0 (10 ^ 9) (np_random w)).2 /\
  fs w' = fs w /\ run_settings w' = run_settings w /\ trace w' = trace w /\
  exists model' : SVGP,
    m (exp w') = Some model' /\
    value (svgp_X model') = value (svgp_X model) /\
    value (svgp_Y model') = value (svgp_Y model) /\
    svgp_kern model' = svgp_kern model /\
    svgp_Z model' = svgp_Z model /\
    free_state model' = free_state model /\
    minibatch_size (index_manager_of (svgp_X model'))
      = minibatch_size (index_manager_of (svgp_X model)) /\
    minibatch_size (index_manager_of (svgp_Y model'))
      = minibatch_size (index_manager_of (svgp_Y model)).
Proof.
  intros Hm w'.
  destruct (reseed_explicit w model Hm) as (_ & Hh & Hm' & Hg & Hfs & Hrs & Htr & _).
  fold w' in Hh, Hm', Hg, Hfs, Hrs, Htr.
  set (seed := (randint 0 (10 ^ 9) (np_random w)).1) in *.
  set (a := fresh (dom (heap w))) in *.
  set (h1 := <[a := RandomState seed]> (heap w)) in *.
  set (b := fresh (dom h1)) in *.
  assert (Ha : heap w !! a = None).
  { apply not_elem_of_dom. apply is_fresh. }
  assert (Hb : h1 !! b = None).
  { apply not_elem_of_dom. apply is_fresh. }
  split; [|split; [|split; [exact Hg|split; [exact Hfs|split; [exact Hrs|split;
    [exact Htr|]]]]]].
  - intros c s Hc. rewrite Hh.
    assert (c <> a) by (intros ->; congruence).
    assert (Hc1 : h1 !! c = Some s) by (unfold h1; rewrite lookup_insert_ne; auto).
    assert (c <> b) by (intros ->; congruence).
    rewrite lookup_insert_ne by auto. exact Hc1.
  - rewrite Hh. rewrite map_size_insert_None by exact Hb.
    unfold h1. rewrite map_size_insert_None by exact Ha. lia.
  - eexists. split; [exact Hm'|]. cbn. repeat split; reflexivity.
Qed.

End Logger.

(** ** More on the held-out metrics *)

Lemma mapM_Ret_length {A B} (f : A -> outcome B) (l : list A) (k : list B) :
  mapM f l = Ret k -> length k = length l.
Proof.
  revert k. induction l as [|x l IH]; intros k.
  - intros [= <-]. reflexivity.
  - change (mapM f (x :: l)) with (f x ≫= fun y => mapM f l ≫= fun k => mret (y :: k)).
    destruct (f x) as [y|e]; [|discriminate]. rewrite bind_Ret.
    destruct (mapM f l) as [k'|e]; [|discriminate]. rewrite bind_Ret.
    intros [= <-]. simpl. f_equal. apply IH. reflexivity.
Qed.

Lemma broadcast2_nil {A B} (xs : list A) (ys : list B) :
  broadcast2 xs ys = Ret [] -> xs = [] \/ ys = [].
Proof.
  unfold broadcast2. destruct (decide (length xs = length ys)) as [Hl|Hl].
  - intros [= Hz]. destruct xs; [left; reflexivity|]. destruct ys; [right; reflexivity|].
    discriminate.
  - destruct xs as [|x [|x' xs]]; [left; reflexivity| |];
      destruct ys as [|y [|y' ys]]; try (right; reflexivity); try discriminate;
      simpl in Hl; try lia.
Qed.

Lemma mean_of_indicators {A} (g : A -> bool) (l : list A) :
  l <> [] ->
  exists r : R,
    np_mean ((fun x => float_of_bool (g x)) <$> l) = Fin r /\ (0 <= r <= 1)%R.
Proof.
  intros Hne.
  assert (Heq : (fun x => float_of_bool (g x)) <$> l
                = Fin <$> ((fun x => if g x then 1%R else 0%R) <$> l)).
  { rewrite <- list_fmap_compose. apply list_fmap_ext. intros _ x _.
    unfold float_of_bool. simpl. destruct (g x); reflexivity. }
  rewrite Heq, np_mean_fin.
  2:{ intros Hnil. apply fmap_nil_inv in Hnil. contradiction. }
  eexists. split; [reflexivity|].
  rewrite indicator_sum, length_fmap.
  assert (Hpos : (0 < INR (length l))%R).
  { apply lt_0_INR. destruct l; [contradiction|simpl; lia]. }
  assert (Hle : (INR (length (filter (fun x => g x = true) l)) <= INR (length l))%R).
  { apply le_INR. apply length_filter. }
  pose proof (pos_INR (length (filter (fun x => g x = true) l))) as H0.
  split.
  - apply Rmult_le_pos; [exact H0|]. apply Rlt_le, Rinv_0_lt_compat. exact Hpos.
  - apply Rmult_le_reg_r with (INR (length l)); [exact Hpos|].
    unfold Rdiv. rewrite Rmult_assoc, Rinv_l by lra. lra.
Qed.

(** X16: the accuracy of the benchmark is never infinite; when it is a
    number it lies between 0 and 1, and it is [nan] only for an empty set of
    predictions or labels. *)
Theorem accuracy_range (p : list (list R)) (Yt : list (list Z)) :
  match accuracy p Yt with
  | Ret (Fin r) => (0 <= r <= 1)%R
  | Ret NaN => p = [] \/ Yt = []
  | Ret _ => False
  | Raise _ => True
  end.
Proof.
  unfold accuracy.
  destruct (mapM argmax p) as [pred|e] eqn:Hp; [|exact I].
  rewrite bind_Ret.
  destruct (column0 Yt) as [truth|e] eqn:Ht; [|exact I].
  rewrite bind_Ret.
  destruct (broadcast2 pred truth) as [pairs|e] eqn:Hb; [|exact I].
  rewrite bind_Ret. unfold mret, outcome_ret.
  destruct pairs as [|pr pairs].
  - cbn. apply broadcast2_nil in Hb as [->| ->].
    + left. apply mapM_Ret_length in Hp. destruct p; [reflexivity|discriminate].
    + right. apply mapM_Ret_length in Ht. destruct Yt; [reflexivity|discriminate].
  - destruct (mean_of_indicators
                (fun ay : nat * Z => bool_decide (Z.of_nat ay.1 = ay.2)) (pr :: pairs))
      as (r & Hr & Hrange); [discriminate|].
    assert (Heq : (fun '(a, y) => float_of_bool (bool_decide (Z.of_nat a = y)))
                    <$> (pr :: pairs)
                  = (fun ay : nat * Z =>
                       float_of_bool (bool_decide (Z.of_nat ay.1 = ay.2)))
                      <$> (pr :: pairs)).
    { apply list_fmap_ext. intros _ [a y] _. reflexivity. }
    rewrite Heq, Hr. exact Hrange.
Qed.

Lemma Rsum_nonpos (l : list R) : Forall (fun x => (x <= 0)%R) l -> (Rsum l <= 0)%R.
Proof.
  induction 1 as [|x l Hx _ IH]; [simpl; lra|].
  unfold Rsum in *. simpl. lra.
Qed.

(** X17: when every point's label indexes its row at a probability in
    [(0, 1]], the log predictive probability is a number and is at most
    0. *)
Theorem log_predictive_probability_nonpositive
    (p : list (list R)) (Xt : list row) (labels : list Z) :
  Xt <> [] ->
  length p = length Xt ->
  Forall2 (fun pr y => scored pr y /\ (nth (Z.to_nat y) pr 0 <= 1)%R) p labels ->
  exists r : R,
    log_predictive_probability p Xt ((fun y => [y]) <$> labels) = Ret (Fin r) /\
    (r <= 0)%R.
Proof.
  intros Hne Hlen Hs.
  assert (Hsc : Forall2 scored p labels).
  { eapply Forall2_impl; [exact Hs|]. intros pr y [H1 _]. exact H1. }
  pose proof (Forall2_length _ _ _ Hsc) as Hpl.
  assert (Hzne : zip p labels <> []).
  { destruct p; [destruct Xt; [contradiction|discriminate]|].
    destruct labels; [discriminate|]. discriminate. }
  eexists. split.
  - unfold log_predictive_probability, fancy_index.
    rewrite concat_singletons.
    unfold broadcast2. rewrite decide_True by (rewrite length_seq; lia).
    rewrite <- Hlen.
    pose proof (gather_true_label [] p labels Hsc) as Hg.
    cbn [app length] in Hg.
    rewrite bind_Ret, Hg, bind_Ret. unfold mret, outcome_ret.
    rewrite (log_scored p labels Hsc), np_mean_fin.
    2:{ intros Hnil. apply fmap_nil_inv in Hnil. contradiction. }
    reflexivity.
  - rewrite length_fmap.
    assert (Hpos : (0 < INR (length (zip p labels)))%R).
    { apply lt_0_INR. destruct (zip p labels); [contradiction|simpl; lia]. }
    assert (Hsum : (Rsum ((fun pt => ln (true_label_probability pt)) <$> zip p labels)
                    <= 0)%R).
    { apply Rsum_nonpos. clear -Hs.
      induction Hs as [|pr y p labels [[_ Hp] H1] _ IH]; [constructor|].
      cbn [zip_with fmap list_fmap]. constructor; [|exact IH].
      unfold true_label_probability. simpl.
      destruct H1 as [Hlt|Heq]; [|rewrite Heq, ln_1; lra].
      apply Rle_trans with (ln 1); [|rewrite ln_1; lra].
      apply Rlt_le, ln_increasing; assumption. }
    apply Rmult_le_reg_r with (INR (length (zip p labels))); [exact Hpos|].
    unfold Rdiv. rewrite Rmult_assoc, Rinv_l by lra. lra.
Qed.

Lemma log_predictive_probability_nonpositive_witness :
  let p := [[1 / 4; 3 / 4]%R] in
  let Xt : list row := [[1%R]] in
  Xt <> [] /\
  length p = length Xt /\
  Forall2 (fun pr y => scored pr y /\ (nth (Z.to_nat y) pr 0 <= 1)%R) p [1] /\
  exists r : R,
    log_predictive_probability p Xt [[1]] = Ret (Fin r) /\ (r <= 0)%R.
Proof.
  intros p Xt.
  assert (H1 : Xt <> []) by discriminate.
  assert (H2 : length p = length Xt) by reflexivity.
  assert (H3 : Forall2 (fun pr y => scored pr y /\ (nth (Z.to_nat y) pr 0 <= 1)%R)
                 p [1]).
  { repeat constructor; simpl; try lia; lra. }
  split; [exact H1|]. split; [exact H2|]. split; [exact H3|].
  exact (log_predictive_probability_nonpositive p Xt [1] H1 H2 H3).
Defined.

Lemma index_wrap_raises {A} (l : list A) (c : Z) (e : exn) :
  index_wrap l c = Raise e -> e = IndexError.
Proof.
  unfold index_wrap. repeat case_match; intros [=]; congruence.
Qed.

Lemma index_wrap_out_of_range {A} (l : list A) (c : Z) :
  Z.of_nat (length l) <= c \/ c < - Z.of_nat (length l) ->
  index_wrap l c = Raise IndexError.
Proof.
  intros Hc. unfold index_wrap.
  destruct (c <? 0) eqn:Hneg.
  - destruct (c + Z.of_nat (length l) <? 0) eqn:H2; [reflexivity|].
    apply Z.ltb_lt in Hneg. apply Z.ltb_ge in H2. lia.
  - rewrite Hneg. apply Z.ltb_ge in Hneg.
    destruct (l !! Z.to_nat c) eqn:Hl; [|reflexivity].
    apply lookup_lt_Some in Hl. lia.
Qed.

Lemma mapM_raises {A B} (f : A -> outcome B) (l : list A) (x : A) (e0 : exn) :
  (forall y e, f y = Raise e -> e = e0) ->
  x ∈ l -> f x = Raise e0 -> mapM f l = Raise e0.
Proof.
  intros Hall Hin Hx. induction l as [|y l IH]; [apply elem_of_nil in Hin; contradiction|].
  change (mapM f (y :: l)) with (f y ≫= fun z => mapM f l ≫= fun k => mret (z :: k)).
  destruct (f y) as [z|e] eqn:Hy.
  - rewrite bind_Ret. apply elem_of_cons in Hin as [->|Hin]; [congruence|].
    rewrite (IH Hin). reflexivity.
  - simpl. f_equal. exact (Hall y e Hy).
Qed.

(** X18: a label that is outside the index range of its row of
    probabilities, at or above the number of classes or below its negative,
    makes the log predictive probability raise [IndexError]. *)
Theorem label_out_of_range_raises
    (p : list (list R)) (Xt : list row) (labels : list Z)
    (n : nat) (pr : list R) (y : Z) :
  length p = length Xt ->
  length labels = length Xt ->
  p !! n = Some pr ->
  labels !! n = Some y ->
  Z.of_nat (length pr) <= y \/ y < - Z.of_nat (length pr) ->
  log_predictive_probability p Xt ((fun y => [y]) <$> labels) = Raise IndexError.
Proof.
  intros Hp Hl Hpn Hln Hy.
  unfold log_predictive_probability, fancy_index.
  rewrite concat_singletons.
  unfold broadcast2. rewrite decide_True by (rewrite length_seq; lia).
  rewrite bind_Ret.
  match goal with
  | |- context [mapM ?f ?l] =>
      assert (Hm : mapM f l = Raise IndexError)
  end.
  { apply (mapM_raises _ _ (n, y)).
    - intros [r c] e. destruct (p !! r); [apply index_wrap_raises|intros [= <-]; reflexivity].
    - apply list_elem_of_lookup. exists n. rewrite lookup_zip_with.
      rewrite lookup_seq_lt by (apply lookup_lt_Some in Hpn; lia).
      simpl. rewrite Hln. reflexivity.
    - simpl. rewrite Hpn. apply index_wrap_out_of_range. exact Hy. }
  rewrite Hm. reflexivity.
Qed.

Lemma label_out_of_range_raises_witness :
  let p := [[1 / 4; 3 / 4]%R] in
  let Xt : list row := [[1%R]] in
  length p = length Xt /\
  length [2] = length Xt /\
  p !! 0%nat = Some [1 / 4; 3 / 4]%R /\
  [2] !! 0%nat = Some 2 /\
  (Z.of_nat (length [1 / 4; 3 / 4]%R) <= 2 \/ 2 < - Z.of_nat (length [1 / 4; 3 / 4]%R)) /\
  log_predictive_probability p Xt [[2]] = Raise IndexError.
Proof.
  intros p Xt.
  assert (H1 : length p = length Xt) by reflexivity.
  assert (H2 : length [2] = length Xt) by reflexivity.
  assert (H3 : p !! 0%nat = Some [1 / 4; 3 / 4]%R) by reflexivity.
  assert (H4 : [2] !! 0%nat = Some 2) by reflexivity.
  assert (H5 : Z.of_nat (length [1 / 4; 3 / 4]%R) <= 2
               \/ 2 < - Z.of_nat (length [1 / 4; 3 / 4]%R)) by (left; simpl; lia).
  split; [exact H1|]. split; [exact H2|]. split; [exact H3|]. split; [exact H4|].
  split; [exact H5|].
  exact (label_out_of_range_raises p Xt [2] 0 _ 2 H1 H2 H3 H4 H5).
Defined.

(** X20: the class [argmax] predicts for a row is in range, no entry of
    the row is greater than its entry, and every entry before it is
    strictly smaller: it is the first maximum.  Only the empty row
    raises. *)
Theorem argmax_is_first_maximum (l : list R) :
  match argmax l with
  | Raise e => l = [] /\ e = ValueError
  | Ret a =>
      (a < length l)%nat /\
      forall (q : nat) (x : R),
        l !! q = Some x ->
        (x <= nth a l 0)%R /\ ((q < a)%nat -> (x < nth a l 0)%R)
  end.
Proof.
  destruct l as [|x0 l]; [split; reflexivity|].
  simpl argmax.
  pose proof (argmax_from_spec l x0 0%nat 1%nat ltac:(lia)) as Hs. cbv zeta in Hs.
  destruct Hs as (Hpos & Hge & Hgt & Hall).
  set (a := argmax_from x0 0 1 l) in *.
  assert (Hv : (if decide (a = 0%nat) then x0 else nth (a - 1) l 0%R)
               = nth a (x0 :: l) 0%R).
  { destruct (decide (a = 0%nat)) as [->|Hn]; [reflexivity|].
    destruct a; [contradiction|]. simpl. rewrite Nat.sub_0_r. reflexivity. }
  rewrite Hv in *.
  split; [simpl; lia|].
  intros [|q] x Hq; simpl in Hq.
  - injection Hq as <-. split; [exact Hge|]. intros Hq. apply Hgt. lia.
  - destruct (Hall q x Hq) as (H1 & H2 & _). split; [exact H1|].
    intros Hq'. apply H2. lia.
Qed.

Section Benchmarks.
Context `{External}.

Lemma exp_setup_trace (w : world) :
  trace (exp_setup w).2 = (trace w ++ new_events exp_setup w)%list.
Proof.
  destruct (exp_setup_wp w) as (evs & Htr & _).
  unfold new_events. rewrite Htr, drop_app_length. reflexivity.
Qed.

(** X19: the benchmark branch computes both metrics before it prints:
    after the output of the setup it prints the accuracy line and then the
    log-predictive-probability line when it returns, and prints neither
    when it raises. *)
Theorem run_benchmarks_prints_both_or_none (w : world) :
  match (run_benchmarks w).1 with
  | Ret _ =>
      exists acc lpp : pyfloat,
        new_events run_benchmarks w
        = (new_events exp_setup w
           ++ [EPrint [VStr "Accuracy: %f"; VFloat acc];
               EPrint [VStr "Lpp     : %f"; VFloat lpp]])%list
  | Raise _ => new_events run_benchmarks w = new_events exp_setup w
  end.
Proof.
  pose proof (exp_setup_trace w) as Htr.
  unfold run_benchmarks, new_events at 1 3, the_model. py_unfold. cbv beta.
  destruct (exp_setup w) as [[[]|e] w1] eqn:Hs; simpl in Htr; cbn.
  2:{ rewrite Htr, drop_app_length. reflexivity. }
  destruct (m (exp w1)) as [model|]; cbn.
  2:{ rewrite Htr, drop_app_length. reflexivity. }
  destruct (log_predictive_probability _ _ _) as [lpp|e]; cbn.
  2:{ rewrite Htr, drop_app_length. reflexivity. }
  destruct (accuracy _ _) as [acc|e]; cbn.
  2:{ rewrite Htr, drop_app_length. reflexivity. }
  exists acc, lpp. rewrite Htr, <- !app_assoc, drop_app_length. reflexivity.
Qed.

End Benchmarks.

(** ** The settings and the name of the experiment *)

Lemma command_line_lookups (args : Namespace) (lr : pyval) :
  let rs := <["learning_rate" := lr]> (initial_run_settings args) in
  rs !! "kernel"%string = Some (opt_str (kernel args)) /\
  rs !! "Zinit"%string = Some (VStr (Zinit args)) /\
  rs !! "fix_w"%string = Some (VBool (fix_w args)) /\
  rs !! "fixed"%string = Some (VBool (fixed args)) /\
  rs !! "minibatch_size"%string = Some (VInt (arg_minibatch_size args)).
Proof.
  intros rs. unfold rs.
  rewrite !lookup_insert_ne by discriminate. repeat split; reflexivity.
Qed.

Section Settings.
Context `{External}.

(** X7: the settings built from the command line, also after a pass of
    the loop has stored its rate in them, give [setup_model] every key it
    subscripts: it never raises [KeyError].  When it returns, the model
    has the minibatch size of [--minibatch-size], never the default [M];
    its kernel is fixed as [--fixed] says; and [W] is fixed exactly when
    [--fix-w] was given. *)
Theorem command_line_settings_suffice (args : Namespace) (lr : pyval) (w : world) :
  run_settings w = <["learning_rate" := lr]> (initial_run_settings args) ->
  (forall key : string, (setup_model w).1 <> Raise (KeyError key)) /\
  ((setup_model w).1 = Ret tt ->
   exists model : SVGP,
     m (exp (setup_model w).2) = Some model /\
     kern_fixed model = VBool (fixed args) /\
     minibatch_size (index_manager_of (svgp_X model)) = VInt (arg_minibatch_size args) /\
     minibatch_size (index_manager_of (svgp_Y model)) = VInt (arg_minibatch_size args) /\
     W_fixed model = fix_w args).
Proof.
  intros Hrs.
  destruct (command_line_lookups args lr) as (Hk & Hz & Hfw & Hfx & Hmb).
  cbv zeta in Hk, Hz, Hfw, Hfx, Hmb. rewrite <- Hrs in Hk, Hz, Hfw, Hfx, Hmb.
  destruct (decide (opt_str (kernel args) ∈ VStr <$> supported_kernels)) as [Hin|Hnin].
  2:{ rewrite (setup_model_unsupported w _ Hk Hnin). simpl.
      split; [intros key; discriminate | discriminate]. }
  unfold supported_kernels in Hin. simpl in Hin.
  rewrite !elem_of_cons, elem_of_nil in Hin.
  unfold setup_model, choose_kernel, random_rows, SVGP_new, getitem, dict_get.
  py_unfold. cbv beta. rewrite Hk, Hz, Hfw, Hfx, Hmb.
  destruct Hin as [->|[->|[->|[->|[->|[]]]]]]; cbn;
    repeat match goal with
           | |- context [permutation ?n ?g] => destruct (permutation n g) as [? ?]; cbn
           | |- context [init_inducing ?a ?b ?c ?d ?e] =>
               destruct (init_inducing a b c d e) as [? ?]; cbn
           end;
    destruct (fix_w args) eqn:Htr; cbn;
    try match goal with
        | |- context [has_W ?k] => destruct (has_W k) eqn:HW; cbn
        end;
    (split; [intros key; discriminate|]);
    first [ discriminate
          | intros _; eexists; split; [reflexivity|]; cbn; repeat split; reflexivity ].
Qed.

End Settings.

Lemma pretty_N_char_head (x : N) (s : string) :
  numeral_head (String (pretty_N_char x) s).
Proof.
  unfold numeral_head, pretty_N_char.
  repeat case_match; rewrite !elem_of_cons; tauto.
Qed.

Lemma pretty_N_go_head (x : N) (s : string) :
  (x = 0%N -> numeral_head s) -> numeral_head (pretty_N_go x s).
Proof.
  revert s. induction (N.lt_wf_0 x) as [x _ IH]; intros s Hs.
  assert (x = 0 \/ 0 < x)%N as [->|Hpos] by lia.
  - rewrite pretty_N_go_0. apply Hs. reflexivity.
  - rewrite pretty_N_go_step by exact Hpos. apply IH.
    + apply N.div_lt; lia.
    + intros _. apply pretty_N_char_head.
Qed.

Lemma pretty_Z_head (z : Z) : numeral_head (pretty z).
Proof.
  assert (HN : forall p : positive, numeral_head (pretty (N.pos p))).
  { intros p. unfold pretty, pretty_N.
    destruct (decide (N.pos p = 0%N)) as [Hp|_]; [discriminate|].
    apply pretty_N_go_head. discriminate. }
  destruct z as [|p|p].
  - change (numeral_head (String (pretty_N_char 0) "")). apply pretty_N_char_head.
  - apply HN.
  - change (numeral_head ("-" +:+ pretty p)). unfold numeral_head.
    cbn [String.append]. apply list_elem_of_here.
Qed.

Lemma numeral_head_letter (c : Ascii.ascii) (s : string) :
  String c "" ∈ ["p"; "r"; "c"; "w"]%string -> ~ numeral_head (String c s).
Proof.
  unfold numeral_head. rewrite !elem_of_cons, !elem_of_nil.
  intros [Hc|[Hc|[Hc|[Hc|[]]]]]; injection Hc as ->;
    intros [Hd|[Hd|[Hd|[Hd|[Hd|[Hd|[Hd|[Hd|[Hd|[Hd|[Hd|[]]]]]]]]]]]]; discriminate.
Qed.

Lemma default_name_injective (k1 k2 : string) (M1 M2 : Z) :
  k1 ∈ supported_kernels -> k2 ∈ supported_kernels ->
  default_name (VStr k1) M1 = default_name (VStr k2) M2 ->
  k1 = k2 /\ M1 = M2.
Proof.
  unfold supported_kernels. rewrite !elem_of_cons, !elem_of_nil.
  intros [->|[->|[->|[->|[->|[]]]]]] [->|[->|[->|[->|[->|[]]]]]];
    unfold default_name; cbn; intros Heq; try discriminate;
    repeat (injection Heq as Heq);
    try (split; [reflexivity | exact (inj pretty _ _ Heq)]).
  - exfalso. cbv [String.append] in Heq.
    pose proof (pretty_Z_head M1) as Hh. rewrite Heq in Hh.
    revert Hh. apply numeral_head_letter. rewrite !elem_of_cons. tauto.
  - exfalso. cbv [String.append] in Heq.
    pose proof (pretty_Z_head M2) as Hh. rewrite <- Heq in Hh.
    revert Hh. apply numeral_head_letter. rewrite !elem_of_cons. tauto.
Qed.

Section Names.
Context `{External}.

(** X8: two experiments named by default, over supported kernels, have
    the same name only if they have the same kernel and the same [M]. *)
Theorem default_names_distinct
    (k1 k2 : string) (M1 M2 : Z) (rs1 rs2 : gmap string pyval)
    (e1 e2 : MnistExperiment) :
  k1 ∈ supported_kernels ->
  k2 ∈ supported_kernels ->
  rs1 !! "kernel"%string = Some (VStr k1) ->
  rs2 !! "kernel"%string = Some (VStr k2) ->
  MnistExperiment_init None M1 rs1 = Ret e1 ->
  MnistExperiment_init None M2 rs2 = Ret e2 ->
  experiment_name e1 = experiment_name e2 ->
  k1 = k2 /\ M1 = M2.
Proof.
  intros Hk1 Hk2 Hrs1 Hrs2. unfold MnistExperiment_init, getitem.
  rewrite Hrs1, Hrs2. intros [= <-] [= <-]. cbn [experiment_name].
  apply default_name_injective; assumption.
Qed.

End Names.

Lemma default_names_distinct_witness :
  let rs := initial_run_settings (Demo.args (Some "rbf") 3600) in
  ("rbf" ∈ supported_kernels) /\
  rs !! "kernel"%string = Some (VStr "rbf") /\
  exists e : MnistExperiment,
    @MnistExperiment_init Demo.collaborators None 100 rs = Ret e /\
    ("rbf" = "rbf" /\ 100 = 100).
Proof.
  intros rs.
  assert (H1 : "rbf" ∈ supported_kernels)
    by (unfold supported_kernels; rewrite elem_of_cons; left; reflexivity).
  assert (H2 : rs !! "kernel"%string = Some (VStr "rbf")) by reflexivity.
  split; [exact H1|]. split; [exact H2|].
  eexists. split; [reflexivity|].
  exact (@default_names_distinct Demo.collaborators "rbf" "rbf" 100 100 rs rs _ _
           H1 H1 H2 H2 eq_refl eq_refl eq_refl).
Defined.

(** ** Further statements on the small instantiation *)

Lemma command_line_settings_suffice_witness :
  let args := Demo.args (Some "rbf") 3600 in
  let w := Demo.world_with (Some "rbf") 3600 ∅ in
  run_settings w
    = <["learning_rate" := VFloat (Fin (1 / 1000))]> (initial_run_settings args) /\
  (@setup_model Demo.collaborators w).1 = Ret tt /\
  exists model : SVGP,
    m (exp (@setup_model Demo.collaborators w).2) = Some model /\
    minibatch_size (index_manager_of (svgp_X model)) = VInt 100 /\
    W_fixed model = false.
Proof.
  intros args w.
  assert (H1 : run_settings w
               = <["learning_rate" := VFloat (Fin (1 / 1000))]> (initial_run_settings args)).
  { symmetry. apply insert_id. reflexivity. }
  assert (H2 : (@setup_model Demo.collaborators w).1 = Ret tt) by reflexivity.
  split; [exact H1|]. split; [exact H2|].
  destruct (@command_line_settings_suffice Demo.collaborators args _ w H1) as [_ Hm].
  destruct (Hm H2) as (model & Hmodel & _ & Hmb & _ & HW).
  exists model. split; [exact Hmodel|]. split; [exact Hmb | exact HW].
Defined.

Lemma setup_model_outcomes_witness :
  let w := Demo.world_with (Some "rbf") 3600 ∅ in
  run_settings w !! "kernel"%string = Some (VStr "rbf") /\
  run_settings w !! "Zinit"%string = Some (VStr "patches-unique") /\
  run_settings w !! "fix_w"%string = Some (VBool false) /\
  (@setup_model Demo.collaborators w).1 = Ret tt /\
  model_built (@setup_model Demo.collaborators w).2.
Proof.
  intros w.
  assert (H1 : run_settings w !! "kernel"%string = Some (VStr "rbf")) by reflexivity.
  assert (H2 : run_settings w !! "Zinit"%string = Some (VStr "patches-unique"))
    by reflexivity.
  assert (H3 : run_settings w !! "fix_w"%string = Some (VBool false)) by reflexivity.
  assert (Hr : (@setup_model Demo.collaborators w).1 = Ret tt) by reflexivity.
  split; [exact H1|]. split; [exact H2|]. split; [exact H3|]. split; [exact Hr|].
  pose proof (@setup_model_outcomes Demo.collaborators w _ _ _ H1 H2 H3) as Ht.
  rewrite Hr in Ht. exact (proj2 Ht).
Defined.

Lemma zero_schedule_constant_first_launch_witness :
  let args := Demo.args (Some "rbf") 0 in
  let w := Demo.world_with (Some "rbf") 0 ∅ in
  learning_rate_schedule_const args = 0 /\
  fs w !! hist_path (exp w) = None /\
  @training_loop Demo.collaborators 3 args (VFloat (Fin (1 / 1000))) w
  = (Raise ZeroDivisionError, w).
Proof.
  intros args w.
  assert (H1 : learning_rate_schedule_const args = 0) by reflexivity.
  assert (H2 : fs w !! hist_path (exp w) = None) by reflexivity.
  split; [exact H1|]. split; [exact H2|].
  exact (proj2 (@zero_schedule_constant_first_launch Demo.collaborators args
                  (VFloat (Fin (1 / 1000))) 2 w H1 H2)).
Defined.

Lemma training_loop_stops_at_exception_witness :
  let args := Demo.args (Some "rbf") 2 in
  let w := Demo.world_with (Some "rbf") 2
             {[ hist_path Demo.experiment := Unreadable (PickleError "truncated") ]} in
  (@training_loop Demo.collaborators 1 args (VFloat (Fin (1 / 1000))) w).1
  = Raise (PickleError "truncated") /\
  @training_loop Demo.collaborators (1 + 2) args (VFloat (Fin (1 / 1000))) w
  = @training_loop Demo.collaborators 1 args (VFloat (Fin (1 / 1000))) w.
Proof.
  intros args w.
  assert (H1 : (@training_loop Demo.collaborators 1 args (VFloat (Fin (1 / 1000))) w).1
               = Raise (PickleError "truncated")) by reflexivity.
  split; [exact H1|].
  exact (proj1 (@training_loop_stops_at_exception Demo.collaborators 1 2 args
                  (VFloat (Fin (1 / 1000))) w _ H1)).
Defined.

Lemma reseeded_sequence_depends_on_seed_only_witness :
  exists model : SVGP,
    m (exp Demo.ready) = Some model /\
    exists model' : SVGP,
      m (exp (@reseed Demo.collaborators Demo.ready).2) = Some model'.
Proof.
  assert (Hs : is_Some (m (exp Demo.ready))) by (eexists; reflexivity).
  destruct Hs as [model Hm].
  exists model. split; [exact Hm|].
  destruct (@reseeded_sequence_depends_on_seed_only Demo.collaborators
              Demo.ready model Hm) as (model' & Hm' & _).
  exists model'. exact Hm'.
Defined.

Lemma reseed_frame_witness :
  exists model : SVGP,
    m (exp Demo.ready) = Some model /\
    size (heap (@reseed Demo.collaborators Demo.ready).2)
    = (size (heap Demo.ready) + 2)%nat.
Proof.
  assert (Hs : is_Some (m (exp Demo.ready))) by (eexists; reflexivity).
  destruct Hs as [model Hm].
  exists model. split; [exact Hm|].
  exact (proj1 (proj2 (@reseed_frame Demo.collaborators Demo.ready model Hm))).
Defined.

(** On the small instantiation the reseeded samplers both draw the
    sequence of the seed. *)
Example demo_reseeded_sequence :
  let w' := (@reseed Demo.collaborators Demo.ready).2 in
  (fun model =>
     @index_sequence Demo.collaborators 3 (index_manager_of (svgp_X model)) (heap w'))
    <$> m (exp w')
  = Some [[1%nat]; [0%nat]; [1%nat]].
Proof. vm_compute. reflexivity. Qed.
